(** * MegaETH realtime client: JSON-RPC invoker, WebSocket manager and
      subscription registry

    Shallow embedding of [MegaETHClient] and [WebSocketManager]
    (src/operations/simulations.ts, second document of the file).

    JavaScript runs one macrotask at a time: a socket event, a timer or an
    API call runs to completion together with the promise continuations
    it wakes up.  The embedding therefore is a total function [step] from
    an event and a world to a world; [async] functions are cut at their
    [await] points and the suspended halves are stored in the world.  The
    event of an API call is a tick in which that call is the only code;
    [Block] is a tick in which several calls are made, the code after
    their [await]s running when the synchronous parts of all of them are
    done.

    What the embedding takes from outside the file: the [ws] socket moves
    its [readyState] before it emits an event, emits the [error] and the
    [close] of a connection that fails in one tick ([SocketFail]) and
    closes asynchronously after [close()]; a timer that is set fires at
    some later point unless it is cleared; the callbacks given to
    [setSubscriptionCallback] return normally and do not call the client;
    handles are made up by a function [mint].  The numbers of JSON are
    integers here, and so are the request ids, which they are below
    2^53; where the code makes a number of a string or a string of a
    number, the double nearest to the integer is taken ([to_number]). *)

From Stdlib Require Import ZArith List String Bool Lia Arith DecimalString Sorted.
From Stdlib Require Import Ascii.
Import ListNotations.
Open Scope string_scope.
Open Scope list_scope.
Open Scope Z_scope.

Set Implicit Arguments.
Set Warnings "-register-all".

(* ------------------------------------------------------------------ *)
(** ** JSON values ([any] in the source)                                *)
(* ------------------------------------------------------------------ *)

Module Json.

(** Numbers are the integers; [JUndefined] is an absent property. *)
Inductive json : Type :=
| JUndefined
| JNull
| JBool (b : bool)
| JNum (z : Z)
| JStr (s : string)
| JArr (items : list json)
| JObj (fields : list (string * json)).

(** [!!v] in JavaScript. *)
Definition truthy (v : json) : bool :=
  match v with
  | JUndefined | JNull => false
  | JBool b => b
  | JNum z => negb (z =? 0)
  | JStr s => negb (s =? "")%string
  | JArr _ | JObj _ => true
  end.

(** [a || b]. *)
Definition or_else (a b : json) : json := if truthy a then a else b.

Fixpoint assoc (k : string) (l : list (string * json)) : json :=
  match l with
  | [] => JUndefined
  | (k', v) :: l' => if (k' =? k)%string then v else assoc k l'
  end.

(** [v.k] for a [v] that is neither [null] nor [undefined]; a primitive or
    an array has none of the properties read by the client. *)
Definition field (k : string) (v : json) : json :=
  match v with
  | JObj l => assoc k l
  | _ => JUndefined
  end.

(** [null] and [undefined] have no properties: reading one throws. *)
Definition nullish (v : json) : bool :=
  match v with
  | JUndefined | JNull => true
  | _ => false
  end.

(** [a === b] for values that come from two different messages: primitives
    compare by value, arrays and objects by reference, and two parsed
    messages never share a reference. *)
Definition strict_eq (a b : json) : bool :=
  match a, b with
  | JUndefined, JUndefined => true
  | JNull, JNull => true
  | JBool x, JBool y => Bool.eqb x y
  | JNum x, JNum y => x =? y
  | JStr x, JStr y => (x =? y)%string
  | _, _ => false
  end.

(** [params[0]]. *)
Definition first (params : list json) : json :=
  match params with
  | [] => JUndefined
  | p :: _ => p
  end.

End Json.
Import Json.

(** [s.includes(pat)] on strings. *)
Fixpoint includes (s pat : string) : bool :=
  if prefix pat s then true
  else match s with
       | EmptyString => false
       | String _ s' => includes s' pat
       end.

(** [a.includes(pat)] on an array: some element is the string [pat]. *)
Definition array_includes (items : list json) (pat : string) : bool :=
  existsb (fun x => strict_eq x (JStr pat)) items.

(* ------------------------------------------------------------------ *)
(** ** Errors                                                           *)
(* ------------------------------------------------------------------ *)

(** The [MegaETHError] class and its subclasses; the constructor argument
    of each subclass is kept, the message text is derived from it. *)
Inductive MegaETHError : Type :=
| GenericError (message code data : json)
| RealtimeTransactionExpiredError (txHash : json)
| MiniBlockNotFoundError (blockNumber : json)
| SubscriptionLimitError (limit : Z).

Definition error_code (e : MegaETHError) : json :=
  match e with
  | GenericError _ c _ => c
  | RealtimeTransactionExpiredError _ => JStr "REALTIME_TX_EXPIRED"
  | MiniBlockNotFoundError _ => JStr "MINI_BLOCK_NOT_FOUND"
  | SubscriptionLimitError _ => JStr "SUBSCRIPTION_LIMIT_EXCEEDED"
  end.

Definition error_data (e : MegaETHError) : json :=
  match e with
  | GenericError _ _ d => d
  | _ => JUndefined
  end.

(** A thrown value.  [Plain] is any error that is not an instance of
    [MegaETHError]; [callRPC] may attach [rpcMethod] and [rpcParams] to
    it.  A [MegaETHError] has neither property. *)
Inductive Thrown : Type :=
| Mega (e : MegaETHError)
| Plain (message : string) (rpc : option (string * list json)).

Definition rpcMethod (t : Thrown) : option string :=
  match t with
  | Plain _ (Some (m, _)) => Some m
  | _ => None
  end.

Definition rpcParams (t : Thrown) : option (list json) :=
  match t with
  | Plain _ (Some (_, p)) => Some p
  | _ => None
  end.

Inductive Result (A : Type) : Type :=
| Ok (a : A)
| Err (t : Thrown).
Arguments Ok {A} a.
Arguments Err {A} t.

(* ------------------------------------------------------------------ *)
(** ** callRPC                                                          *)
(* ------------------------------------------------------------------ *)

(** What [httpClient.post] does: it resolves with [response.data], or it
    rejects with an error of its own (network failure, non-2xx status). *)
Inductive HttpOutcome : Type :=
| HttpData (data : json)
| HttpRejected (message : string).

(** [errorMessage.includes(pat)]: strings and arrays have the method, any
    other truthy value is a [TypeError]. *)
Definition message_includes (errorMessage : json) (pat : string) : option bool :=
  match errorMessage with
  | JStr s => Some (includes s pat)
  | JArr items => Some (array_includes items pat)
  | _ => None
  end.

(** The [try] block of [callRPC] from the response on. *)
Definition rpc_try (params : list json) (http : HttpOutcome) : Result json :=
  match http with
  | HttpRejected msg => Err (Plain msg None)
  | HttpData data =>
      if nullish data then Err (Plain "TypeError" None)
      else
        let error := field "error" data in
        if truthy error then
          let errorMessage := or_else (field "message" error) (JStr "Unknown RPC error") in
          let errorCode := or_else (field "code" error) (JStr "UNKNOWN") in
          match message_includes errorMessage "realtime transaction expired" with
          | None => Err (Plain "TypeError" None)
          | Some true =>
              Err (Mega (RealtimeTransactionExpiredError (or_else (first params) (JStr "unknown"))))
          | Some false =>
              match message_includes errorMessage "mini block not found" with
              | None => Err (Plain "TypeError" None)
              | Some true =>
                  Err (Mega (MiniBlockNotFoundError (or_else (first params) (JNum 0))))
              | Some false =>
                  Err (Mega (GenericError errorMessage errorCode (field "data" error)))
              end
          end
        else Ok (field "result" data)
  end.

(** The [catch] block: a [MegaETHError] is rethrown as it is, anything
    else gets [rpcMethod] and [rpcParams]. *)
Definition rpc_catch (method : string) (params : list json) (r : Result json) : Result json :=
  match r with
  | Ok v => Ok v
  | Err (Mega e) => Err (Mega e)
  | Err (Plain msg _) => Err (Plain msg (Some (method, params)))
  end.

(* ------------------------------------------------------------------ *)
(** ** Data of the client                                               *)
(* ------------------------------------------------------------------ *)

(** A delivery callback.  [subscribe] stores the empty arrow function
    [() => {}]; [setSubscriptionCallback] stores a function of the caller,
    named here by a number.  Callbacks are taken not to call back into the
    client. *)
Inductive Callback : Type :=
| NoopCallback
| UserCallback (k : nat).

(** [interface Subscription]; [sub_id] is the server's subscription id. *)
Record Subscription : Type := {
  sub_id : json;
  sub_eventType : string;
  sub_params : json;
  sub_callback : Callback
}.

(** [Map<string, Subscription>]: a JavaScript [Map] keeps its entries in
    insertion order, which [handleWebSocketMessage] and [resubscribeAll]
    iterate in. *)
Module SubMap.

Definition t : Type := list (string * Subscription).

Fixpoint get (k : string) (m : t) : option Subscription :=
  match m with
  | [] => None
  | (k', v) :: m' => if (k' =? k)%string then Some v else get k m'
  end.

(** [m.set(k, v)]: an existing key keeps its place. *)
Fixpoint set (k : string) (v : Subscription) (m : t) : t :=
  match m with
  | [] => [(k, v)]
  | (k', v') :: m' =>
      if (k' =? k)%string then (k, v) :: m' else (k', v') :: set k v m'
  end.

Fixpoint delete (k : string) (m : t) : t :=
  match m with
  | [] => []
  | (k', v') :: m' =>
      if (k' =? k)%string then delete k m' else (k', v') :: delete k m'
  end.

Definition size (m : t) : Z := Z.of_nat (List.length m).

End SubMap.

(** The part of [Config] the client reads. *)
Record Config : Type := {
  megaethWsUrl : option string;
  megaethConnectionTimeout : option Z;
  megaethMaxSubscriptions : option Z
}.

(** [config.megaethMaxSubscriptions || 100]. *)
Definition maxSubscriptions (c : Config) : Z :=
  match megaethMaxSubscriptions c with
  | Some n => if n =? 0 then 100 else n
  | None => 100
  end.

(** [config.megaethConnectionTimeout || 30000]. *)
Definition connectionTimeout (c : Config) : Z :=
  match megaethConnectionTimeout c with
  | Some n => if n =? 0 then 30000 else n
  | None => 30000
  end.

(** [WebSocket.readyState]. *)
Inductive ReadyState : Type := CONNECTING | OPEN | CLOSING | CLOSED.

Definition is_open (r : ReadyState) : bool :=
  match r with OPEN => true | _ => false end.

(** A parsed incoming message with the properties the client reads. *)
Record Message : Type := {
  m_id : json;
  m_error : json;
  m_result : json;
  m_method : json;
  m_params : json
}.

(** An outgoing request envelope; [jsonrpc] is always ["2.0"]. *)
Record Payload : Type := {
  p_id : Z;
  p_method : string;
  p_params : list json
}.

(** Who awaits a [subscribe] call: a caller of the API, or the loop of
    [resubscribeAll] with the snapshot entries it has still to visit. *)
Inductive SubCont : Type :=
| ToCaller (c : nat)
| ToResubscribe (rest : SubMap.t).

Record SubscribeCall : Type := {
  call_eventType : string;
  call_params : json;
  call_cont : SubCont
}.

(** Who awaits a [connect] call. *)
Inductive Caller : Type :=
| FromConnectWebSocket (c : nat)
| FromSubscribe (call : SubscribeCall)
| FromReconnectTimer.

(** Functions registered for ["message"] on the manager's event bus: the
    client's arrow function around [handleWebSocketMessage], and the
    [messageHandler] closure of one [subscribe] call. *)
Inductive Handler : Type :=
| ClientMessage
| SubscribeReply (closure : nat).

Definition handler_eqb (a b : Handler) : bool :=
  match a, b with
  | ClientMessage, ClientMessage => true
  | SubscribeReply x, SubscribeReply y => Nat.eqb x y
  | _, _ => false
  end.

(** [class WebSocketManager].  [connection] refers to a socket of the
    world; [eventHandlers] holds two arrays, the one for ["message"] and
    the one for ["reconnected"], whose only possible member is the
    client's [() => this.resubscribeAll()]. *)
Record WebSocketManager : Type := {
  connection : option nat;
  reconnectAttempts : Z;
  maxReconnectAttempts : Z;
  reconnectDelay : Z;
  heartbeatInterval : bool;
  messageHandlers : list Handler;
  reconnectedHandler : bool;
  isConnecting : bool;
  timeout : Z
}.

(** A [WebSocket] made by [connect], with the state of the promise that
    this [connect] call awaits: whether it is settled, whether its
    [setTimeout(..., this.timeout)] is still to fire, and who awaits it.
    The socket library moves [readyState]: to [OPEN] before it emits
    ["open"], to [CLOSING] before ["error"] and on [close()], to [CLOSED]
    before ["close"]. *)
Record Socket : Type := {
  readyState : ReadyState;
  settled : bool;
  connectTimer : bool;
  owner : Caller
}.

(** The closure of the promise in one [subscribe] call: the id of its
    payload, the handle it made up, whether the promise is settled and
    whether its [setTimeout(..., 10000)] is still to fire. *)
Record Pending : Type := {
  payload_id : Z;
  subscriptionId : string;
  pending_call : SubscribeCall;
  pending_settled : bool;
  pending_timer : bool
}.

(** What a caller of the API is told. *)
Inductive Outcome : Type :=
| Returned (v : json)
| Threw (t : Thrown).

(** The client object, the objects it reaches, and what it did.

    The first four fields are the fields of [MegaETHClient] ([requestId]
    is a JavaScript number that only counts up from 1 by steps of 1; it is
    taken as an integer, which it is below 2^53).

    Then the objects the client and the manager hold on to: the sockets
    made so far, a socket being named by its position; the closures of the
    [subscribe] calls whose request went out, named by position too; the
    [connect] calls that poll for the end of an attempt ([None] once
    done); the timers set by [handleReconnection], with their delay and
    whether they are still to fire; the number of handles made up.

    The last five fields record what was done, oldest first: the request
    ids taken from the counter, the frames sent with the socket they went
    to, the events emitted on the manager's bus other than ["message"],
    the callbacks called with their argument, and what each caller of the
    API was told. *)
Record World : Type := {
  config : Config;
  wsManager : option WebSocketManager;
  subscriptions : SubMap.t;
  requestId : Z;
  sockets : list Socket;
  pendings : list Pending;
  waiters : list (option Caller);
  reconnectTimers : list (Z * bool);
  minted : nat;
  issued : list Z;
  sent : list (nat * Payload);
  emitted : list string;
  delivered : list (Callback * json);
  outcomes : list (nat * Outcome)
}.

(* ------------------------------------------------------------------ *)
(** ** Field updates                                                    *)
(* ------------------------------------------------------------------ *)

Definition set_wsManager (x : option WebSocketManager) (w : World) : World :=
  {| config := config w; wsManager := x; subscriptions := subscriptions w;
     requestId := requestId w; sockets := sockets w; pendings := pendings w;
     waiters := waiters w; reconnectTimers := reconnectTimers w;
     minted := minted w; issued := issued w; sent := sent w;
     emitted := emitted w; delivered := delivered w; outcomes := outcomes w |}.

Definition set_subscriptions (x : SubMap.t) (w : World) : World :=
  {| config := config w; wsManager := wsManager w; subscriptions := x;
     requestId := requestId w; sockets := sockets w; pendings := pendings w;
     waiters := waiters w; reconnectTimers := reconnectTimers w;
     minted := minted w; issued := issued w; sent := sent w;
     emitted := emitted w; delivered := delivered w; outcomes := outcomes w |}.

(** [this.requestId++]: the old value is the id of the payload. *)
Definition next_requestId (w : World) : World :=
  {| config := config w; wsManager := wsManager w; subscriptions := subscriptions w;
     requestId := requestId w + 1; sockets := sockets w; pendings := pendings w;
     waiters := waiters w; reconnectTimers := reconnectTimers w;
     minted := minted w; issued := issued w ++ [requestId w]; sent := sent w;
     emitted := emitted w; delivered := delivered w; outcomes := outcomes w |}.

Definition set_sockets (x : list Socket) (w : World) : World :=
  {| config := config w; wsManager := wsManager w; subscriptions := subscriptions w;
     requestId := requestId w; sockets := x; pendings := pendings w;
     waiters := waiters w; reconnectTimers := reconnectTimers w;
     minted := minted w; issued := issued w; sent := sent w;
     emitted := emitted w; delivered := delivered w; outcomes := outcomes w |}.

Definition set_pendings (x : list Pending) (w : World) : World :=
  {| config := config w; wsManager := wsManager w; subscriptions := subscriptions w;
     requestId := requestId w; sockets := sockets w; pendings := x;
     waiters := waiters w; reconnectTimers := reconnectTimers w;
     minted := minted w; issued := issued w; sent := sent w;
     emitted := emitted w; delivered := delivered w; outcomes := outcomes w |}.

Definition set_waiters (x : list (option Caller)) (w : World) : World :=
  {| config := config w; wsManager := wsManager w; subscriptions := subscriptions w;
     requestId := requestId w; sockets := sockets w; pendings := pendings w;
     waiters := x; reconnectTimers := reconnectTimers w;
     minted := minted w; issued := issued w; sent := sent w;
     emitted := emitted w; delivered := delivered w; outcomes := outcomes w |}.

Definition set_reconnectTimers (x : list (Z * bool)) (w : World) : World :=
  {| config := config w; wsManager := wsManager w; subscriptions := subscriptions w;
     requestId := requestId w; sockets := sockets w; pendings := pendings w;
     waiters := waiters w; reconnectTimers := x;
     minted := minted w; issued := issued w; sent := sent w;
     emitted := emitted w; delivered := delivered w; outcomes := outcomes w |}.

Definition next_minted (w : World) : World :=
  {| config := config w; wsManager := wsManager w; subscriptions := subscriptions w;
     requestId := requestId w; sockets := sockets w; pendings := pendings w;
     waiters := waiters w; reconnectTimers := reconnectTimers w;
     minted := S (minted w); issued := issued w; sent := sent w;
     emitted := emitted w; delivered := delivered w; outcomes := outcomes w |}.

Definition log_sent (x : nat * Payload) (w : World) : World :=
  {| config := config w; wsManager := wsManager w; subscriptions := subscriptions w;
     requestId := requestId w; sockets := sockets w; pendings := pendings w;
     waiters := waiters w; reconnectTimers := reconnectTimers w;
     minted := minted w; issued := issued w; sent := sent w ++ [x];
     emitted := emitted w; delivered := delivered w; outcomes := outcomes w |}.

Definition log_emitted (x : string) (w : World) : World :=
  {| config := config w; wsManager := wsManager w; subscriptions := subscriptions w;
     requestId := requestId w; sockets := sockets w; pendings := pendings w;
     waiters := waiters w; reconnectTimers := reconnectTimers w;
     minted := minted w; issued := issued w; sent := sent w;
     emitted := emitted w ++ [x]; delivered := delivered w; outcomes := outcomes w |}.

Definition log_delivered (x : Callback * json) (w : World) : World :=
  {| config := config w; wsManager := wsManager w; subscriptions := subscriptions w;
     requestId := requestId w; sockets := sockets w; pendings := pendings w;
     waiters := waiters w; reconnectTimers := reconnectTimers w;
     minted := minted w; issued := issued w; sent := sent w;
     emitted := emitted w; delivered := delivered w ++ [x]; outcomes := outcomes w |}.

Definition log_outcome (c : nat) (o : Outcome) (w : World) : World :=
  {| config := config w; wsManager := wsManager w; subscriptions := subscriptions w;
     requestId := requestId w; sockets := sockets w; pendings := pendings w;
     waiters := waiters w; reconnectTimers := reconnectTimers w;
     minted := minted w; issued := issued w; sent := sent w;
     emitted := emitted w; delivered := delivered w; outcomes := outcomes w ++ [(c, o)] |}.

(** Run [f] on the manager object, when there is one. *)
Definition on_manager (f : WebSocketManager -> WebSocketManager) (w : World) : World :=
  match wsManager w with
  | Some m => set_wsManager (Some (f m)) w
  | None => w
  end.

Definition set_connection (x : option nat) (m : WebSocketManager) : WebSocketManager :=
  {| connection := x; reconnectAttempts := reconnectAttempts m;
     maxReconnectAttempts := maxReconnectAttempts m; reconnectDelay := reconnectDelay m;
     heartbeatInterval := heartbeatInterval m; messageHandlers := messageHandlers m;
     reconnectedHandler := reconnectedHandler m; isConnecting := isConnecting m;
     timeout := timeout m |}.

Definition set_reconnectAttempts (x : Z) (m : WebSocketManager) : WebSocketManager :=
  {| connection := connection m; reconnectAttempts := x;
     maxReconnectAttempts := maxReconnectAttempts m; reconnectDelay := reconnectDelay m;
     heartbeatInterval := heartbeatInterval m; messageHandlers := messageHandlers m;
     reconnectedHandler := reconnectedHandler m; isConnecting := isConnecting m;
     timeout := timeout m |}.

Definition set_heartbeatInterval (x : bool) (m : WebSocketManager) : WebSocketManager :=
  {| connection := connection m; reconnectAttempts := reconnectAttempts m;
     maxReconnectAttempts := maxReconnectAttempts m; reconnectDelay := reconnectDelay m;
     heartbeatInterval := x; messageHandlers := messageHandlers m;
     reconnectedHandler := reconnectedHandler m; isConnecting := isConnecting m;
     timeout := timeout m |}.

Definition set_messageHandlers (x : list Handler) (m : WebSocketManager) : WebSocketManager :=
  {| connection := connection m; reconnectAttempts := reconnectAttempts m;
     maxReconnectAttempts := maxReconnectAttempts m; reconnectDelay := reconnectDelay m;
     heartbeatInterval := heartbeatInterval m; messageHandlers := x;
     reconnectedHandler := reconnectedHandler m; isConnecting := isConnecting m;
     timeout := timeout m |}.

Definition set_reconnectedHandler (x : bool) (m : WebSocketManager) : WebSocketManager :=
  {| connection := connection m; reconnectAttempts := reconnectAttempts m;
     maxReconnectAttempts := maxReconnectAttempts m; reconnectDelay := reconnectDelay m;
     heartbeatInterval := heartbeatInterval m; messageHandlers := messageHandlers m;
     reconnectedHandler := x; isConnecting := isConnecting m;
     timeout := timeout m |}.

Definition set_isConnecting (x : bool) (m : WebSocketManager) : WebSocketManager :=
  {| connection := connection m; reconnectAttempts := reconnectAttempts m;
     maxReconnectAttempts := maxReconnectAttempts m; reconnectDelay := reconnectDelay m;
     heartbeatInterval := heartbeatInterval m; messageHandlers := messageHandlers m;
     reconnectedHandler := reconnectedHandler m; isConnecting := x;
     timeout := timeout m |}.

(** [l[i] = f(l[i])] for an index in range. *)
Fixpoint update_nth (A : Type) (i : nat) (f : A -> A) (l : list A) : list A :=
  match l, i with
  | [], _ => []
  | x :: l', O => f x :: l'
  | x :: l', S i' => x :: update_nth i' f l'
  end.

Definition on_socket (i : nat) (f : Socket -> Socket) (w : World) : World :=
  set_sockets (update_nth i f (sockets w)) w.

Definition on_pending (i : nat) (f : Pending -> Pending) (w : World) : World :=
  set_pendings (update_nth i f (pendings w)) w.

Definition set_readyState (r : ReadyState) (s : Socket) : Socket :=
  {| readyState := r; settled := settled s; connectTimer := connectTimer s; owner := owner s |}.

Definition clear_connectTimer (s : Socket) : Socket :=
  {| readyState := readyState s; settled := settled s; connectTimer := false; owner := owner s |}.

Definition settle_socket (s : Socket) : Socket :=
  {| readyState := readyState s; settled := true; connectTimer := connectTimer s; owner := owner s |}.

Definition clear_pending_timer (p : Pending) : Pending :=
  {| payload_id := payload_id p; subscriptionId := subscriptionId p;
     pending_call := pending_call p; pending_settled := pending_settled p;
     pending_timer := false |}.

Definition settle_pending (p : Pending) : Pending :=
  {| payload_id := payload_id p; subscriptionId := subscriptionId p;
     pending_call := pending_call p; pending_settled := true;
     pending_timer := pending_timer p |}.

(* ------------------------------------------------------------------ *)
(** ** WebSocketManager                                                 *)
(* ------------------------------------------------------------------ *)

Definition new_manager (tmo : Z) : WebSocketManager :=
  {| connection := None; reconnectAttempts := 0; maxReconnectAttempts := 5;
     reconnectDelay := 1000; heartbeatInterval := false; messageHandlers := [];
     reconnectedHandler := false; isConnecting := false; timeout := tmo |}.

(** [this.connection && this.connection.readyState === WebSocket.OPEN]:
    the socket, when the test holds. *)
Definition open_socket (w : World) : option nat :=
  match wsManager w with
  | Some m =>
      match connection m with
      | Some i =>
          match nth_error (sockets w) i with
          | Some s => if is_open (readyState s) then Some i else None
          | None => None
          end
      | None => None
      end
  | None => None
  end.

(** [send(data)]: [None] is the throw of ["WebSocket connection not open"]. *)
Definition send (p : Payload) (w : World) : option World :=
  match open_socket w with
  | Some i => Some (log_sent (i, p) w)
  | None => None
  end.

(** [setTimeout(..., delay)] of [handleReconnection]. *)
Definition schedule_reconnect (delay : Z) (w : World) : World :=
  set_reconnectTimers (reconnectTimers w ++ [(delay, true)]) w.

Definition handleReconnection (w : World) : World :=
  match wsManager w with
  | None => w
  | Some m =>
      if reconnectAttempts m >=? maxReconnectAttempts m then
        log_emitted "maxReconnectAttemptsReached" w
      else
        let attempts := reconnectAttempts m + 1 in
        let delay := reconnectDelay m * 2 ^ (attempts - 1) in
        schedule_reconnect delay (on_manager (set_reconnectAttempts attempts) w)
  end.

Definition new_socket (caller : Caller) : Socket :=
  {| readyState := CONNECTING; settled := false; connectTimer := true; owner := caller |}.

(** [connect()] up to its first suspension.  [true]: the call returned at
    once.  Otherwise the caller is parked: as a waiter that polls every
    100 ms when an attempt is in flight, or as the owner of a new socket.
    The manager's methods run only on an existing manager. *)
Definition connect (caller : Caller) (w : World) : World * bool :=
  match open_socket w with
  | Some _ => (w, true)
  | None =>
      match wsManager w with
      | None => (w, false)
      | Some m =>
          if isConnecting m then
            (set_waiters (waiters w ++ [Some caller]) w, false)
          else
            let i := List.length (sockets w) in
            (set_sockets (sockets w ++ [new_socket caller])
               (on_manager (fun m => set_connection (Some i) (set_isConnecting true m)) w),
             false)
      end
  end.

(** [removeListener("message", h)]: the first occurrence goes. *)
Fixpoint remove_first (h : Handler) (l : list Handler) : list Handler :=
  match l with
  | [] => []
  | x :: l' => if handler_eqb x h then l' else x :: remove_first h l'
  end.

(* ------------------------------------------------------------------ *)
(** ** MegaETHClient: subscriptions                                     *)
(* ------------------------------------------------------------------ *)

(** The envelope of [subscribe]: the id is the counter before its
    increment. *)
Definition subscribe_payload (call : SubscribeCall) (w : World) : Payload :=
  {| p_id := requestId w; p_method := "eth_subscribe";
     p_params := [JStr (call_eventType call); call_params call] |}.

(** The envelope of [unsubscribe] for subscription [s]. *)
Definition unsubscribe_payload (s : Subscription) (w : World) : Payload :=
  {| p_id := requestId w; p_method := "eth_unsubscribe"; p_params := [sub_id s] |}.

(** The default of [subscribe]'s second parameter, [params = {}]: it
    replaces a missing or [undefined] argument. *)
Definition default_params (params : json) : json :=
  match params with
  | JUndefined => JObj []
  | _ => params
  end.

(** The arguments of a [subscribe] call with the default applied. *)
Definition with_default_params (call : SubscribeCall) : SubscribeCall :=
  {| call_eventType := call_eventType call;
     call_params := default_params (call_params call);
     call_cont := call_cont call |}.

Section Client.

(** [`sub_${Date.now()}_${Math.random().toString(36).substr(2, 9)}`]: the
    n-th handle the client makes up. *)
Variable mint : nat -> string.

Definition new_pending (id : Z) (handle : string) (call : SubscribeCall) : Pending :=
  {| payload_id := id; subscriptionId := handle; pending_call := call;
     pending_settled := false; pending_timer := true |}.

(** [subscribe] after [await this.connectWebSocket()]: the handle, the
    payload, the promise with its 10 s timer, the listener and the send.
    [Some e]: the promise was rejected on the spot because [send] threw in
    the executor; timer and listener stay. *)
Definition subscribe_send (call : SubscribeCall) (w : World) : World * option Thrown :=
  let handle := mint (minted w) in
  let id := requestId w in
  let closure := List.length (pendings w) in
  let payload := subscribe_payload call w in
  let w1 := next_requestId (next_minted w) in
  let w2 := set_pendings (pendings w1 ++ [new_pending id handle call]) w1 in
  let w3 := on_manager
              (fun m => set_messageHandlers (messageHandlers m ++ [SubscribeReply closure]) m) w2 in
  match send payload w3 with
  | Some w4 => (w4, None)
  | None => (on_pending closure settle_pending w3,
             Some (Plain "WebSocket connection not open" None))
  end.

(** How far a [subscribe] call gets before the code after
    [await this.connectWebSocket()] can run. *)
Inductive Start : Type :=
| Refused (t : Thrown)
| Connected (call : SubscribeCall)
| Suspended.

(** [subscribe(eventType, params = {})] up to [await this.connectWebSocket()]:
    the default of [params], the two guards and [connect()] up to its first
    suspension.  [Connected call]: [connect()] returned at once, and the
    rest of [subscribe] runs as a microtask, after the synchronous code of
    the tick. *)
Definition subscribe_start (call0 : SubscribeCall) (w : World) : World * Start :=
  let call := with_default_params call0 in
  match wsManager w with
  | None => (w, Refused (Plain "WebSocket not configured" None))
  | Some _ =>
      if SubMap.size (subscriptions w) >=? maxSubscriptions (config w) then
        (w, Refused (Mega (SubscriptionLimitError (maxSubscriptions (config w)))))
      else
        let (w1, ready) := connect (FromSubscribe call) w in
        (w1, if ready then Connected call else Suspended)
  end.

(** [subscribe(eventType, params = {})] up to its first suspension on the
    network, in a tick in which no other code runs between the call and
    the microtask after its [await]; [Some e] is a rejection before any
    such suspension.  [Block] below is the tick with other calls in it. *)
Definition subscribe (call : SubscribeCall) (w : World) : World * option Thrown :=
  let (w1, start) := subscribe_start call w in
  match start with
  | Refused t => (w1, Some t)
  | Connected call' => subscribe_send call' w1
  | Suspended => (w1, None)
  end.

(** The [for] loop of [resubscribeAll] over the rest of the snapshot: a
    [subscribe] that fails at once is logged and the loop goes on, one
    that suspends takes the rest of the loop with it. *)
Fixpoint resubscribe_loop (rest : SubMap.t) (w : World) : World :=
  match rest with
  | [] => w
  | (_, subscription) :: rest' =>
      let call := {| call_eventType := sub_eventType subscription;
                     call_params := sub_params subscription;
                     call_cont := ToResubscribe rest' |} in
      let (w1, r) := subscribe call w in
      match r with
      | Some _ => resubscribe_loop rest' w1
      | None => w1
      end
  end.

Definition resubscribeAll (w : World) : World :=
  let currentSubscriptions := subscriptions w in
  resubscribe_loop currentSubscriptions (set_subscriptions [] w).

Definition outcome_of (r : Result string) : Outcome :=
  match r with
  | Ok handle => Returned (JStr handle)
  | Err t => Threw t
  end.

(** The promise of a [subscribe] call settles: whoever awaits it goes on. *)
Definition settle_subscribe (k : SubCont) (r : Result string) (w : World) : World :=
  match k with
  | ToCaller c => log_outcome c (outcome_of r) w
  | ToResubscribe rest => resubscribe_loop rest w
  end.

(** [emit("reconnected")]. *)
Definition emit_reconnected (w : World) : World :=
  let w1 := log_emitted "reconnected" w in
  match wsManager w1 with
  | Some m => if reconnectedHandler m then resubscribeAll w1 else w1
  | None => w1
  end.

(** A [connect()] call settles ([None]: resolved): its caller goes on. *)
Definition resume_connect (caller : Caller) (r : option Thrown) (w : World) : World :=
  match caller with
  | FromConnectWebSocket c =>
      log_outcome c (match r with None => Returned JUndefined | Some e => Threw e end) w
  | FromSubscribe call =>
      match r with
      | Some e => settle_subscribe (call_cont call) (Err e) w
      | None =>
          let (w1, r1) := subscribe_send call w in
          match r1 with
          | Some e => settle_subscribe (call_cont call) (Err e) w1
          | None => w1
          end
      end
  | FromReconnectTimer =>
      match r with
      | None => emit_reconnected w
      | Some _ => log_emitted "reconnectFailed" w
      end
  end.

(** [callRPC(method, params)], with what the HTTP round trip gave.  The
    id of the payload is the counter before the increment. *)
Definition callRPC (method : string) (params : list json) (http : HttpOutcome)
    (w : World) : World * Result json :=
  if (method =? "")%string then
    (w, Err (Plain "RPC method is required" None))
  else
    (next_requestId w, rpc_catch method params (rpc_try params http)).

(** [unsubscribe(subscriptionId)] and the boolean it resolves to. *)
Definition unsubscribe (subscriptionId : string) (w : World) : World * bool :=
  match SubMap.get subscriptionId (subscriptions w) with
  | None => (w, false)
  | Some subscription =>
      match wsManager w with
      | None => (w, false)
      | Some _ =>
          let payload := unsubscribe_payload subscription w in
          let w1 := next_requestId w in
          match send payload w1 with
          | Some w2 =>
              (set_subscriptions (SubMap.delete subscriptionId (subscriptions w2)) w2, true)
          | None => (w1, false)
          end
      end
  end.

Definition with_callback (cb : Callback) (s : Subscription) : Subscription :=
  {| sub_id := sub_id s; sub_eventType := sub_eventType s;
     sub_params := sub_params s; sub_callback := cb |}.

Definition setSubscriptionCallback (subscriptionId : string) (cb : Callback)
    (w : World) : World :=
  match SubMap.get subscriptionId (subscriptions w) with
  | Some subscription =>
      set_subscriptions
        (SubMap.set subscriptionId (with_callback cb subscription) (subscriptions w)) w
  | None => w
  end.

(** The first entry, in insertion order, whose server id is [serverSubId]. *)
Fixpoint find_subscription (serverSubId : json) (m : SubMap.t) : option Subscription :=
  match m with
  | [] => None
  | (_, subscription) :: m' =>
      if strict_eq (sub_id subscription) serverSubId then Some subscription
      else find_subscription serverSubId m'
  end.

(** [handleWebSocketMessage(message)]; [None] is the [TypeError] of
    reading [subscription] from a missing [params]. *)
Definition handleWebSocketMessage (message : Message) (w : World) : option World :=
  if strict_eq (m_method message) (JStr "eth_subscription") then
    let subscriptionData := m_params message in
    if nullish subscriptionData then None
    else
      let serverSubId := field "subscription" subscriptionData in
      match find_subscription serverSubId (subscriptions w) with
      | Some subscription =>
          Some (log_delivered (sub_callback subscription, field "result" subscriptionData) w)
      | None => Some w
      end
  else Some w.

(** [resolve] or [reject] of the promise of closure [closure]: a settled
    promise stays as it is, otherwise the awaiting code is woken. *)
Definition settle_once (closure : nat) (p : Pending) (r : Result string) (w : World)
    : World * list (SubCont * Result string) :=
  if pending_settled p then (w, [])
  else (on_pending closure settle_pending w, [(call_cont (pending_call p), r)]).

(** The [messageHandler] closure of a [subscribe] call. *)
Definition messageHandler (closure : nat) (message : Message) (w : World)
    : World * list (SubCont * Result string) :=
  match nth_error (pendings w) closure with
  | None => (w, [])
  | Some p =>
      if strict_eq (m_id message) (JNum (payload_id p)) then
        let w1 := on_pending closure clear_pending_timer w in
        let w2 := on_manager
                    (fun m => set_messageHandlers
                                (remove_first (SubscribeReply closure) (messageHandlers m)) m)
                    w1 in
        if truthy (m_error message) then
          settle_once closure p
            (Err (Mega (GenericError (field "message" (m_error message))
                                     (field "code" (m_error message)) JUndefined)))
            w2
        else
          let serverSubId := m_result message in
          let w3 := set_subscriptions
                      (SubMap.set (subscriptionId p)
                         {| sub_id := serverSubId;
                            sub_eventType := call_eventType (pending_call p);
                            sub_params := call_params (pending_call p);
                            sub_callback := NoopCallback |}
                         (subscriptions w2)) w2 in
          settle_once closure p (Ok (subscriptionId p)) w3
      else (w, [])
  end.

(** [handlers.forEach(handler => handler(message))] from index [k] on,
    [fuel] being what is left of the length the array had at the start.
    A handler that removes itself shifts the array under the loop, as in
    JavaScript; an index past the end ends the loop; a throw ends it too,
    and the promises settled so far still wake their awaiters. *)
Fixpoint forEach_message (fuel k : nat) (message : Message) (w : World)
    (woken : list (SubCont * Result string)) : World * list (SubCont * Result string) :=
  match fuel with
  | O => (w, woken)
  | S fuel' =>
      match wsManager w with
      | None => (w, woken)
      | Some m =>
          match nth_error (messageHandlers m) k with
          | None => (w, woken)
          | Some ClientMessage =>
              match handleWebSocketMessage message w with
              | None => (w, woken)
              | Some w' => forEach_message fuel' (S k) message w' woken
              end
          | Some (SubscribeReply closure) =>
              let (w', l) := messageHandler closure message w in
              forEach_message fuel' (S k) message w' (woken ++ l)
          end
      end
  end.

Definition wake (w : World) (kr : SubCont * Result string) : World :=
  settle_subscribe (fst kr) (snd kr) w.

(** [emit("message", message)] and the continuations it wakes. *)
Definition emit_message (message : Message) (w : World) : World :=
  match wsManager w with
  | None => w
  | Some m =>
      let (w', woken) :=
        forEach_message (List.length (messageHandlers m)) 0 message w [] in
      fold_left wake woken w'
  end.

(* ------------------------------------------------------------------ *)
(** ** Events                                                           *)
(* ------------------------------------------------------------------ *)

(** A call of the API made by code that goes on to make other calls in
    the same tick. *)
Inductive ApiCall : Type :=
| DoCallRPC (c : nat) (method : string) (params : list json) (http : HttpOutcome)
| DoSubscribe (c : nat) (eventType : string) (params : json)
| DoUnsubscribe (c : nat) (subscriptionId : string)
| DoSetSubscriptionCallback (subscriptionId : string) (k : nat)
| DoConnectWebSocket (c : nat)
| DoDisconnect.

(** One macrotask: a call of the API by caller [c], an event of socket
    [i], or a timer that fires.  Timers may fire in any order: real time
    only restricts the runs considered here.  [SocketFail] is a socket
    that emits [error] and [close] in one tick, as a connection that
    fails does; [Block] is a tick in which several calls of the API are
    made one after the other, before any microtask runs. *)
Inductive Event : Type :=
| CallRPC (c : nat) (method : string) (params : list json) (http : HttpOutcome)
| Subscribe (c : nat) (eventType : string) (params : json)
| Unsubscribe (c : nat) (subscriptionId : string)
| SetSubscriptionCallback (subscriptionId : string) (k : nat)
| ConnectWebSocket (c : nat)
| Disconnect
| SocketOpen (i : nat)
| SocketError (i : nat)
| SocketClose (i : nat)
| SocketMessage (i : nat) (message : Message)
| ConnectTimeout (i : nat)
| PollTimer (n : nat)
| ReconnectTimer (n : nat)
| SubscribeTimeout (closure : nat)
| SocketFail (i : nat)
| Block (calls : list ApiCall).

(** The catch block of [connect]: [isConnecting = false], then the caller
    sees the rejection. *)
Definition connect_failed (i : nat) (s : Socket) (e : Thrown) (w : World) : World :=
  if settled s then w
  else resume_connect (owner s) (Some e)
         (on_manager (set_isConnecting false) (on_socket i settle_socket w)).

Definition on_open (i : nat) (w : World) : World :=
  match nth_error (sockets w) i with
  | Some s =>
      match readyState s with
      | CONNECTING =>
          let w1 := on_socket i (fun s => settle_socket (clear_connectTimer (set_readyState OPEN s))) w in
          let w2 := on_manager
                      (fun m => set_heartbeatInterval true
                                  (set_reconnectAttempts 0 (set_isConnecting false m))) w1 in
          if settled s then w2 else resume_connect (owner s) None w2
      | _ => w
      end
  | None => w
  end.

(** [error] of socket [i] in a tick in which the socket does not emit
    [close] as well: the handler, then the microtask in which the
    rejected [connect()] goes on. *)
Definition on_error (i : nat) (w : World) : World :=
  match nth_error (sockets w) i with
  | Some s =>
      match readyState s with
      | CLOSED => w
      | _ =>
          let w1 := on_socket i (fun s => clear_connectTimer (set_readyState CLOSING s)) w in
          let w2 := on_manager (set_isConnecting false) w1 in
          connect_failed i s (Plain "WebSocket error" None) w2
      end
  | None => w
  end.

Definition on_close (i : nat) (w : World) : World :=
  match nth_error (sockets w) i with
  | Some s =>
      match readyState s with
      | CLOSED => w
      | _ =>
          handleReconnection
            (on_manager (set_isConnecting false) (on_socket i (set_readyState CLOSED) w))
      end
  | None => w
  end.

(** [error] and [close] of one socket in one tick: both handlers run
    before the microtask in which the rejected [connect()] goes on, so
    [handleReconnection] comes before the catch block and the caller. *)
Definition on_fail (i : nat) (w : World) : World :=
  match nth_error (sockets w) i with
  | Some s =>
      match readyState s with
      | CLOSED => w
      | _ =>
          let w1 := on_socket i (fun s => clear_connectTimer (set_readyState CLOSING s)) w in
          let w2 := on_manager (set_isConnecting false) w1 in
          connect_failed i s (Plain "WebSocket error" None) (on_close i w2)
      end
  | None => w
  end.

Definition on_message (i : nat) (message : Message) (w : World) : World :=
  match nth_error (sockets w) i with
  | Some s => if is_open (readyState s) then emit_message message w else w
  | None => w
  end.

Definition on_connect_timeout (i : nat) (w : World) : World :=
  match nth_error (sockets w) i with
  | Some s =>
      if connectTimer s then
        connect_failed i s (Plain "WebSocket connection timeout" None)
          (on_socket i clear_connectTimer w)
      else w
  | None => w
  end.

(** [checkConnection] of a waiter, run by its 100 ms timer. *)
Definition checkConnection (n : nat) (w : World) : World :=
  match nth_error (waiters w) n with
  | Some (Some caller) =>
      let done := set_waiters (update_nth n (fun _ => None) (waiters w)) w in
      match open_socket w with
      | Some _ => resume_connect caller None done
      | None =>
          match wsManager w with
          | Some m =>
              if isConnecting m then w
              else resume_connect caller (Some (Plain "Connection failed" None)) done
          | None => w
          end
      end
  | _ => w
  end.

(** The timer callback of [handleReconnection]. *)
Definition on_reconnect_timer (n : nat) (w : World) : World :=
  match nth_error (reconnectTimers w) n with
  | Some (delay, true) =>
      let w1 := set_reconnectTimers
                  (update_nth n (fun t => (fst t, false)) (reconnectTimers w)) w in
      let (w2, ready) := connect FromReconnectTimer w1 in
      if ready then emit_reconnected w2 else w2
  | _ => w
  end.

(** The 10 s timer of a [subscribe] call: it rejects and does nothing
    else. *)
Definition on_subscribe_timeout (closure : nat) (w : World) : World :=
  match nth_error (pendings w) closure with
  | Some p =>
      if pending_timer p then
        let w1 := on_pending closure clear_pending_timer w in
        let (w2, woken) :=
          settle_once closure p (Err (Plain "Subscription timeout" None)) w1 in
        fold_left wake woken w2
      else w
  | None => w
  end.

(** [ws.close()]. *)
Definition close_socket (s : Socket) : Socket :=
  match readyState s with
  | CONNECTING | OPEN => set_readyState CLOSING s
  | _ => s
  end.

(** [WebSocketManager.disconnect()]: it has no [await] and runs to its
    end when called. *)
Definition manager_disconnect (w : World) : World :=
  let w1 := on_manager (set_heartbeatInterval false) w in
  let w2 := match wsManager w1 with
            | Some m =>
                match connection m with
                | Some i => on_manager (set_connection None) (on_socket i close_socket w1)
                | None => w1
                end
            | None => w1
            end in
  on_manager (fun m => set_reconnectedHandler false (set_messageHandlers [] m)) w2.

(** [MegaETHClient.disconnect()] in a tick of its own: the manager's
    [disconnect()], then [this.subscriptions.clear()], which with a
    manager runs as a microtask after the [await]. *)
Definition disconnect (w : World) : World :=
  set_subscriptions [] (manager_disconnect w).

Definition connectWebSocket (c : nat) (w : World) : World :=
  match wsManager w with
  | None => log_outcome c (Threw (Plain "WebSocket URL not configured" None)) w
  | Some _ =>
      let (w1, ready) := connect (FromConnectWebSocket c) w in
      if ready then log_outcome c (Returned JUndefined) w1 else w1
  end.

Definition result_outcome (r : Result json) : Outcome :=
  match r with
  | Ok v => Returned v
  | Err t => Threw t
  end.

(** The synchronous part of one call made in a [Block], with what it
    leaves for the microtasks: the [subscribe] calls past their [await]
    and whether a [disconnect()] has still to clear the table. *)
Definition call_now (a : ApiCall) (w : World) : World * list SubscribeCall * bool :=
  match a with
  | DoCallRPC c method params http =>
      let (w1, r) := callRPC method params http w in
      (log_outcome c (result_outcome r) w1, [], false)
  | DoSubscribe c eventType params =>
      let (w1, start) := subscribe_start {| call_eventType := eventType;
                                            call_params := params;
                                            call_cont := ToCaller c |} w in
      match start with
      | Refused t => (log_outcome c (Threw t) w1, [], false)
      | Connected call => (w1, [call], false)
      | Suspended => (w1, [], false)
      end
  | DoUnsubscribe c subscriptionId =>
      let (w1, b) := unsubscribe subscriptionId w in
      (log_outcome c (Returned (JBool b)) w1, [], false)
  | DoSetSubscriptionCallback subscriptionId k =>
      (setSubscriptionCallback subscriptionId (UserCallback k) w, [], false)
  | DoConnectWebSocket c => (connectWebSocket c w, [], false)
  | DoDisconnect =>
      match wsManager w with
      | Some _ => (manager_disconnect w, [], true)
      | None => (set_subscriptions [] w, [], false)
      end
  end.

(** The synchronous parts of the calls of a [Block], in order. *)
Fixpoint calls_now (calls : list ApiCall) (w : World)
    : World * list SubscribeCall * bool :=
  match calls with
  | [] => (w, [], false)
  | a :: calls' =>
      let '(w1, sends, clear) := call_now a w in
      let '(w2, sends', clear') := calls_now calls' w1 in
      (w2, sends ++ sends', clear || clear')
  end.

(** A tick with several calls: their synchronous parts, then the
    microtasks.  The code after the [await] of [disconnect()] is one
    microtask away and that of [subscribe] two ([connectWebSocket]
    awaits [connect()] in between), so the table is cleared first and
    the [subscribe] calls then go on in the order they were made. *)
Definition block (calls : list ApiCall) (w : World) : World :=
  let '(w1, sends, clear) := calls_now calls w in
  let w2 := if clear then set_subscriptions [] w1 else w1 in
  fold_left (fun w call => resume_connect (FromSubscribe call) None w) sends w2.

Definition step (e : Event) (w : World) : World :=
  match e with
  | CallRPC c method params http =>
      let (w1, r) := callRPC method params http w in
      log_outcome c (result_outcome r) w1
  | Subscribe c eventType params =>
      let (w1, r) := subscribe {| call_eventType := eventType; call_params := params;
                                  call_cont := ToCaller c |} w in
      match r with
      | Some t => log_outcome c (Threw t) w1
      | None => w1
      end
  | Unsubscribe c subscriptionId =>
      let (w1, b) := unsubscribe subscriptionId w in
      log_outcome c (Returned (JBool b)) w1
  | SetSubscriptionCallback subscriptionId k =>
      setSubscriptionCallback subscriptionId (UserCallback k) w
  | ConnectWebSocket c => connectWebSocket c w
  | Disconnect => disconnect w
  | SocketOpen i => on_open i w
  | SocketError i => on_error i w
  | SocketClose i => on_close i w
  | SocketMessage i message => on_message i message w
  | ConnectTimeout i => on_connect_timeout i w
  | PollTimer n => checkConnection n w
  | ReconnectTimer n => on_reconnect_timer n w
  | SubscribeTimeout closure => on_subscribe_timeout closure w
  | SocketFail i => on_fail i w
  | Block calls => block calls w
  end.

Definition run (es : list Event) (w : World) : World :=
  fold_left (fun w e => step e w) es w.

End Client.

(** [new MegaETHClient(config)]: a manager exists when [megaethWsUrl] is
    truthy, with the client's two listeners on it. *)
Definition new_client (cfg : Config) : World :=
  {| config := cfg;
     wsManager :=
       match megaethWsUrl cfg with
       | Some url =>
           if (url =? "")%string then None
           else Some (set_reconnectedHandler true
                        (set_messageHandlers [ClientMessage]
                           (new_manager (connectionTimeout cfg))))
       | None => None
       end;
     subscriptions := []; requestId := 1;
     sockets := []; pendings := []; waiters := []; reconnectTimers := [];
     minted := 0; issued := []; sent := []; emitted := []; delivered := [];
     outcomes := [] |}.

(* ------------------------------------------------------------------ *)
(** ** Strings of numbers                                               *)
(* ------------------------------------------------------------------ *)

(** The decimal digits of an integer [n], with its sign. *)
Definition decimal (n : Z) : string := NilZero.string_of_int (Z.to_int n).

(** A JavaScript number that is an integer, an infinity or [NaN]. *)
Inductive number : Type :=
| NaN
| Infinity (negative : bool)
| Finite (z : Z).

(** The number nearest to the integer [z], which is what a numeric
    literal or [parseInt] gives for it: [z] itself below 2^53, otherwise
    [z] rounded to 53 significant bits, a tie going to the even
    neighbour, and an infinity from 2^1024 on. *)
Definition to_number (z : Z) : number :=
  let a := Z.abs z in
  if a <? 2 ^ 53 then Finite z
  else
    let shift := Z.log2 a - 52 in
    let q := a / 2 ^ shift in
    let r := a mod 2 ^ shift in
    let half := 2 ^ (shift - 1) in
    let q' := if (half <? r) || ((r =? half) && Z.odd q) then q + 1 else q in
    let v := q' * 2 ^ shift in
    if 2 ^ 1024 <=? v then Infinity (z <? 0)
    else Finite (if z <? 0 then - v else v).

(** [x === y] on numbers: [NaN] equals nothing. *)
Definition number_eqb (x y : number) : bool :=
  match x, y with
  | Finite a, Finite b => a =? b
  | Infinity s, Infinity t => Bool.eqb s t
  | _, _ => false
  end.

(** The number of decimal digits of [a > 0]. *)
Fixpoint count_digits (fuel : nat) (a : Z) : Z :=
  match fuel with
  | O => 1
  | S fuel' => if a <? 10 then 1 else 1 + count_digits fuel' (a / 10)
  end.

(** The shortest run of decimal digits, [k] or more of them, that reads
    back as the number [a] when zeros fill it up to [digits] places; of
    two such runs of one length the one nearer to [a], the even one on a
    tie. *)
Fixpoint shortest_digits (fuel : nat) (k digits a : Z) : Z * Z :=
  match fuel with
  | O => (a, digits)
  | S fuel' =>
      let unit := 10 ^ (digits - k) in
      let low := a / unit in
      let high := low + 1 in
      let reads_back s := (s <? 10 ^ k) && number_eqb (to_number (s * unit)) (Finite a) in
      match reads_back low, reads_back high with
      | true, true =>
          let below := a - low * unit in
          let above := high * unit - a in
          if (below <? above) || ((below =? above) && Z.even low) then (low, k)
          else (high, k)
      | true, false => (low, k)
      | false, true => (high, k)
      | false, false => shortest_digits fuel' (k + 1) digits a
      end
  end.

(** The digits [s], their count [k] and the exponent [n] of
    [Number::toString] for a number [a >= 2^53]: [s * 10^(n-k)] reads
    back as [a] and [k] is as small as can be. *)
Definition shortest (a : Z) : Z * Z * Z :=
  let digits := count_digits (Z.to_nat (Z.log2 a)) a in
  if number_eqb (to_number (10 ^ digits)) (Finite a) then (1, 1, digits + 1)
  else let (s, k) := shortest_digits (Z.to_nat digits) 1 digits a in (s, k, digits).

Fixpoint zeros (n : nat) : string :=
  match n with
  | O => ""
  | S n' => "0" ++ zeros n'
  end.

(** [String(x)] for a number [x]: below 2^53 every digit is written; from
    there on the shortest digits that read back as [x], filled up with
    zeros below 10^21 and in exponent form from 10^21 on. *)
Definition number_string (x : number) : string :=
  match x with
  | NaN => "NaN"
  | Infinity false => "Infinity"
  | Infinity true => "-Infinity"
  | Finite z =>
      let a := Z.abs z in
      if a <? 2 ^ 53 then decimal z
      else
        let '(s, k, n) := shortest a in
        let digits := decimal s in
        let sign := if z <? 0 then "-" else "" in
        let exponent := ("e+" ++ decimal (n - 1))%string in
        let plain := n <=? 21 in
        (sign ++
         (if plain then digits ++ zeros (Z.to_nat (n - k))
          else
            match digits with
            | String d EmptyString => digits ++ exponent
            | String d rest => String d ("." ++ rest) ++ exponent
            | EmptyString => digits
            end))%string
  end.

(** [a.join(",")] on strings. *)
Fixpoint join_comma (l : list string) : string :=
  match l with
  | [] => ""
  | [s] => s
  | s :: l' => s ++ "," ++ join_comma l'
  end.

(** [String(v)], the conversion a template literal and [parseInt] apply:
    an element of an array that is [null] or [undefined] gives the empty
    string, an object gives ["[object Object]"]. *)
Fixpoint to_string (v : json) : string :=
  match v with
  | JUndefined => "undefined"
  | JNull => "null"
  | JBool true => "true"
  | JBool false => "false"
  | JNum z => number_string (to_number z)
  | JStr s => s
  | JArr items =>
      join_comma
        (map (fun x => match x with
                       | JUndefined | JNull => ""
                       | _ => to_string x
                       end) items)
  | JObj _ => "[object Object]"
  end.

(** The digit of [d] in [0..15], as [Number.prototype.toString(16)]
    writes it. *)
Definition hex_digit (d : Z) : ascii :=
  nth (Z.to_nat d) (list_ascii_of_string "0123456789abcdef") "0"%char.

(** The hexadecimal digits of [n >= 0] in front of [acc], at most [fuel]
    of them. *)
Fixpoint hex_of (fuel : nat) (n : Z) (acc : string) : string :=
  match fuel with
  | O => acc
  | S fuel' =>
      let acc' := String (hex_digit (n mod 16)) acc in
      if n <? 16 then acc' else hex_of fuel' (n / 16) acc'
  end.

(** [n.toString(16)] for an integer [n]: a number below 2^k has at most
    k digits. *)
Definition toString16 (n : Z) : string :=
  if n <? 0 then "-" ++ hex_of (S (Z.to_nat (Z.log2 (- n)))) (- n) ""
  else hex_of (S (Z.to_nat (Z.log2 n))) n "".

(** The value of a digit in radix 16, in either case, by its character
    code. *)
Definition digit_value (c : ascii) : option Z :=
  let code := Z.of_N (N_of_ascii c) in
  if (48 <=? code) && (code <=? 57) then Some (code - 48)
  else if (97 <=? code) && (code <=? 102) then Some (code - 87)
  else if (65 <=? code) && (code <=? 70) then Some (code - 55)
  else None.

(** The value of the longest prefix of digits, [acc] being the value of
    the digits read so far; [None] when there is no digit at all. *)
Fixpoint parse_digits (s : string) (acc : option Z) : option Z :=
  match s with
  | EmptyString => acc
  | String c s' =>
      match digit_value c with
      | Some d => parse_digits s' (Some (16 * match acc with Some a => a | None => 0 end + d))
      | None => acc
      end
  end.

(** White space that [parseInt] skips, among the ASCII characters. *)
Definition is_space (c : ascii) : bool :=
  match c with
  | " " | "009" | "010" | "011" | "012" | "013" => true
  | _ => false
  end%char.

Fixpoint trim_start (s : string) : string :=
  match s with
  | String c s' => if is_space c then trim_start s' else s
  | EmptyString => s
  end.

Fixpoint skip (n : nat) (s : string) : string :=
  match n, s with
  | S n', String _ s' => skip n' s'
  | _, _ => s
  end.

(** [s.startsWith(p)]. *)
Fixpoint starts_with (p s : string) : bool :=
  match p, s with
  | EmptyString, _ => true
  | String a p', String b s' => Ascii.eqb a b && starts_with p' s'
  | String _ _, EmptyString => false
  end.

(** The integer that [parseInt(s, 16)] reads, before it is made a
    number: white space, a sign, [0x] or [0X], then the longest run of
    digits; [None] when there is no digit. *)
Definition parseInt16 (s : string) : option Z :=
  let s := trim_start s in
  let negative := starts_with "-" s in
  let s := if negative || starts_with "+" s then skip 1 s else s in
  let s := if starts_with "0x" s || starts_with "0X" s then skip 2 s else s in
  match parse_digits s None with
  | Some v => Some (if negative then - v else v)
  | None => None
  end.

(** [parseInt(s, 16)]: the number nearest to the integer read, [NaN]
    when there is no digit. *)
Definition parseInt (s : string) : number :=
  match parseInt16 s with
  | Some v => to_number v
  | None => NaN
  end.

(* ------------------------------------------------------------------ *)
(** ** MegaETHClient: the calls over HTTP                               *)
(* ------------------------------------------------------------------ *)

(** [error.message] of a [MegaETHError]: what the constructor passed to
    [super], converted by [Error] to a string unless it is [undefined]. *)
Definition error_message (e : MegaETHError) : string :=
  match e with
  | GenericError JUndefined _ _ => ""
  | GenericError message _ _ => to_string message
  | RealtimeTransactionExpiredError txHash =>
      "Transaction " ++ to_string txHash ++ " expired before inclusion"
  | MiniBlockNotFoundError blockNumber =>
      "Mini block " ++ to_string blockNumber ++ " not found"
  | SubscriptionLimitError limit =>
      "Subscription limit of " ++ number_string (to_number limit) ++ " exceeded"
  end.

(** [error.message] of a thrown value; the text of a [TypeError] is the
    engine's and stands as ["TypeError"]. *)
Definition thrown_message (t : Thrown) : string :=
  match t with
  | Mega e => error_message e
  | Plain message _ => message
  end.

(** [validateConnection()]; [megaethChainId] is [config.megaethChainId],
    absent or the number nearest to the integer given.  Whatever the
    [try] block throws, its own mismatch error included, is wrapped by
    the [catch] block. *)
Definition validateConnection (megaethChainId : option Z) (http : HttpOutcome) (w : World)
    : World * Result json :=
  let (w1, r) := callRPC "eth_chainId" [] http w in
  let attempt :=
    match r with
    | Err e => Err e
    | Ok result =>
        match megaethChainId with
        | None => Ok JUndefined
        | Some expected =>
            let got := parseInt (to_string result) in
            if (negb (expected =? 0))
               && negb (number_eqb got (to_number expected))
            then Err (Plain ("Chain ID mismatch: expected "
                             ++ number_string (to_number expected) ++
                             ", got " ++ number_string got) None)
            else Ok JUndefined
        end
    end in
  (w1, match attempt with
       | Ok v => Ok v
       | Err e => Err (Plain ("Failed to validate MegaETH connection: " ++ thrown_message e)
                         None)
       end).

(** [isMegaETHChain()]: what it resolves to;
    [error.message && !error.message.includes("method not found")] is
    the message itself when that is the empty string. *)
Definition isMegaETHChain (http : HttpOutcome) (w : World) : World * json :=
  let (w1, r) := callRPC "realtime_sendRawTransaction" [] http w in
  (w1, match r with
       | Ok _ => JBool false
       | Err e =>
           let message := thrown_message e in
           if (message =? "")%string then JStr message
           else JBool (negb (includes message "method not found"))
       end).

(** [sendRawTransaction(signedTx, timeout)]. *)
Definition sendRawTransaction (signedTx timeout : json) (http : HttpOutcome) (w : World)
    : World * Result json :=
  let params := if truthy timeout then [signedTx; timeout] else [signedTx] in
  callRPC "realtime_sendRawTransaction" params http w.

(** [o[k] = v] on the properties of an object: a property that exists
    keeps its place. *)
Fixpoint assign (k : string) (v : json) (l : list (string * json)) : list (string * json) :=
  match l with
  | [] => [(k, v)]
  | (k', v') :: l' => if (k' =? k)%string then (k, v) :: l' else (k', v') :: assign k v l'
  end.

(** The elements of an array or the characters of a string as properties
    ["0"], ["1"], ... *)
Fixpoint indexed (i : nat) (l : list json) : list (string * json) :=
  match l with
  | [] => []
  | x :: l' => (decimal (Z.of_nat i), x) :: indexed (S i) l'
  end.

(** [{ ...v }]: the own properties of an object, the elements of an array,
    the characters of a string, nothing for any other value. *)
Definition spread (v : json) : list (string * json) :=
  match v with
  | JObj l => l
  | JArr items => indexed 0 items
  | JStr s => indexed 0 (map (fun c => JStr (String c "")) (list_ascii_of_string s))
  | _ => []
  end.

(** The request object of [getLogsWithCursor]. *)
Definition logs_params (filter cursor limit : json) : list (string * json) :=
  let params := spread filter in
  let params := if truthy cursor then assign "cursor" cursor params else params in
  if truthy limit then assign "limit" limit params else params.

(** [getLogsWithCursor(filter, cursor, limit)].  Reading [result.logs]
    from a [null] result is a [TypeError] raised outside [callRPC]. *)
Definition getLogsWithCursor (filter cursor limit : json) (http : HttpOutcome) (w : World)
    : World * Result json :=
  let (w1, r) := callRPC "eth_getLogsWithCursor" [JObj (logs_params filter cursor limit)]
                   http w in
  (w1, match r with
       | Err e => Err e
       | Ok result =>
           if nullish result then Err (Plain "TypeError" None)
           else Ok (JObj [("logs", or_else (field "logs" result) (JArr []));
                          ("cursor", field "cursor" result);
                          ("hasMore", JBool (truthy (field "cursor" result)))])
       end).

(** [interface ChainInfo]. *)
Record ChainInfo : Type := {
  chainId : number;
  networkName : string;
  isRealtimeEnabled : bool;
  latestBlock : number;
  miniBlockInterval : Z
}.

(** [getChainInfo()]: both calls start before either answer is there, so
    both take their id; [Promise.all] rejects with the rejection that
    comes first, [second_first] telling that the answer to the second call
    came before the answer to the first. *)
Definition getChainInfo (http1 http2 : HttpOutcome) (second_first : bool) (w : World)
    : World * Result ChainInfo :=
  let (w1, r1) := callRPC "eth_chainId" [] http1 w in
  let (w2, r2) := callRPC "eth_blockNumber" [] http2 w1 in
  (w2, match r1, r2 with
       | Ok chainId, Ok blockNumber =>
           Ok {| chainId := parseInt (to_string chainId);
                 networkName := "MegaETH";
                 isRealtimeEnabled := true;
                 latestBlock := parseInt (to_string blockNumber);
                 miniBlockInterval := 100 |}
       | Err e, Ok _ => Err e
       | Ok _, Err e => Err e
       | Err e1, Err e2 => Err (if second_first then e2 else e1)
       end).

(** [getBlockByNumber(blockNumber, includeTransactions = false)]. *)
Definition getBlockByNumber (blockNumber includeTransactions : json) (http : HttpOutcome)
    (w : World) : World * Result json :=
  let blockParam := match blockNumber with
                    | JNum n => JStr ("0x" ++ toString16 n)
                    | _ => blockNumber
                    end in
  let includeTransactions := match includeTransactions with
                             | JUndefined => JBool false
                             | v => v
                             end in
  callRPC "eth_getBlockByNumber" [blockParam; includeTransactions] http w.

(** The MegaETH part of [initializeClients] (src/index.ts), given
    [config.megaethRpcUrl] and the answers to the two requests: the client
    that is kept, [None] being [null], and the value of [isMegaETHChain].
    A client is made only for a truthy URL, and dropped again when
    [validateConnection] throws. *)
Definition initializeClients (megaethRpcUrl : option string) (cfg : Config)
    (megaethChainId : option Z) (http1 http2 : HttpOutcome) : option World * json :=
  match megaethRpcUrl with
  | None => (None, JBool false)
  | Some url =>
      if (url =? "")%string then (None, JBool false)
      else
        let megaethClient := new_client cfg in
        let (w1, r) := validateConnection megaethChainId http1 megaethClient in
        match r with
        | Err _ => (None, JBool false)
        | Ok _ =>
            let (w2, isMegaETH) := isMegaETHChain http2 w1 in
            (Some w2, isMegaETH)
        end
  end.

(* ------------------------------------------------------------------ *)
(** ** Sample values for the examples                                   *)
(* ------------------------------------------------------------------ *)

Module Sample.

Definition mint (n : nat) : string :=
  ("sub_" ++ NilZero.string_of_uint (Nat.to_uint n))%string.

Definition cfg (limit : Z) : Config :=
  {| megaethWsUrl := Some "ws://localhost:8546";
     megaethConnectionTimeout := Some 1000;
     megaethMaxSubscriptions := Some limit |}.

(** No [megaethWsUrl], as in the HTTP tests of the repository. *)
Definition http_only : Config :=
  {| megaethWsUrl := None; megaethConnectionTimeout := Some 1000;
     megaethMaxSubscriptions := Some 3 |}.

(** [{"id": id, "result": serverSubId}]. *)
Definition reply (id : Z) (serverSubId : string) : Message :=
  {| m_id := JNum id; m_error := JUndefined; m_result := JStr serverSubId;
     m_method := JUndefined; m_params := JUndefined |}.

(** [{"method": "eth_subscription", "params": {"subscription": s, "result": v}}]. *)
Definition notification (serverSubId : string) (v : json) : Message :=
  {| m_id := JUndefined; m_error := JUndefined; m_result := JUndefined;
     m_method := JStr "eth_subscription";
     m_params := JObj [("subscription", JStr serverSubId); ("result", v)] |}.

(** [{"error": {"message": m, "code": c, "data": d}}], absent members being
    [JUndefined]. *)
Definition error_body (m c d : json) : json :=
  JObj [("error", JObj [("message", m); ("code", c); ("data", d)])].

(** One subscription made and acknowledged on socket 0, with callback 7. *)
Definition subscribed : World :=
  Eval vm_compute in
    run mint
      [Subscribe 0 "newHeads" (JObj []); SocketOpen 0;
       SocketMessage 0 (reply 1 "0xa"); SetSubscriptionCallback "sub_0" 7]
      (new_client (cfg 3)).

(** The same with a maximum of one subscription: the table is full. *)
Definition full : World :=
  Eval vm_compute in
    run mint
      [Subscribe 0 "newHeads" (JObj []); SocketOpen 0; SocketMessage 0 (reply 1 "0xa")]
      (new_client (cfg 1)).

End Sample.

(* ------------------------------------------------------------------ *)
(** ** Vocabulary of the statements                                     *)
(* ------------------------------------------------------------------ *)

(** Every id issued so far is below the counter, and the ids were issued
    in strictly increasing order. *)
Definition ids_fresh (w : World) : Prop :=
  StronglySorted Z.lt (issued w) /\ Forall (fun x => x < requestId w) (issued w).

(** The ids of the frames sent so far, oldest first. *)
Definition frame_ids (w : World) : list Z :=
  map (fun frame => p_id (snd frame)) (sent w).

(** The ids taken are fresh, and the frames sent carry ids that were
    taken from the counter, each frame a greater one than the frames
    before it. *)
Definition ids_accounted (w : World) : Prop :=
  ids_fresh w /\ StronglySorted Z.lt (frame_ids w) /\ incl (frame_ids w) (issued w).

(** Callers of [connectWebSocket] parked as waiters, in order. *)
Definition parked (cs : list nat) : list (option Caller) :=
  map (fun c => Some (FromConnectWebSocket c)) cs.

(** The ids issued so far are 1, 2, ..., in this order, and the counter
    is the next one. *)
Definition ids_consecutive (w : World) : Prop :=
  issued w = map Z.of_nat (seq 1 (List.length (issued w)))
  /\ requestId w = 1 + Z.of_nat (List.length (issued w)).

(** A client without a manager that has done nothing on a socket. *)
Definition ws_disabled (w : World) : Prop :=
  wsManager w = None /\ subscriptions w = [] /\ sockets w = [] /\ pendings w = []
  /\ waiters w = [] /\ reconnectTimers w = [] /\ sent w = [] /\ delivered w = []
  /\ emitted w = [].

(** The handler [h] does not react to [msg]: it is the handler of a
    [subscribe] call whose request has another id than the message has. *)
Definition misses (msg : Message) (ps : list Pending) (h : Handler) : Prop :=
  match h with
  | ClientMessage => False
  | SubscribeReply c =>
      match nth_error ps c with
      | Some p => strict_eq (m_id msg) (JNum (payload_id p)) = false
      | None => True
      end
  end.

(** The entry of handle [h] is the only one with the server id [sid]. *)
Definition only_entry_of (sid : string) (h : string) (m : SubMap.t) : Prop :=
  forall h' s', In (h', s') m -> sub_id s' = JStr sid -> h' = h.

(** The manager's socket is socket [i], it is open, and the only listener
    for ["message"] is the client's: no [subscribe] call awaits a reply. *)
Definition idle_open (i : nat) (w : World) : Prop :=
  exists m s,
    wsManager w = Some m /\ messageHandlers m = [ClientMessage] /\
    connection m = Some i /\
    nth_error (sockets w) i = Some s /\ is_open (readyState s) = true.

(** The replies [{"id": id, "result": r}] to requests with consecutive
    ids from [id] on. *)
Fixpoint replies_from (id : Z) (results : list json) : list Message :=
  match results with
  | [] => []
  | r :: results' =>
      {| m_id := JNum id; m_error := JUndefined; m_result := r;
         m_method := JUndefined; m_params := JUndefined |}
      :: replies_from (id + 1) results'
  end.

(** The entries of a table made anew: handles from the [n]-th on, the
    server ids [results], no callback. *)
Fixpoint replayed (mint : nat -> string) (n : nat) (entries : SubMap.t)
    (results : list json) : SubMap.t :=
  match entries, results with
  | (_, s) :: entries', r :: results' =>
      (mint n, {| sub_id := r; sub_eventType := sub_eventType s;
                  sub_params := match sub_params s with
                                | JUndefined => JObj []
                                | _ => sub_params s
                                end;
                  sub_callback := NoopCallback |})
      :: replayed mint (S n) entries' results'
  | _, _ => []
  end.

(** The [eth_subscribe] frames for [entries] on socket [i], with
    consecutive ids from [id] on. *)
Fixpoint replay_frames (i : nat) (id : Z) (entries : SubMap.t) : list (nat * Payload) :=
  match entries with
  | [] => []
  | (_, s) :: entries' =>
      (i, {| p_id := id; p_method := "eth_subscribe";
             p_params := [JStr (sub_eventType s);
                          match sub_params s with
                          | JUndefined => JObj []
                          | _ => sub_params s
                          end] |})
      :: replay_frames i (id + 1) entries'
  end.

(** The updates of the manager object that the code makes: by [connect],
    by the catch block of [connect] and the error and close handlers, by
    the open handler, by [on] and [removeListener] for the handler of a
    [subscribe] call, and the three of [disconnect]. *)
Inductive manager_update : (WebSocketManager -> WebSocketManager) -> Prop :=
| update_connect (i : nat) :
    manager_update (fun m => set_connection (Some i) (set_isConnecting true m))
| update_idle : manager_update (set_isConnecting false)
| update_open :
    manager_update (fun m => set_heartbeatInterval true
                               (set_reconnectAttempts 0 (set_isConnecting false m)))
| update_listen (closure : nat) :
    manager_update (fun m => set_messageHandlers
                               (messageHandlers m ++ [SubscribeReply closure]) m)
| update_unlisten (closure : nat) :
    manager_update (fun m => set_messageHandlers
                               (remove_first (SubscribeReply closure) (messageHandlers m)) m)
| update_heartbeat_off : manager_update (set_heartbeatInterval false)
| update_unlink : manager_update (set_connection None)
| update_clear :
    manager_update (fun m => set_reconnectedHandler false (set_messageHandlers [] m)).

(** No listener of the client is registered: neither the one for
    ["message"] nor the one for ["reconnected"]. *)
Definition quiet (w : World) : Prop :=
  match wsManager w with
  | Some m => ~ In ClientMessage (messageHandlers m) /\ reconnectedHandler m = false
  | None => True
  end.

(** The bounds of the reconnection counter and the delays of the timers
    set so far. *)
Definition backoff_bounded (w : World) : Prop :=
  match wsManager w with
  | Some m => 0 <= reconnectAttempts m <= 5 /\ maxReconnectAttempts m = 5 /\
              reconnectDelay m = 1000
  | None => True
  end /\
  Forall (fun t => In (fst t) [1000; 2000; 4000; 8000; 16000]) (reconnectTimers w).

(** [k] rounds of a reconnection that keeps failing: the timer set by the
    last close fires, its [connect()] opens a new socket, and that socket
    fails.  [t] is the index of the timer and [s] that of the socket. *)
Fixpoint failed_reconnects (k t s : nat) : list Event :=
  match k with
  | O => []
  | S k' => ReconnectTimer t :: SocketFail s :: failed_reconnects k' (S t) (S s)
  end.

(** The manager between two attempts of a reconnection that started from
    a counter of zero, [k] attempts having failed: the counter is
    [k + 1], the manager's socket is closed, and after the timers [T]
    set before come the timers of the attempts made, which have fired,
    and the one of the next attempt, which has not. *)
Definition backing_off (M D : Z) (T : list (Z * bool)) (k n : nat) (E : list string)
    (w : World) : Prop :=
  exists m i s,
    wsManager w = Some m /\ isConnecting m = false /\
    reconnectAttempts m = Z.of_nat (S k) /\
    maxReconnectAttempts m = M /\ reconnectDelay m = D /\
    connection m = Some i /\ nth_error (sockets w) i = Some s /\ readyState s = CLOSED /\
    reconnectTimers w =
      T ++ map (fun j => (D * 2 ^ Z.of_nat j, false)) (seq 0 k)
        ++ [(D * 2 ^ Z.of_nat k, true)] /\
    List.length (sockets w) = n /\ emitted w = E.


(** [c] is a digit in radix 16. *)
Definition is_digit (c : ascii) : Prop := digit_value c <> None.

(** A string that starts with a digit and goes on with a digit, if it goes
    on. *)
Definition digits_first (s : string) : Prop :=
  match s with
  | String c rest =>
      is_digit c /\ match rest with String c2 _ => is_digit c2 | EmptyString => True end
  | EmptyString => False
  end.

(* ------------------------------------------------------------------ *)
(** ** Further sample worlds                                            *)
(* ------------------------------------------------------------------ *)

Module Scenario.

(** After [Sample.subscribed], two more [subscribe] calls whose requests
    (ids 2 and 3) are out and unanswered. *)
Definition two_pending : World :=
  Eval vm_compute in
    run Sample.mint
      [Subscribe 1 "logs" (JObj []); Subscribe 2 "newPendingTransactions" (JObj [])]
      Sample.subscribed.

End Scenario.

(* ------------------------------------------------------------------ *)
(** ** The sample worlds are runs of the client                         *)
(* ------------------------------------------------------------------ *)

Example subscribed_is_a_run :
  Sample.subscribed =
    run Sample.mint
      [Subscribe 0 "newHeads" (JObj []); SocketOpen 0;
       SocketMessage 0 (Sample.reply 1 "0xa"); SetSubscriptionCallback "sub_0" 7]
      (new_client (Sample.cfg 3)).
Proof. vm_compute. reflexivity. Qed.

Example full_is_a_run :
  Sample.full =
    run Sample.mint
      [Subscribe 0 "newHeads" (JObj []); SocketOpen 0;
       SocketMessage 0 (Sample.reply 1 "0xa")]
      (new_client (Sample.cfg 1)).
Proof. vm_compute. reflexivity. Qed.

(* ------------------------------------------------------------------ *)
(** ** callRPC: classification and annotation of errors                 *)
(* ------------------------------------------------------------------ *)

(** What [rpc_try] makes of an error member whose message is the text [m]. *)
Lemma rpc_try_error_text (params : list json) (data error : json) (m : string) :
  nullish data = false ->
  field "error" data = error ->
  truthy error = true ->
  field "message" error = JStr m ->
  rpc_try params (HttpData data) =
    if includes m "realtime transaction expired" then
      Err (Mega (RealtimeTransactionExpiredError (or_else (first params) (JStr "unknown"))))
    else if includes m "mini block not found" then
      Err (Mega (MiniBlockNotFoundError (or_else (first params) (JNum 0))))
    else
      Err (Mega (GenericError (or_else (JStr m) (JStr "Unknown RPC error"))
                              (or_else (field "code" error) (JStr "UNKNOWN"))
                              (field "data" error))).
Proof.
  intros Hn He Ht Hm. unfold rpc_try. rewrite Hn, He, Ht, Hm.
  destruct m as [|a m'].
  - reflexivity.
  - assert (Hor : or_else (JStr (String a m')) (JStr "Unknown RPC error")
                  = JStr (String a m')) by reflexivity.
    rewrite !Hor. cbn [message_includes].
    destruct (includes (String a m') "realtime transaction expired"); [reflexivity|].
    destruct (includes (String a m') "mini block not found"); reflexivity.
Qed.

(** C3 (as amended).  For a server error response with message text [m],
    code [c] and data [d], classification is a function of [m] alone, in
    this order: [m] contains "realtime transaction expired" gives the
    TransactionExpired error; otherwise [m] contains "mini block not found"
    gives the MiniBlockNotFound error; otherwise the result is a generic
    error whose data is [d] and whose code is [c] when [c] is truthy and
    the string "UNKNOWN" when it is not (absent, null, 0 or empty). *)
Theorem callRPC_classification
    (method : string) (params : list json) (data error : json)
    (m : string) (c d : json) (w : World) :
  method <> "" ->
  nullish data = false ->
  field "error" data = error ->
  truthy error = true ->
  field "message" error = JStr m ->
  field "code" error = c ->
  field "data" error = d ->
  (includes m "realtime transaction expired" = true ->
     snd (callRPC method params (HttpData data) w) =
       Err (Mega (RealtimeTransactionExpiredError (or_else (first params) (JStr "unknown")))))
  /\ (includes m "realtime transaction expired" = false ->
      includes m "mini block not found" = true ->
      snd (callRPC method params (HttpData data) w) =
        Err (Mega (MiniBlockNotFoundError (or_else (first params) (JNum 0)))))
  /\ (includes m "realtime transaction expired" = false ->
      includes m "mini block not found" = false ->
      snd (callRPC method params (HttpData data) w) =
        Err (Mega (GenericError
                     (if (m =? "")%string then JStr "Unknown RPC error" else JStr m)
                     (if truthy c then c else JStr "UNKNOWN")
                     d))).
Proof.
  intros Hmeth Hn He Ht Hm Hc Hd.
  assert (Hcall : snd (callRPC method params (HttpData data) w) =
                  rpc_catch method params (rpc_try params (HttpData data))).
  { unfold callRPC. destruct (String.eqb_spec method ""); [congruence | reflexivity]. }
  rewrite Hcall, (@rpc_try_error_text params data error m Hn He Ht Hm).
  repeat split.
  - intros ->. reflexivity.
  - intros -> ->. reflexivity.
  - intros -> ->. cbn [rpc_catch]. rewrite Hc, Hd.
    unfold or_else. destruct m; reflexivity.
Qed.

Lemma callRPC_classification_witness :
  let data := Sample.error_body (JStr "boom") (JNum 42) (JObj [("a", JNum 1)]) in
  snd (callRPC "x" [] (HttpData data) (new_client Sample.http_only)) =
    Err (Mega (GenericError (JStr "boom") (JNum 42) (JObj [("a", JNum 1)]))).
Proof.
  intro data.
  assert (Hmeth : "x" <> "") by discriminate.
  destruct (@callRPC_classification "x" [] data (field "error" data) "boom"
              (JNum 42) (JObj [("a", JNum 1)]) (new_client Sample.http_only)
              Hmeth eq_refl eq_refl eq_refl eq_refl eq_refl eq_refl)
    as (_ & _ & H).
  exact (H eq_refl eq_refl).
Defined.

(** C3, the claim as stated fails: with the code member absent, and also
    with the code 0, the generic error does not carry the code supplied
    but the string "UNKNOWN". *)
Lemma callRPC_absent_code_becomes_UNKNOWN :
  (exists e,
     snd (callRPC "x" []
            (HttpData (JObj [("error", JObj [("message", JStr "boom")])]))
            (new_client Sample.http_only)) = Err (Mega e)
     /\ field "code" (JObj [("message", JStr "boom")]) = JUndefined
     /\ error_code e = JStr "UNKNOWN"
     /\ error_code e <> JUndefined)
  /\ (exists e,
        snd (callRPC "x" []
               (HttpData (Sample.error_body (JStr "boom") (JNum 0) JUndefined))
               (new_client Sample.http_only)) = Err (Mega e)
        /\ error_code e = JStr "UNKNOWN"
        /\ error_code e <> JNum 0).
Proof.
  split; eexists; (split; [reflexivity|]); repeat split; discriminate.
Qed.

(** C4 (as amended).  For a call with a non-empty method that fails, an
    error that is not a classified RPC error (a transport failure, or any
    other exception of the try block) carries the originating method name
    and parameter list; a classified RPC error is rethrown as it is,
    without them. *)
Theorem callRPC_error_annotation
    (method : string) (params : list json) (http : HttpOutcome) (w : World) (t : Thrown) :
  method <> "" ->
  snd (callRPC method params http w) = Err t ->
  match t with
  | Mega _ => rpcMethod t = None /\ rpcParams t = None
  | Plain _ _ => rpcMethod t = Some method /\ rpcParams t = Some params
  end.
Proof.
  intros Hmeth. unfold callRPC.
  destruct (String.eqb_spec method ""); [congruence|]. cbn [snd].
  destruct (rpc_try params http) as [v | [e | msg rpc]]; cbn [rpc_catch];
    intros H; inversion H; subst; cbn; auto.
Qed.

Lemma callRPC_error_annotation_witness :
  rpcMethod (Plain "down" (Some ("eth_getLogsWithCursor", [JObj [("fromBlock", JNum 1)]])))
    = Some "eth_getLogsWithCursor"
  /\ rpcParams (Plain "down" (Some ("eth_getLogsWithCursor", [JObj [("fromBlock", JNum 1)]])))
    = Some [JObj [("fromBlock", JNum 1)]].
Proof.
  apply (@callRPC_error_annotation "eth_getLogsWithCursor" [JObj [("fromBlock", JNum 1)]]
           (HttpRejected "down") (new_client Sample.http_only)
           (Plain "down" (Some ("eth_getLogsWithCursor", [JObj [("fromBlock", JNum 1)]])))).
  - discriminate.
  - reflexivity.
Defined.

(** C4, the claim as stated fails: a classified error (here
    MiniBlockNotFound) reaches the caller without the method name and
    without the parameter list. *)
Lemma callRPC_classified_error_not_annotated :
  exists t,
    snd (callRPC "eth_getBlockByNumber" [JStr "0xa"]
           (HttpData (JObj [("error", JObj [("message", JStr "mini block not found")])]))
           (new_client Sample.http_only)) = Err t
    /\ rpcMethod t = None /\ rpcParams t = None.
Proof.
  eexists. split; [reflexivity|]. split; reflexivity.
Qed.

(* ------------------------------------------------------------------ *)
(** ** Reconnection with exponential backoff                            *)
(* ------------------------------------------------------------------ *)

Lemma handleReconnection_below (w : World) (m : WebSocketManager) :
  wsManager w = Some m ->
  reconnectAttempts m < maxReconnectAttempts m ->
  handleReconnection w =
    schedule_reconnect (reconnectDelay m * 2 ^ (reconnectAttempts m + 1 - 1))
      (set_wsManager (Some (set_reconnectAttempts (reconnectAttempts m + 1) m)) w).
Proof.
  intros Hm Hlt. unfold handleReconnection, on_manager. rewrite Hm.
  destruct (Z.geb_spec (reconnectAttempts m) (maxReconnectAttempts m)); [lia | reflexivity].
Qed.

Lemma handleReconnection_exhausted (w : World) (m : WebSocketManager) :
  wsManager w = Some m ->
  maxReconnectAttempts m <= reconnectAttempts m ->
  handleReconnection w = log_emitted "maxReconnectAttemptsReached" w.
Proof.
  intros Hm Hge. unfold handleReconnection. rewrite Hm.
  destruct (Z.geb_spec (reconnectAttempts m) (maxReconnectAttempts m)); [reflexivity | lia].
Qed.

Lemma on_close_unfold (i : nat) (w : World) (s : Socket) :
  nth_error (sockets w) i = Some s ->
  readyState s <> CLOSED ->
  on_close i w =
    handleReconnection
      (on_manager (set_isConnecting false) (on_socket i (set_readyState CLOSED) w)).
Proof.
  intros Hs Hr. unfold on_close. rewrite Hs. destruct (readyState s); congruence.
Qed.

(* ------------------------------------------------------------------ *)
(** ** unsubscribe                                                      *)
(* ------------------------------------------------------------------ *)

Lemma get_delete (h : string) (m : SubMap.t) :
  SubMap.get h (SubMap.delete h m) = None.
Proof.
  induction m as [|[k v] m IH]; cbn; [reflexivity|].
  destruct (String.eqb_spec k h) as [->|Hne]; [exact IH|].
  cbn. destruct (String.eqb_spec k h); [congruence | exact IH].
Qed.

Lemma send_open (p : Payload) (w : World) (i : nat) :
  open_socket w = Some i -> send p w = Some (log_sent (i, p) w).
Proof.
  intros H. unfold send. rewrite H. reflexivity.
Qed.

Lemma open_socket_manager (w : World) (i : nat) :
  open_socket w = Some i -> exists m, wsManager w = Some m.
Proof.
  unfold open_socket. destruct (wsManager w) as [m|]; [eauto | discriminate].
Qed.

(** C7 (as amended).  If [h] is not a key of the subscription table, or no
    connection manager is configured, [unsubscribe h] returns false and
    changes nothing.  Otherwise, when the socket is open, it sends the
    unsubscribe envelope, sets up nothing to await an answer, removes the
    mapping for [h] at once and returns true. *)
Theorem unsubscribe_cases (h : string) (w : World) :
  (SubMap.get h (subscriptions w) = None \/ wsManager w = None ->
     unsubscribe h w = (w, false))
  /\ (forall (s : Subscription) (i : nat),
        SubMap.get h (subscriptions w) = Some s ->
        open_socket w = Some i ->
        let w' := fst (unsubscribe h w) in
        snd (unsubscribe h w) = true
        /\ sent w' = sent w ++ [(i, unsubscribe_payload s w)]
        /\ subscriptions w' = SubMap.delete h (subscriptions w)
        /\ SubMap.get h (subscriptions w') = None
        /\ pendings w' = pendings w
        /\ wsManager w' = wsManager w).
Proof.
  split.
  - intros [Hget | Hm]; unfold unsubscribe.
    + rewrite Hget. reflexivity.
    + rewrite Hm. destruct (SubMap.get h (subscriptions w)); reflexivity.
  - intros s i Hget Hopen w'. subst w'. unfold unsubscribe. rewrite Hget.
    destruct (open_socket_manager w Hopen) as (m & Hm). rewrite Hm.
    assert (Hopen' : open_socket (next_requestId w) = Some i) by exact Hopen.
    rewrite (send_open _ _ Hopen'). cbn.
    repeat split; auto using get_delete.
Qed.

Lemma unsubscribe_cases_witness :
  unsubscribe "sub_x" Sample.subscribed = (Sample.subscribed, false)
  /\ snd (unsubscribe "sub_0" Sample.subscribed) = true
  /\ subscriptions (fst (unsubscribe "sub_0" Sample.subscribed)) = [].
Proof.
  destruct (unsubscribe_cases "sub_x" Sample.subscribed) as (H1 & _).
  destruct (unsubscribe_cases "sub_0" Sample.subscribed) as (_ & H2).
  split; [apply H1; left; reflexivity|].
  destruct (H2 {| sub_id := JStr "0xa"; sub_eventType := "newHeads";
                  sub_params := JObj []; sub_callback := UserCallback 7 |} 0%nat
              eq_refl eq_refl) as (Ht & _ & Hs & _).
  split; [exact Ht | exact Hs].
Defined.

(** C7, the claim as stated fails: the handle is known and a connection
    manager is configured, yet [unsubscribe] returns false and keeps the
    mapping, because the socket has closed. *)
Lemma unsubscribe_known_handle_returns_false :
  let w := run Sample.mint [SocketClose 0] Sample.subscribed in
  SubMap.get "sub_0" (subscriptions w) <> None
  /\ wsManager w <> None
  /\ snd (unsubscribe "sub_0" w) = false
  /\ SubMap.get "sub_0" (subscriptions (fst (unsubscribe "sub_0" w))) <> None.
Proof.
  vm_compute. repeat split; discriminate.
Qed.

(** C10.  For a known handle [h], if sending the unsubscribe envelope
    throws, [unsubscribe h] returns false and the subscription table is
    unchanged; the mapping for [h] goes only when the send succeeds. *)
Theorem unsubscribe_send_throws (h : string) (s : Subscription) (w : World) :
  SubMap.get h (subscriptions w) = Some s ->
  (send (unsubscribe_payload s w) (next_requestId w) = None ->
     snd (unsubscribe h w) = false
     /\ subscriptions (fst (unsubscribe h w)) = subscriptions w)
  /\ (SubMap.get h (subscriptions (fst (unsubscribe h w))) = None ->
      send (unsubscribe_payload s w) (next_requestId w) <> None).
Proof.
  intros Hget. unfold unsubscribe. rewrite Hget.
  fold (unsubscribe_payload s w).
  destruct (wsManager w) as [m|] eqn:Hm.
  - destruct (send (unsubscribe_payload s w) (next_requestId w)) as [w2|] eqn:Hsend.
    + split; [discriminate | intros _; discriminate].
    + split; [intros _; split; reflexivity|].
      cbn. rewrite Hget. discriminate.
  - split.
    + intros _. split; reflexivity.
    + cbn. rewrite Hget. discriminate.
Qed.

Lemma unsubscribe_send_throws_witness :
  let w := run Sample.mint [SocketClose 0] Sample.subscribed in
  snd (unsubscribe "sub_0" w) = false
  /\ subscriptions (fst (unsubscribe "sub_0" w)) = subscriptions w.
Proof.
  intro w.
  apply (@unsubscribe_send_throws "sub_0"
           {| sub_id := JStr "0xa"; sub_eventType := "newHeads";
              sub_params := JObj []; sub_callback := UserCallback 7 |} w eq_refl).
  reflexivity.
Defined.

(* ------------------------------------------------------------------ *)
(** ** Resubscription after a reconnect                                 *)
(* ------------------------------------------------------------------ *)

(** C1, the code at the failing input.  One subscription ["sub_0"] with
    server id "0xa" and callback 7; the socket closes, the reconnect timer
    fires, the new socket opens, the server answers the re-issued
    subscribe with the new id "0xb" and then notifies "0xb".  The subscribe
    is re-issued with the original event type and parameters, but the new
    entry has a new handle and the empty callback: the notification goes
    to the empty callback and callback 7 is not called. *)
Theorem resubscribeAll_drops_callback :
  let w := run Sample.mint
             [SocketClose 0; ReconnectTimer 0; SocketOpen 1;
              SocketMessage 1 (Sample.reply 2 "0xb");
              SocketMessage 1 (Sample.notification "0xb" (JNum 12))]
             Sample.subscribed in
  subscriptions Sample.subscribed =
    [("sub_0", {| sub_id := JStr "0xa"; sub_eventType := "newHeads";
                  sub_params := JObj []; sub_callback := UserCallback 7 |})]
  /\ sent w = sent Sample.subscribed ++
              [(1%nat, {| p_id := 2; p_method := "eth_subscribe";
                          p_params := [JStr "newHeads"; JObj []] |})]
  /\ subscriptions w =
       [("sub_1", {| sub_id := JStr "0xb"; sub_eventType := "newHeads";
                     sub_params := JObj []; sub_callback := NoopCallback |})]
  /\ delivered w = [(NoopCallback, JNum 12)]
  /\ ~ In (UserCallback 7) (map fst (delivered w)).
Proof.
  vm_compute. repeat split; try reflexivity.
  intros [H | []]. discriminate.
Qed.

(* ------------------------------------------------------------------ *)
(** ** Subscribe: timeout and limit                                     *)
(* ------------------------------------------------------------------ *)

(** C2, the code at the failing input.  A subscribe whose request 1 gets
    no answer before the 10 s timer: the caller is told "Subscription
    timeout" and the table is empty, but the listener is still on the
    bus.  The answer to request 1 then arrives: the listener stores a
    subscription under the handle that was never given to the caller. *)
Theorem late_reply_after_timeout_is_stored :
  let timed_out := run Sample.mint
                     [Subscribe 0 "newHeads" (JObj []); SocketOpen 0; SubscribeTimeout 0]
                     (new_client (Sample.cfg 3)) in
  let late := step Sample.mint (SocketMessage 0 (Sample.reply 1 "0xa")) timed_out in
  outcomes timed_out = [(0%nat, Threw (Plain "Subscription timeout" None))]
  /\ subscriptions timed_out = []
  /\ option_map messageHandlers (wsManager timed_out)
     = Some [ClientMessage; SubscribeReply 0]
  /\ subscriptions late =
       [("sub_0", {| sub_id := JStr "0xa"; sub_eventType := "newHeads";
                     sub_params := JObj []; sub_callback := NoopCallback |})]
  /\ subscriptions late <> subscriptions timed_out
  /\ outcomes late = outcomes timed_out.
Proof.
  vm_compute. repeat split; try reflexivity. discriminate.
Qed.


(** A call that timed out still counts: its reply listener stays
    registered, so with a maximum of 1 the late reply to a call that was
    rejected with "Subscription timeout" adds an entry next to the one of
    a later call. *)
Lemma timed_out_call_overlaps :
  let w := run Sample.mint
             [ConnectWebSocket 9; SocketOpen 0;
              Subscribe 0 "newHeads" (JObj []); SubscribeTimeout 0;
              Subscribe 1 "logs" (JObj []);
              SocketMessage 0 (Sample.reply 2 "0xb");
              SocketMessage 0 (Sample.reply 1 "0xa")]
             (new_client (Sample.cfg 1)) in
  maxSubscriptions (config w) = 1
  /\ SubMap.size (subscriptions w) = 2
  /\ outcomes w = [(9%nat, Returned JUndefined);
                   (0%nat, Threw (Plain "Subscription timeout" None));
                   (1%nat, Returned (JStr "sub_1"))].
Proof.
  vm_compute. repeat split; reflexivity.
Qed.

(** C8, the claim as stated fails: a subscribe on a client whose socket
    is not open changes the connection manager (a connection attempt is
    started), which is neither the counter nor the subscription table. *)
Lemma subscribe_changes_connection_manager :
  let w := new_client (Sample.cfg 3) in
  let w' := step Sample.mint (Subscribe 0 "newHeads" (JObj [])) w in
  option_map isConnecting (wsManager w) = Some false
  /\ option_map isConnecting (wsManager w') = Some true
  /\ option_map connection (wsManager w) = Some None
  /\ option_map connection (wsManager w') = Some (Some 0%nat)
  /\ wsManager w' <> wsManager w.
Proof.
  vm_compute. repeat split; try reflexivity. discriminate.
Qed.

(* ------------------------------------------------------------------ *)
(** ** Properties kept by every step                                    *)
(* ------------------------------------------------------------------ *)

Create HintDb pres.

(** A property of worlds that every field update keeps is kept by every
    operation of the client and the manager, hence by every run. *)
Section Preservation.

Variable mint : nat -> string.
Variable P : World -> Prop.

Hypothesis P_wsManager : forall x w, P w -> P (set_wsManager x w).
Hypothesis P_subscriptions : forall x w, P w -> P (set_subscriptions x w).
Hypothesis P_requestId : forall w, P w -> P (next_requestId w).
Hypothesis P_sockets : forall x w, P w -> P (set_sockets x w).
Hypothesis P_pendings : forall x w, P w -> P (set_pendings x w).
Hypothesis P_waiters : forall x w, P w -> P (set_waiters x w).
Hypothesis P_reconnectTimers : forall x w, P w -> P (set_reconnectTimers x w).
Hypothesis P_minted : forall w, P w -> P (next_minted w).
Hypothesis P_sent : forall x w, P w -> P (log_sent x w).
Hypothesis P_emitted : forall x w, P w -> P (log_emitted x w).
Hypothesis P_delivered : forall x w, P w -> P (log_delivered x w).
Hypothesis P_outcome : forall c o w, P w -> P (log_outcome c o w).

#[local] Hint Resolve P_wsManager P_subscriptions P_requestId P_sockets P_pendings
  P_waiters P_reconnectTimers P_minted P_sent P_emitted P_delivered P_outcome : pres.

Lemma P_on_manager f w : P w -> P (on_manager f w).
Proof. intros H. unfold on_manager. destruct (wsManager w); auto with pres. Qed.

Lemma P_on_socket i f w : P w -> P (on_socket i f w).
Proof. unfold on_socket. auto with pres. Qed.

Lemma P_on_pending i f w : P w -> P (on_pending i f w).
Proof. unfold on_pending. auto with pres. Qed.

Lemma P_schedule_reconnect d w : P w -> P (schedule_reconnect d w).
Proof. unfold schedule_reconnect. auto with pres. Qed.

#[local] Hint Resolve P_on_manager P_on_socket P_on_pending P_schedule_reconnect : pres.

Lemma P_handleReconnection w : P w -> P (handleReconnection w).
Proof.
  intros H. unfold handleReconnection. destruct (wsManager w) as [m|]; [|exact H].
  destruct (reconnectAttempts m >=? maxReconnectAttempts m); auto with pres.
Qed.

Lemma P_send p w w' : send p w = Some w' -> P w -> P w'.
Proof.
  unfold send. destruct (open_socket w); [|discriminate].
  intros E H. inversion E. auto with pres.
Qed.

Lemma P_connect caller w : P w -> P (fst (connect caller w)).
Proof.
  intros H. unfold connect. destruct (open_socket w); [exact H|].
  destruct (wsManager w) as [m|]; [|exact H].
  destruct (isConnecting m); cbn [fst]; auto with pres.
Qed.

Lemma P_subscribe_send call w : P w -> P (fst (subscribe_send mint call w)).
Proof.
  intros H. unfold subscribe_send. cbv zeta.
  match goal with
  | |- context [send ?p ?w3] => destruct (send p w3) as [w4|] eqn:E
  end; cbn [fst].
  - eapply P_send; [exact E|]. auto 10 with pres.
  - auto 10 with pres.
Qed.

Lemma P_subscribe_start call w : P w -> P (fst (subscribe_start call w)).
Proof.
  intros H. unfold subscribe_start. cbv zeta. destruct (wsManager w); [|exact H].
  destruct (SubMap.size (subscriptions w) >=? maxSubscriptions (config w)); [exact H|].
  match goal with
  | |- context [connect ?c w] =>
      pose proof (P_connect c H) as Hc; destruct (connect c w) as [w1 ready]
  end.
  exact Hc.
Qed.

Lemma P_subscribe call w : P w -> P (fst (subscribe mint call w)).
Proof.
  intros H. unfold subscribe.
  pose proof (P_subscribe_start call H) as Hs.
  destruct (subscribe_start call w) as [w1 [t|call'|]]; cbn [fst] in Hs; try exact Hs.
  apply P_subscribe_send; exact Hs.
Qed.

Lemma P_resubscribe_loop rest : forall w, P w -> P (resubscribe_loop mint rest w).
Proof.
  induction rest as [|[k s] rest IH]; intros w H; cbn [resubscribe_loop]; [exact H|].
  match goal with
  | |- context [subscribe mint ?c w] =>
      pose proof (P_subscribe c H) as Hs; destruct (subscribe mint c w) as [w1 r]
  end.
  cbn [fst] in Hs. destruct r; auto.
Qed.

Lemma P_resubscribeAll w : P w -> P (resubscribeAll mint w).
Proof. intros H. unfold resubscribeAll. apply P_resubscribe_loop. auto with pres. Qed.

Lemma P_settle_subscribe k r w : P w -> P (settle_subscribe mint k r w).
Proof.
  intros H. destruct k; cbn [settle_subscribe];
    [auto with pres | apply P_resubscribe_loop; exact H].
Qed.

Lemma P_emit_reconnected w : P w -> P (emit_reconnected mint w).
Proof.
  intros H. unfold emit_reconnected. cbv zeta.
  destruct (wsManager (log_emitted "reconnected" w)) as [m|]; [|auto with pres].
  destruct (reconnectedHandler m); [apply P_resubscribeAll|]; auto with pres.
Qed.

Lemma P_resume_connect caller r w : P w -> P (resume_connect mint caller r w).
Proof.
  intros H. destruct caller as [c|call|]; cbn [resume_connect].
  - auto with pres.
  - destruct r as [e|]; [apply P_settle_subscribe; exact H|].
    pose proof (P_subscribe_send call H) as Hs.
    destruct (subscribe_send mint call w) as [w1 r1]. cbn [fst] in Hs.
    destruct r1; [apply P_settle_subscribe|]; exact Hs.
  - destruct r; [auto with pres | apply P_emit_reconnected; exact H].
Qed.

Lemma P_callRPC method params http w : P w -> P (fst (callRPC method params http w)).
Proof.
  intros H. unfold callRPC. destruct (method =? "")%string; cbn [fst]; auto with pres.
Qed.

Lemma P_unsubscribe h w : P w -> P (fst (unsubscribe h w)).
Proof.
  intros H. unfold unsubscribe. destruct (SubMap.get h (subscriptions w)); [|exact H].
  destruct (wsManager w); [|exact H]. cbv zeta.
  match goal with
  | |- context [send ?p ?w1] => destruct (send p w1) as [w2|] eqn:E
  end; cbn [fst]; [|auto with pres].
  apply P_subscriptions. eapply P_send; [exact E|]. auto with pres.
Qed.

Lemma P_setSubscriptionCallback h cb w : P w -> P (setSubscriptionCallback h cb w).
Proof.
  intros H. unfold setSubscriptionCallback.
  destruct (SubMap.get h (subscriptions w)); auto with pres.
Qed.

Lemma P_handleWebSocketMessage msg w w' :
  handleWebSocketMessage msg w = Some w' -> P w -> P w'.
Proof.
  unfold handleWebSocketMessage. intros E H.
  destruct (strict_eq (m_method msg) (JStr "eth_subscription")).
  - destruct (nullish (m_params msg)); [discriminate|].
    destruct (find_subscription _ _); inversion E; subst; auto with pres.
  - inversion E. subst. exact H.
Qed.

Lemma P_settle_once closure p r w : P w -> P (fst (settle_once closure p r w)).
Proof.
  intros H. unfold settle_once. destruct (pending_settled p); cbn [fst]; auto with pres.
Qed.

Lemma P_messageHandler closure msg w : P w -> P (fst (messageHandler closure msg w)).
Proof.
  intros H. unfold messageHandler.
  destruct (nth_error (pendings w) closure) as [p|]; [|exact H].
  destruct (strict_eq (m_id msg) (JNum (payload_id p))); [|exact H]. cbv zeta.
  destruct (truthy (m_error msg)); apply P_settle_once; auto 10 with pres.
Qed.

Lemma P_forEach_message fuel : forall k msg w woken,
  P w -> P (fst (forEach_message fuel k msg w woken)).
Proof.
  induction fuel as [|fuel IH]; intros k msg w woken H; cbn [forEach_message]; [exact H|].
  destruct (wsManager w) as [m|]; [|exact H].
  destruct (nth_error (messageHandlers m) k) as [[|closure]|]; [| |exact H].
  - destruct (handleWebSocketMessage msg w) as [w'|] eqn:E; [|exact H].
    apply IH. eapply P_handleWebSocketMessage; eauto.
  - pose proof (P_messageHandler closure msg H) as Hm.
    destruct (messageHandler closure msg w) as [w' l]. cbn [fst] in Hm.
    apply IH. exact Hm.
Qed.

Lemma P_wake_all woken : forall w, P w -> P (fold_left (wake mint) woken w).
Proof.
  induction woken as [|kr woken IH]; intros w H; cbn [fold_left]; [exact H|].
  apply IH. unfold wake. apply P_settle_subscribe. exact H.
Qed.

Lemma P_emit_message msg w : P w -> P (emit_message mint msg w).
Proof.
  intros H. unfold emit_message. destruct (wsManager w) as [m|]; [|exact H].
  pose proof (P_forEach_message (List.length (messageHandlers m)) 0 msg [] H) as Hf.
  destruct (forEach_message _ 0 msg w []) as [w' woken]. cbn [fst] in Hf.
  apply P_wake_all. exact Hf.
Qed.

Lemma P_connect_failed i s e w : P w -> P (connect_failed mint i s e w).
Proof.
  intros H. unfold connect_failed. destruct (settled s); [exact H|].
  apply P_resume_connect. auto with pres.
Qed.

Lemma P_on_open i w : P w -> P (on_open mint i w).
Proof.
  intros H. unfold on_open. destruct (nth_error (sockets w) i) as [s|]; [|exact H].
  destruct (readyState s); try exact H. cbv zeta.
  destruct (settled s); [|apply P_resume_connect]; auto with pres.
Qed.

Lemma P_on_error i w : P w -> P (on_error mint i w).
Proof.
  intros H. unfold on_error. destruct (nth_error (sockets w) i) as [s|]; [|exact H].
  destruct (readyState s); try exact H; cbv zeta; apply P_connect_failed; auto with pres.
Qed.

Lemma P_on_close i w : P w -> P (on_close i w).
Proof.
  intros H. unfold on_close. destruct (nth_error (sockets w) i) as [s|]; [|exact H].
  destruct (readyState s); try exact H; apply P_handleReconnection; auto with pres.
Qed.

Lemma P_on_fail i w : P w -> P (on_fail mint i w).
Proof.
  intros H. unfold on_fail. destruct (nth_error (sockets w) i) as [s|]; [|exact H].
  destruct (readyState s); try exact H; cbv zeta;
    apply P_connect_failed, P_on_close; auto with pres.
Qed.

Lemma P_on_message i msg w : P w -> P (on_message mint i msg w).
Proof.
  intros H. unfold on_message. destruct (nth_error (sockets w) i) as [s|]; [|exact H].
  destruct (is_open (readyState s)); [apply P_emit_message|]; exact H.
Qed.

Lemma P_on_connect_timeout i w : P w -> P (on_connect_timeout mint i w).
Proof.
  intros H. unfold on_connect_timeout.
  destruct (nth_error (sockets w) i) as [s|]; [|exact H].
  destruct (connectTimer s); [apply P_connect_failed|]; auto with pres.
Qed.

Lemma P_checkConnection n w : P w -> P (checkConnection mint n w).
Proof.
  intros H. unfold checkConnection.
  destruct (nth_error (waiters w) n) as [[caller|]|]; try exact H. cbv zeta.
  destruct (open_socket w); [apply P_resume_connect; auto with pres|].
  destruct (wsManager w) as [m|]; [|exact H].
  destruct (isConnecting m); [exact H|]. apply P_resume_connect. auto with pres.
Qed.

Lemma P_on_reconnect_timer n w : P w -> P (on_reconnect_timer mint n w).
Proof.
  intros H. unfold on_reconnect_timer.
  destruct (nth_error (reconnectTimers w) n) as [[delay [|]]|]; try exact H. cbv zeta.
  match goal with
  | |- context [connect FromReconnectTimer ?w1] =>
      assert (H1 : P w1) by auto with pres;
      pose proof (P_connect FromReconnectTimer H1) as Hc;
      destruct (connect FromReconnectTimer w1) as [w2 ready]
  end.
  cbn [fst] in Hc. destruct ready; [apply P_emit_reconnected|]; exact Hc.
Qed.

Lemma P_on_subscribe_timeout closure w : P w -> P (on_subscribe_timeout mint closure w).
Proof.
  intros H. unfold on_subscribe_timeout.
  destruct (nth_error (pendings w) closure) as [p|]; [|exact H].
  destruct (pending_timer p); [|exact H]. cbv zeta.
  match goal with
  | |- context [settle_once closure p ?r ?w1] =>
      assert (H1 : P w1) by auto with pres;
      pose proof (P_settle_once closure p r H1) as Hs;
      destruct (settle_once closure p r w1) as [w2 woken]
  end.
  cbn [fst] in Hs. apply P_wake_all. exact Hs.
Qed.

Lemma P_manager_disconnect w : P w -> P (manager_disconnect w).
Proof.
  intros H. unfold manager_disconnect. cbv zeta.
  apply P_on_manager.
  destruct (wsManager (on_manager (set_heartbeatInterval false) w)) as [m|];
    [|auto with pres].
  destruct (connection m); auto 6 with pres.
Qed.

Lemma P_disconnect w : P w -> P (disconnect w).
Proof. intros H. apply P_subscriptions, P_manager_disconnect, H. Qed.

Lemma P_connectWebSocket c w : P w -> P (connectWebSocket c w).
Proof.
  intros H. unfold connectWebSocket. destruct (wsManager w); [|auto with pres].
  pose proof (P_connect (FromConnectWebSocket c) H) as Hc.
  destruct (connect (FromConnectWebSocket c) w) as [w1 ready]. cbn [fst] in Hc.
  destruct ready; auto with pres.
Qed.

Lemma P_call_now a w : P w -> P (fst (fst (call_now a w))).
Proof.
  intros H. destruct a as [c method params http | c et ps | c h | h k | c | ];
    cbn [call_now].
  - pose proof (P_callRPC method params http H) as Hc.
    destruct (callRPC method params http w) as [w1 r]. cbn [fst] in *. auto with pres.
  - match goal with
    | |- context [subscribe_start ?c w] =>
        pose proof (P_subscribe_start c H) as Hs;
          destruct (subscribe_start c w) as [w1 [t|call|]]
    end; cbn [fst] in *; auto with pres.
  - pose proof (P_unsubscribe h H) as Hu.
    destruct (unsubscribe h w) as [w1 b]. cbn [fst] in *. auto with pres.
  - cbn [fst]. apply P_setSubscriptionCallback; exact H.
  - cbn [fst]. apply P_connectWebSocket; exact H.
  - destruct (wsManager w); cbn [fst];
      [apply P_manager_disconnect | apply P_subscriptions]; exact H.
Qed.

Lemma P_calls_now calls : forall w, P w -> P (fst (fst (calls_now calls w))).
Proof.
  induction calls as [|a calls IH]; intros w H; cbn [calls_now fst]; [exact H|].
  pose proof (P_call_now a H) as Ha.
  destruct (call_now a w) as [[w1 sends] clear]. cbn [fst] in Ha.
  pose proof (IH w1 Ha) as Hb.
  destruct (calls_now calls w1) as [[w2 sends'] clear']. exact Hb.
Qed.

Lemma P_resume_all sends : forall w,
  P w ->
  P (fold_left (fun w call => resume_connect mint (FromSubscribe call) None w) sends w).
Proof.
  induction sends as [|call sends IH]; intros w H; cbn [fold_left]; [exact H|].
  apply IH, P_resume_connect, H.
Qed.

Lemma P_block calls w : P w -> P (block mint calls w).
Proof.
  intros H. unfold block.
  pose proof (P_calls_now calls H) as Hc.
  destruct (calls_now calls w) as [[w1 sends] clear]. cbn [fst] in Hc.
  apply P_resume_all. destruct clear; auto with pres.
Qed.

Lemma P_step e w : P w -> P (step mint e w).
Proof.
  intros H.
  destruct e as [c method params http | c et ps | c h | h k | c | | i | i | i
                | i msg | i | n | n | closure | i | calls]; cbn [step].
  - pose proof (P_callRPC method params http H) as Hc.
    destruct (callRPC method params http w) as [w1 r]. auto with pres.
  - match goal with
    | |- context [subscribe mint ?c w] =>
        pose proof (P_subscribe c H) as Hs; destruct (subscribe mint c w) as [w1 r]
    end.
    cbn [fst] in Hs. destruct r; auto with pres.
  - pose proof (P_unsubscribe h H) as Hu.
    destruct (unsubscribe h w) as [w1 b]. auto with pres.
  - apply P_setSubscriptionCallback; exact H.
  - apply P_connectWebSocket; exact H.
  - apply P_disconnect; exact H.
  - apply P_on_open; exact H.
  - apply P_on_error; exact H.
  - apply P_on_close; exact H.
  - apply P_on_message; exact H.
  - apply P_on_connect_timeout; exact H.
  - apply P_checkConnection; exact H.
  - apply P_on_reconnect_timer; exact H.
  - apply P_on_subscribe_timeout; exact H.
  - apply P_on_fail; exact H.
  - apply P_block; exact H.
Qed.

Lemma P_run es : forall w, P w -> P (run mint es w).
Proof.
  unfold run. induction es as [|e es IH]; intros w H; cbn [fold_left]; [exact H|].
  apply IH, P_step, H.
Qed.

End Preservation.

(* ------------------------------------------------------------------ *)
(** ** Request ids                                                      *)
(* ------------------------------------------------------------------ *)

Lemma open_socket_eq (w w' : World) :
  option_map connection (wsManager w') = option_map connection (wsManager w) ->
  sockets w' = sockets w ->
  open_socket w' = open_socket w.
Proof.
  unfold open_socket. intros Hc Hs. rewrite Hs.
  destruct (wsManager w') as [m'|], (wsManager w) as [m|]; cbn in Hc; try discriminate; auto.
  inversion Hc as [Hc']. rewrite Hc'. reflexivity.
Qed.

Lemma subscribe_send_open (mint : nat -> string) (call : SubscribeCall) (w : World)
    (m : WebSocketManager) (i : nat) :
  wsManager w = Some m ->
  open_socket w = Some i ->
  subscribe_send mint call w =
    (log_sent (i, subscribe_payload call w)
       (set_wsManager
          (Some (set_messageHandlers
                   (messageHandlers m ++ [SubscribeReply (List.length (pendings w))]) m))
          (set_pendings
             (pendings w ++ [new_pending (requestId w) (mint (minted w)) call])
             (next_requestId (next_minted w)))),
     None).
Proof.
  intros Hm Hopen. unfold subscribe_send. cbv zeta.
  unfold on_manager. cbn [wsManager set_pendings next_requestId next_minted pendings].
  rewrite Hm.
  match goal with |- context [send ?p ?w3] => assert (Ho : open_socket w3 = Some i) end.
  { rewrite <- Hopen. apply open_socket_eq; cbn; [rewrite Hm|]; reflexivity. }
  rewrite (@send_open _ _ _ Ho). reflexivity.
Qed.

Lemma sorted_snoc (l : list Z) (r : Z) :
  StronglySorted Z.lt l -> Forall (fun x => x < r) l -> StronglySorted Z.lt (l ++ [r]).
Proof.
  induction 1 as [|a l Hs IH Ha]; intros Hr; cbn.
  - constructor; constructor.
  - inversion Hr; subst. constructor; [auto|].
    apply Forall_app. split; [exact Ha | constructor; [assumption | constructor]].
Qed.

Lemma ids_fresh_next (w : World) : ids_fresh w -> ids_fresh (next_requestId w).
Proof.
  intros [Hs Hb]. split; cbn.
  - apply sorted_snoc; assumption.
  - apply Forall_app. split.
    + eapply Forall_impl; [|exact Hb]. cbn. intros; lia.
    + constructor; [lia | constructor].
Qed.

Lemma ids_fresh_new_client (cfg : Config) : ids_fresh (new_client cfg).
Proof.
  split; cbn; constructor.
Qed.

Lemma ids_fresh_run (mint : nat -> string) (es : list Event) (w : World) :
  ids_fresh w -> ids_fresh (run mint es w).
Proof.
  apply P_run; try (intros; assumption).
  exact ids_fresh_next.
Qed.

Lemma config_run (mint : nat -> string) (es : list Event) (w : World) :
  config (run mint es w) = config w.
Proof.
  apply (@P_run mint (fun w' => config w' = config w)); intros; auto.
Qed.

(* ------------------------------------------------------------------ *)
(** ** The subscription limit                                           *)
(* ------------------------------------------------------------------ *)


Lemma handleWebSocketMessage_frame (msg : Message) (w w' : World) :
  handleWebSocketMessage msg w = Some w' ->
  subscriptions w' = subscriptions w /\ wsManager w' = wsManager w
  /\ pendings w' = pendings w /\ config w' = config w.
Proof.
  unfold handleWebSocketMessage.
  destruct (strict_eq (m_method msg) (JStr "eth_subscription")).
  - destruct (nullish (m_params msg)); [discriminate|].
    destruct (find_subscription _ _); intros E; inversion E; subst; cbn; auto.
  - intros E; inversion E; subst; auto.
Qed.

Lemma connect_open (caller : Caller) (w : World) (i : nat) :
  open_socket w = Some i -> connect caller w = (w, true).
Proof.
  intros H. unfold connect. rewrite H. reflexivity.
Qed.

Lemma nth_error_snoc (A : Type) (l : list A) (x : A) :
  nth_error (l ++ [x]) (List.length l) = Some x.
Proof.
  rewrite nth_error_app2, Nat.sub_diag; [reflexivity | lia].
Qed.

(* ------------------------------------------------------------------ *)
(** ** Coalescing of connect calls                                      *)
(* ------------------------------------------------------------------ *)

Lemma update_nth_app (A : Type) (f : A -> A) (pre : list A) (x : A) (rest : list A) :
  update_nth (List.length pre) f (pre ++ x :: rest) = pre ++ f x :: rest.
Proof.
  induction pre as [|a pre IH]; cbn; [reflexivity | rewrite IH; reflexivity].
Qed.

Lemma nth_error_middle (A : Type) (pre : list A) (x : A) (rest : list A) :
  nth_error (pre ++ x :: rest) (List.length pre) = Some x.
Proof.
  rewrite nth_error_app2, Nat.sub_diag; [reflexivity | lia].
Qed.

Lemma connect_starts (caller : Caller) (w : World) (m : WebSocketManager) :
  wsManager w = Some m ->
  open_socket w = None ->
  isConnecting m = false ->
  connect caller w =
    (set_sockets (sockets w ++ [new_socket caller])
       (set_wsManager
          (Some (set_connection (Some (List.length (sockets w))) (set_isConnecting true m))) w),
     false).
Proof.
  intros Hm Ho Hc. unfold connect, on_manager. rewrite Ho, Hm, Hc. reflexivity.
Qed.

Lemma connect_waits (caller : Caller) (w : World) (m : WebSocketManager) :
  wsManager w = Some m ->
  open_socket w = None ->
  isConnecting m = true ->
  connect caller w = (set_waiters (waiters w ++ [Some caller]) w, false).
Proof.
  intros Hm Ho Hc. unfold connect. rewrite Ho, Hm, Hc. reflexivity.
Qed.

Lemma calls_wait (mint : nat -> string) (cs : list nat) :
  forall (w : World) (m : WebSocketManager),
    wsManager w = Some m ->
    open_socket w = None ->
    isConnecting m = true ->
    run mint (map ConnectWebSocket cs) w = set_waiters (waiters w ++ parked cs) w.
Proof.
  induction cs as [|c cs IH]; intros w m Hm Ho Hc.
  - cbn. rewrite app_nil_r. destruct w; reflexivity.
  - cbn [map run fold_left step]. unfold connectWebSocket. rewrite Hm.
    rewrite (@connect_waits (FromConnectWebSocket c) w m Hm Ho Hc).
    set (w1 := set_waiters (waiters w ++ [Some (FromConnectWebSocket c)]) w).
    change (run mint (map ConnectWebSocket cs) w1
            = set_waiters (waiters w ++ parked (c :: cs)) w).
    rewrite (IH w1 m Hm Ho Hc). subst w1. cbn [waiters set_waiters parked map].
    rewrite <- app_assoc. reflexivity.
Qed.

Lemma polls_settle (mint : nat -> string) (o : Outcome) (Q : World -> Prop) :
  (forall W x, Q W -> Q (set_waiters x W)) ->
  (forall W c o', Q W -> Q (log_outcome c o' W)) ->
  (forall W n c, Q W ->
     nth_error (waiters W) n = Some (Some (FromConnectWebSocket c)) ->
     checkConnection mint n W =
       log_outcome c o (set_waiters (update_nth n (fun _ => None) (waiters W)) W)) ->
  forall (cs : list nat) (pre : list (option Caller)) (W : World),
    Q W ->
    waiters W = pre ++ parked cs ->
    sockets (run mint (map PollTimer (seq (List.length pre) (List.length cs))) W) = sockets W
    /\ outcomes (run mint (map PollTimer (seq (List.length pre) (List.length cs))) W)
       = outcomes W ++ map (fun c => (c, o)) cs.
Proof.
  intros Qw Qo Hcheck. induction cs as [|c cs IH]; intros pre W HQ Hw.
  - cbn. rewrite app_nil_r. auto.
  - cbn [List.length seq map run fold_left step].
    assert (Hn : nth_error (waiters W) (List.length pre) = Some (Some (FromConnectWebSocket c))).
    { rewrite Hw. apply nth_error_middle. }
    rewrite (Hcheck W _ c HQ Hn).
    set (W1 := log_outcome c o (set_waiters _ W)).
    assert (HQ1 : Q W1) by (subst W1; auto).
    assert (Hw1 : waiters W1 = (pre ++ [None]) ++ parked cs).
    { subst W1. cbn [waiters log_outcome set_waiters]. rewrite Hw.
      unfold parked. cbn [map]. rewrite update_nth_app, <- app_assoc. reflexivity. }
    destruct (IH (pre ++ [None]) W1 HQ1 Hw1) as (Hs & Ho).
    rewrite length_app in Hs, Ho. cbn [List.length] in Hs, Ho.
    rewrite Nat.add_1_r in Hs, Ho.
    fold (run mint (map PollTimer (seq (S (List.length pre)) (List.length cs))) W1).
    rewrite Hs, Ho. subst W1. cbn [sockets outcomes log_outcome set_waiters].
    rewrite <- app_assoc. auto.
Qed.

(** C9, the claim as stated fails: a waiter learns the outcome of the
    attempt only at its next poll.  Callers 0 and 1 connect, the socket
    opens and caller 0 resolves; the socket closes before the poll of
    caller 1, which then fails with "Connection failed": the two callers
    of one attempt did not resolve together. *)
Lemma waiter_fails_after_owner_resolved :
  let w := run Sample.mint
             [ConnectWebSocket 0; ConnectWebSocket 1; SocketOpen 0; SocketClose 0;
              PollTimer 0]
             (new_client (Sample.cfg 3)) in
  List.length (sockets w) = 1%nat
  /\ outcomes w = [(0%nat, Returned JUndefined);
                   (1%nat, Threw (Plain "Connection failed" None))].
Proof.
  vm_compute. split; reflexivity.
Qed.

(** [isConnecting] is one flag of the manager, and the ["error"] and
    ["close"] handlers of every socket ever made reset it.  Socket 0 is
    open and [disconnect] closes it; caller 1 connects and starts socket
    1; the ["close"] event of socket 0 then resets the flag while socket 1
    is still connecting, so caller 2 is not parked and opens socket 2. *)
Lemma stale_close_resets_isConnecting :
  let after_disconnect :=
    run Sample.mint
      [ConnectWebSocket 0; SocketOpen 0; Disconnect;
       ConnectWebSocket 1; SocketClose 0; ConnectWebSocket 2]
      (new_client (Sample.cfg 3)) in
  map readyState (sockets after_disconnect) = [CLOSED; CONNECTING; CONNECTING]
  /\ map owner (sockets after_disconnect) =
       [FromConnectWebSocket 0; FromConnectWebSocket 1; FromConnectWebSocket 2]
  /\ waiters after_disconnect = [].
Proof.
  vm_compute. repeat split; reflexivity.
Qed.

(* ------------------------------------------------------------------ *)
(** ** Request ids count from one                                       *)
(* ------------------------------------------------------------------ *)

Lemma ids_consecutive_next (w : World) :
  ids_consecutive w -> ids_consecutive (next_requestId w).
Proof.
  intros [Hi Hr]. unfold ids_consecutive. cbn [issued requestId next_requestId].
  rewrite length_app. cbn [List.length]. rewrite Nat.add_1_r, seq_S, map_app.
  cbn [map Nat.add]. split.
  - rewrite <- Hi. f_equal. f_equal. lia.
  - lia.
Qed.

(** X1.  Request ids count from one.  Over every run of a client the ids
    taken from the counter, by [callRPC], [subscribe] and [unsubscribe]
    alike, are 1, 2, 3, ... in this order without a gap, and the counter is
    the number of ids taken plus one. *)
Theorem request_ids_count_from_one (mint : nat -> string) (cfg : Config) (es : list Event) :
  let w := run mint es (new_client cfg) in
  issued w = map Z.of_nat (seq 1 (List.length (issued w)))
  /\ requestId w = 1 + Z.of_nat (List.length (issued w)).
Proof.
  intros w. subst w.
  apply (@P_run mint ids_consecutive); try (intros; assumption).
  - exact ids_consecutive_next.
  - split; reflexivity.
Qed.

(* ------------------------------------------------------------------ *)
(** ** A client without a WebSocket URL                                 *)
(* ------------------------------------------------------------------ *)

Lemma nth_error_nil_none (A : Type) (n : nat) : nth_error (@nil A) n = None.
Proof. destruct n; reflexivity. Qed.

Lemma ws_disabled_call_now (a : ApiCall) (w : World) :
  ws_disabled w -> exists w', call_now a w = (w', [], false) /\ ws_disabled w'.
Proof.
  intros (Hm & Hs & Hk & Hp & Hw & Ht & Hsent & Hd & He).
  destruct w as [cfg man subs rid socks pend wait timers mn iss snt emi del outc].
  cbn in Hm, Hs, Hk, Hp, Hw, Ht, Hsent, Hd, He. subst.
  destruct a as [c method params http | c et ps | c h | h k | c | ]; cbn;
    try (eexists; split; [reflexivity|]; unfold ws_disabled; cbn; repeat split;
         reflexivity).
  unfold callRPC; destruct (method =? "")%string; cbn;
    (eexists; split; [reflexivity|]; unfold ws_disabled; cbn; repeat split; reflexivity).
Qed.

Lemma ws_disabled_calls_now (calls : list ApiCall) : forall w,
  ws_disabled w -> exists w', calls_now calls w = (w', [], false) /\ ws_disabled w'.
Proof.
  induction calls as [|a calls IH]; intros w H; cbn [calls_now].
  - exists w. split; [reflexivity | exact H].
  - destruct (@ws_disabled_call_now a w H) as (w1 & E1 & H1). rewrite E1.
    destruct (IH w1 H1) as (w2 & E2 & H2). rewrite E2.
    exists w2. split; [reflexivity | exact H2].
Qed.

Lemma ws_disabled_step (mint : nat -> string) (e : Event) (w : World) :
  ws_disabled w -> ws_disabled (step mint e w).
Proof.
  intros H.
  destruct e as [c method params http | c et ps | c h | h k | c | | i | i | i
                | i msg | i | n | n | closure | i | calls].
  16: { cbn [step]. unfold block.
        destruct (@ws_disabled_calls_now calls w H) as (w1 & E1 & H1).
        rewrite E1. exact H1. }
  all: destruct H as (Hm & Hs & Hk & Hp & Hw & Ht & Hsent & Hd & He);
    destruct w as [cfg man subs rid socks pend wait timers mn iss snt emi del outc];
    cbn in Hm, Hs, Hk, Hp, Hw, Ht, Hsent, Hd, He; subst; cbn;
    try (unfold ws_disabled; cbn; repeat split; reflexivity);
    try (rewrite nth_error_nil_none; unfold ws_disabled; cbn; repeat split; reflexivity).
  all: try (unfold callRPC; destruct (method =? "")%string; unfold ws_disabled; cbn;
    repeat split; reflexivity).
  all: unfold on_open, on_error, on_close, on_message, on_connect_timeout,
         checkConnection, on_reconnect_timer, on_subscribe_timeout, on_fail;
       cbn [sockets waiters reconnectTimers pendings];
       rewrite nth_error_nil_none; unfold ws_disabled; cbn; repeat split; reflexivity.
Qed.

Lemma ws_disabled_run (mint : nat -> string) (es : list Event) :
  forall w, ws_disabled w -> ws_disabled (run mint es w).
Proof.
  unfold run. induction es as [|e es IH]; intros w H; cbn [fold_left]; [exact H|].
  apply IH, ws_disabled_step, H.
Qed.

(** X2.  A client configured without a WebSocket URL (absent or empty)
    never has a socket, a frame sent, a subscription or a delivery, however
    it is used; at every point of every run [subscribe] is rejected with
    "WebSocket not configured", [unsubscribe] resolves to [false] and
    [connectWebSocket] is rejected with "WebSocket URL not configured",
    each leaving the client as it was. *)
Theorem no_websocket_url_disables_subscriptions
    (mint : nat -> string) (cfg : Config) (es : list Event) :
  megaethWsUrl cfg = None \/ megaethWsUrl cfg = Some "" ->
  let w := run mint es (new_client cfg) in
  (sockets w = [] /\ sent w = [] /\ subscriptions w = [] /\ delivered w = [])
  /\ (forall c et ps,
        step mint (Subscribe c et ps) w =
          log_outcome c (Threw (Plain "WebSocket not configured" None)) w)
  /\ (forall c h, step mint (Unsubscribe c h) w = log_outcome c (Returned (JBool false)) w)
  /\ (forall c,
        step mint (ConnectWebSocket c) w =
          log_outcome c (Threw (Plain "WebSocket URL not configured" None)) w).
Proof.
  intros Hurl w.
  assert (H0 : ws_disabled (new_client cfg)).
  { unfold ws_disabled, new_client. cbn.
    destruct Hurl as [-> | ->]; repeat split; reflexivity. }
  destruct (ws_disabled_run mint es H0) as (Hm & Hs & Hk & Hp & Hw & Ht & Hsent & Hd & He).
  fold w in Hm, Hs, Hk, Hsent, Hd.
  split; [auto|]. split; [|split].
  - intros c et ps. cbn [step]. unfold subscribe, subscribe_start. cbv zeta. rewrite Hm. reflexivity.
  - intros c h. cbn [step]. unfold unsubscribe. rewrite Hs. reflexivity.
  - intros c. cbn [step]. unfold connectWebSocket. rewrite Hm. reflexivity.
Qed.

Lemma no_websocket_url_disables_subscriptions_witness :
  let w := run Sample.mint [Subscribe 0 "newHeads" (JObj []); SocketOpen 0]
             (new_client Sample.http_only) in
  (sockets w = [] /\ sent w = [] /\ subscriptions w = [] /\ delivered w = [])
  /\ (forall c et ps,
        step Sample.mint (Subscribe c et ps) w =
          log_outcome c (Threw (Plain "WebSocket not configured" None)) w)
  /\ (forall c h,
        step Sample.mint (Unsubscribe c h) w = log_outcome c (Returned (JBool false)) w)
  /\ (forall c,
        step Sample.mint (ConnectWebSocket c) w =
          log_outcome c (Threw (Plain "WebSocket URL not configured" None)) w).
Proof.
  apply (@no_websocket_url_disables_subscriptions Sample.mint Sample.http_only
           [Subscribe 0 "newHeads" (JObj []); SocketOpen 0]).
  left. reflexivity.
Defined.

(* ------------------------------------------------------------------ *)
(** ** Requests and their replies                                       *)
(* ------------------------------------------------------------------ *)

Example two_pending_is_a_run :
  Scenario.two_pending =
    run Sample.mint
      [Subscribe 1 "logs" (JObj []); Subscribe 2 "newPendingTransactions" (JObj [])]
      Sample.subscribed.
Proof. vm_compute. reflexivity. Qed.

(** A message that is not a notification: [handleWebSocketMessage] leaves it alone. *)
Lemma handleWebSocketMessage_other (msg : Message) (w : World) :
  strict_eq (m_method msg) (JStr "eth_subscription") = false ->
  handleWebSocketMessage msg w = Some w.
Proof.
  intros H. unfold handleWebSocketMessage. rewrite H. reflexivity.
Qed.

Lemma step_subscribe_open (mint : nat -> string) (c : nat) (et : string) (ps : json)
    (w : World) (m : WebSocketManager) (j : nat) :
  wsManager w = Some m ->
  open_socket w = Some j ->
  SubMap.size (subscriptions w) < maxSubscriptions (config w) ->
  let call := {| call_eventType := et; call_params := default_params ps;
                 call_cont := ToCaller c |} in
  step mint (Subscribe c et ps) w =
    log_sent (j, subscribe_payload call w)
      (set_wsManager
         (Some (set_messageHandlers
                  (messageHandlers m ++ [SubscribeReply (List.length (pendings w))]) m))
         (set_pendings
            (pendings w ++ [new_pending (requestId w) (mint (minted w)) call])
            (next_requestId (next_minted w)))).
Proof.
  intros Hm Ho Hlt call. cbn [step].
  unfold subscribe, subscribe_start, with_default_params. cbv zeta.
  cbn [call_eventType call_params call_cont]. fold call. rewrite Hm.
  destruct (Z.geb_spec (SubMap.size (subscriptions w)) (maxSubscriptions (config w)));
    [lia|].
  rewrite (@connect_open (FromSubscribe call) w j Ho).
  rewrite (@subscribe_send_open mint call w m j Hm Ho). reflexivity.
Qed.

(** X3.  Subscribe and its reply.  On an open socket with the client's
    message listener the only one registered and room in the table,
    [subscribe(eventType, params)], called in a tick of its own, sends
    one [eth_subscribe] frame for the event type and the parameters,
    [{}] standing for parameters left out or [undefined]; the id of the
    frame is the counter.  When the reply with that id and no error
    arrives, the table maps the new handle to an entry with the server id
    of the reply, the event type and the parameters that were sent and the
    empty callback, the caller gets the handle, and the reply listener is
    gone again.  The id is taken when the frame is sent, a microtask
    after the call: when [callRPC] is called after [subscribe] in the
    same tick, [callRPC] has the counter and the frame of [subscribe] the
    id after it. *)
Theorem subscribe_reply_round_trip (mint : nat -> string) (w : World) (m : WebSocketManager)
    (i j c : nat) (s : Socket) (et : string) (ps : json) (msg : Message) :
  wsManager w = Some m ->
  messageHandlers m = [ClientMessage] ->
  open_socket w = Some j ->
  SubMap.size (subscriptions w) < maxSubscriptions (config w) ->
  nth_error (sockets w) i = Some s ->
  is_open (readyState s) = true ->
  m_id msg = JNum (requestId w) ->
  truthy (m_error msg) = false ->
  strict_eq (m_method msg) (JStr "eth_subscription") = false ->
  let w' := run mint [Subscribe c et ps; SocketMessage i msg] w in
  let handle := mint (minted w) in
  let params := match ps with JUndefined => JObj [] | _ => ps end in
  subscriptions w' =
    SubMap.set handle
      {| sub_id := m_result msg; sub_eventType := et; sub_params := params;
         sub_callback := NoopCallback |}
      (subscriptions w)
  /\ outcomes w' = outcomes w ++ [(c, Returned (JStr handle))]
  /\ sent w' = sent w ++ [(j, {| p_id := requestId w; p_method := "eth_subscribe";
                                 p_params := [JStr et; params] |})]
  /\ option_map messageHandlers (wsManager w') = Some [ClientMessage]
  /\ requestId w' = requestId w + 1
  /\ (forall c2 method ps2 http,
        method <> "" ->
        let wb := step mint (Block [DoSubscribe c et ps; DoCallRPC c2 method ps2 http]) w in
        issued wb = issued w ++ [requestId w; requestId w + 1]
        /\ sent wb = sent w ++ [(j, {| p_id := requestId w + 1;
                                       p_method := "eth_subscribe";
                                       p_params := [JStr et; params] |})]).
Proof.
  intros Hm Hh Ho Hlt Hs Hopen Hid Herr Hmeth w' handle params. subst w' handle.
  change params with (default_params ps). clear params.
  assert (Hblock : forall c2 method ps2 http,
            method <> "" ->
            let wb := step mint (Block [DoSubscribe c et ps;
                                        DoCallRPC c2 method ps2 http]) w in
            issued wb = issued w ++ [requestId w; requestId w + 1]
            /\ sent wb = sent w ++ [(j, {| p_id := requestId w + 1;
                                           p_method := "eth_subscribe";
                                           p_params := [JStr et; default_params ps] |})]).
  { intros c2 method ps2 http Hne wb. subst wb. cbn [step]. unfold block.
    cbn [calls_now call_now]. unfold subscribe_start, with_default_params. cbv zeta.
    cbn [call_eventType call_params call_cont]. rewrite Hm.
    destruct (Z.geb_spec (SubMap.size (subscriptions w)) (maxSubscriptions (config w)));
      [lia|].
    rewrite (@connect_open _ w j Ho).
    unfold callRPC. destruct (String.eqb_spec method ""); [contradiction|].
    cbn [app orb fold_left resume_connect].
    match goal with
    | |- context [subscribe_send mint ?call ?x] =>
        rewrite (@subscribe_send_open mint call x m j Hm)
    end.
    - cbn. rewrite <- app_assoc. auto.
    - rewrite <- Ho. apply open_socket_eq; reflexivity. }
  cbn [run fold_left]. rewrite (@step_subscribe_open mint c et ps w m j Hm Ho Hlt).
  rewrite Hh. cbn [app step]. unfold on_message.
  cbn [sockets log_sent set_wsManager set_pendings next_requestId next_minted].
  rewrite Hs, Hopen. unfold emit_message.
  cbn [wsManager log_sent set_wsManager messageHandlers set_messageHandlers List.length
       forEach_message nth_error].
  rewrite handleWebSocketMessage_other by exact Hmeth.
  cbn [wsManager log_sent set_wsManager messageHandlers set_messageHandlers nth_error].
  unfold messageHandler.
  cbn [pendings log_sent set_wsManager set_pendings]. rewrite nth_error_snoc.
  cbn [payload_id new_pending]. rewrite Hid. cbn [strict_eq]. rewrite Z.eqb_refl.
  cbv zeta. rewrite Herr. unfold settle_once, on_manager, on_pending.
  cbn. rewrite Nat.eqb_refl. cbn. auto 10.
Qed.

Lemma subscribe_reply_round_trip_witness :
  let w' := run Sample.mint
              [Subscribe 5 "logs" JUndefined; SocketMessage 0 (Sample.reply 2 "0xb")]
              Sample.subscribed in
  let handle := Sample.mint (minted Sample.subscribed) in
  subscriptions w' =
    SubMap.set handle
      {| sub_id := m_result (Sample.reply 2 "0xb"); sub_eventType := "logs";
         sub_params := JObj []; sub_callback := NoopCallback |}
      (subscriptions Sample.subscribed)
  /\ outcomes w' = outcomes Sample.subscribed ++ [(5%nat, Returned (JStr handle))]
  /\ sent w' = sent Sample.subscribed
                 ++ [(0%nat, {| p_id := requestId Sample.subscribed;
                                p_method := "eth_subscribe";
                                p_params := [JStr "logs"; JObj []] |})]
  /\ option_map messageHandlers (wsManager w') = Some [ClientMessage]
  /\ requestId w' = requestId Sample.subscribed + 1.
Proof.
  destruct (@subscribe_reply_round_trip Sample.mint Sample.subscribed _ 0 0 5 _ "logs"
              JUndefined (Sample.reply 2 "0xb")
              eq_refl eq_refl eq_refl eq_refl eq_refl eq_refl eq_refl eq_refl eq_refl)
    as (H1 & H2 & H3 & H4 & H5 & _).
  cbv zeta. auto.
Defined.

(** X4.  Subscribe and an error reply.  In the same situation, when the
    reply with the id of the request has an [error] member, the caller
    gets a [MegaETHError] with the message and the code of that member and
    no data, the table is unchanged, the reply listener is removed and the
    timer of the call is cleared. *)
Theorem subscribe_error_reply_rejects (mint : nat -> string) (w : World)
    (m : WebSocketManager) (i j c : nat) (s : Socket) (et : string) (ps : json)
    (msg : Message) :
  wsManager w = Some m ->
  messageHandlers m = [ClientMessage] ->
  open_socket w = Some j ->
  SubMap.size (subscriptions w) < maxSubscriptions (config w) ->
  nth_error (sockets w) i = Some s ->
  is_open (readyState s) = true ->
  m_id msg = JNum (requestId w) ->
  truthy (m_error msg) = true ->
  strict_eq (m_method msg) (JStr "eth_subscription") = false ->
  let w' := run mint [Subscribe c et ps; SocketMessage i msg] w in
  subscriptions w' = subscriptions w
  /\ outcomes w' =
       outcomes w ++
       [(c, Threw (Mega (GenericError (field "message" (m_error msg))
                                      (field "code" (m_error msg)) JUndefined)))]
  /\ option_map messageHandlers (wsManager w') = Some [ClientMessage]
  /\ (forall p, nth_error (pendings w') (List.length (pendings w)) = Some p ->
                pending_timer p = false /\ pending_settled p = true).
Proof.
  intros Hm Hh Ho Hlt Hs Hopen Hid Herr Hmeth w'. subst w'.
  cbn [run fold_left]. rewrite (@step_subscribe_open mint c et ps w m j Hm Ho Hlt).
  rewrite Hh. cbn [app step]. unfold on_message.
  cbn [sockets log_sent set_wsManager set_pendings next_requestId next_minted].
  rewrite Hs, Hopen. unfold emit_message.
  cbn [wsManager log_sent set_wsManager messageHandlers set_messageHandlers List.length
       forEach_message nth_error].
  rewrite handleWebSocketMessage_other by exact Hmeth.
  cbn [wsManager log_sent set_wsManager messageHandlers set_messageHandlers nth_error].
  unfold messageHandler.
  cbn [pendings log_sent set_wsManager set_pendings]. rewrite nth_error_snoc.
  cbn [payload_id new_pending]. rewrite Hid. cbn [strict_eq]. rewrite Z.eqb_refl.
  cbv zeta. rewrite Herr. unfold settle_once, on_manager, on_pending.
  cbn. rewrite Nat.eqb_refl. cbn.
  rewrite !(@update_nth_app _ _ (pendings w) _ []). rewrite nth_error_snoc.
  repeat split; auto; inversion H; reflexivity.
Qed.

Lemma subscribe_error_reply_rejects_witness :
  let msg := {| m_id := JNum 2;
                m_error := JObj [("message", JStr "bad filter"); ("code", JNum (-32602))];
                m_result := JUndefined; m_method := JUndefined; m_params := JUndefined |} in
  let w' := run Sample.mint [Subscribe 5 "logs" (JObj []); SocketMessage 0 msg]
              Sample.subscribed in
  subscriptions w' = subscriptions Sample.subscribed
  /\ outcomes w' =
       outcomes Sample.subscribed ++
       [(5%nat, Threw (Mega (GenericError (field "message" (m_error msg))
                                          (field "code" (m_error msg)) JUndefined)))]
  /\ option_map messageHandlers (wsManager w') = Some [ClientMessage]
  /\ (forall p, nth_error (pendings w') (List.length (pendings Sample.subscribed)) = Some p ->
                pending_timer p = false /\ pending_settled p = true).
Proof.
  intro msg.
  refine (@subscribe_error_reply_rejects Sample.mint Sample.subscribed _ 0 0 5 _ "logs"
            (JObj []) msg
            eq_refl eq_refl eq_refl eq_refl eq_refl eq_refl eq_refl eq_refl eq_refl).
Defined.

Lemma messageHandler_miss (c : nat) (msg : Message) (w : World) :
  misses msg (pendings w) (SubscribeReply c) -> messageHandler c msg w = (w, []).
Proof.
  unfold misses, messageHandler. destruct (nth_error (pendings w) c) as [p|]; [|reflexivity].
  intros ->. reflexivity.
Qed.

Lemma forEach_misses (msg : Message) (fuel : nat) :
  forall (k : nat) (w : World) (woken : list (SubCont * Result string)) (m : WebSocketManager),
    wsManager w = Some m ->
    (forall k' h, (k <= k')%nat -> nth_error (messageHandlers m) k' = Some h ->
                  misses msg (pendings w) h) ->
    forEach_message fuel k msg w woken = (w, woken).
Proof.
  induction fuel as [|fuel IH]; intros k w woken m Hm Hmiss; cbn [forEach_message];
    [reflexivity|].
  rewrite Hm. destruct (nth_error (messageHandlers m) k) as [h|] eqn:Hk; [|reflexivity].
  pose proof (Hmiss k h (Nat.le_refl k) Hk) as Hh. destruct h as [|c]; [destruct Hh|].
  rewrite (messageHandler_miss c msg w Hh), app_nil_r.
  apply (IH (S k) w woken m Hm). intros k' h' Hle. apply Hmiss. lia.
Qed.

Lemma forEach_skip (msg : Message) (b : nat) :
  forall (fuel k : nat) (w : World) (woken : list (SubCont * Result string))
         (m : WebSocketManager),
    wsManager w = Some m ->
    (forall k' h, (k <= k' < k + b)%nat -> nth_error (messageHandlers m) k' = Some h ->
                  misses msg (pendings w) h) ->
    (forall k', (k <= k' < k + b)%nat -> nth_error (messageHandlers m) k' <> None) ->
    forEach_message (b + fuel) k msg w woken = forEach_message fuel (k + b) msg w woken.
Proof.
  induction b as [|b IH]; intros fuel k w woken m Hm Hmiss Hin.
  - rewrite Nat.add_0_r. reflexivity.
  - cbn [Nat.add forEach_message]. rewrite Hm.
    destruct (nth_error (messageHandlers m) k) as [h|] eqn:Hk;
      [|exfalso; apply (Hin k); [lia | exact Hk]].
    assert (Hk' : (k <= k < k + S b)%nat) by lia.
    pose proof (Hmiss k h Hk' Hk) as Hh. destruct h as [|c]; [destruct Hh|].
    rewrite (messageHandler_miss c msg w Hh), app_nil_r.
    rewrite (IH fuel (S k) w woken m Hm).
    + f_equal. lia.
    + intros k' h' Hr. apply Hmiss. lia.
    + intros k' Hr. apply Hin. lia.
Qed.

Lemma remove_first_app (h : Handler) (before after : list Handler) :
  ~ In h before ->
  remove_first h (before ++ h :: after) = before ++ after.
Proof.
  intros Hn. induction before as [|x before IH]; cbn.
  - destruct h; cbn; rewrite ?Nat.eqb_refl; reflexivity.
  - assert (Hx : handler_eqb x h = false).
    { destruct x, h; cbn; try reflexivity.
      - exfalso. apply Hn. left. reflexivity.
      - apply Nat.eqb_neq. intros ->. apply Hn. left. reflexivity. }
    rewrite Hx, IH; [reflexivity|]. intros Hi. apply Hn. right. exact Hi.
Qed.

Lemma nth_error_update_other (A : Type) (f : A -> A) (l : list A) (n c : nat) :
  c <> n -> nth_error (update_nth n f l) c = nth_error l c.
Proof.
  revert n c. induction l as [|x l IH]; intros n c Hne.
  - destruct n; reflexivity.
  - destruct n, c; cbn; try reflexivity; [congruence|]. apply IH. congruence.
Qed.

Lemma misses_update (msg : Message) (ps : list Pending) (n : nat) (p : Pending)
    (f : Pending -> Pending) (h : Handler) :
  nth_error ps n = Some p ->
  strict_eq (m_id msg) (JNum (payload_id p)) = true ->
  misses msg ps h -> misses msg (update_nth n f ps) h.
Proof.
  intros Hp Hid. destruct h as [|c]; cbn; [auto|].
  destruct (Nat.eq_dec c n) as [->|Hne].
  - rewrite Hp, Hid. discriminate.
  - rewrite nth_error_update_other by exact Hne. auto.
Qed.

Lemma update_nth_twice (A : Type) (f g : A -> A) (l : list A) :
  forall n, update_nth n g (update_nth n f l) = update_nth n (fun x => g (f x)) l.
Proof.
  induction l as [|x l IH]; intros [|n]; cbn; try reflexivity. rewrite IH. reflexivity.
Qed.

Lemma messageHandler_hit (n : nat) (p : Pending) (msg : Message) (w : World)
    (m : WebSocketManager) :
  wsManager w = Some m ->
  nth_error (pendings w) n = Some p ->
  strict_eq (m_id msg) (JNum (payload_id p)) = true ->
  wsManager (fst (messageHandler n msg w)) =
    Some (set_messageHandlers (remove_first (SubscribeReply n) (messageHandlers m)) m) /\
  exists f, pendings (fst (messageHandler n msg w)) = update_nth n f (pendings w).
Proof.
  intros Hm Hp Hid. unfold messageHandler. rewrite Hp, Hid. cbv zeta.
  unfold settle_once, on_manager, on_pending. cbn [wsManager set_pendings]. rewrite Hm.
  destruct (truthy (m_error msg)), (pending_settled p); cbn; (split; [reflexivity|]);
    rewrite ?update_nth_twice; eexists; reflexivity.
Qed.

(** With several subscribe calls awaiting their replies, a message that
    carries the id of one of them runs that call's handler and no other. *)
Lemma emit_message_reply (mint : nat -> string) (msg : Message) (w : World)
    (m : WebSocketManager) (before after : list Handler) (n : nat) (p : Pending) :
  wsManager w = Some m ->
  messageHandlers m = ClientMessage :: before ++ SubscribeReply n :: after ->
  Forall (misses msg (pendings w)) before ->
  Forall (misses msg (pendings w)) after ->
  nth_error (pendings w) n = Some p ->
  strict_eq (m_id msg) (JNum (payload_id p)) = true ->
  strict_eq (m_method msg) (JStr "eth_subscription") = false ->
  emit_message mint msg w =
    fold_left (wake mint) (snd (messageHandler n msg w)) (fst (messageHandler n msg w)) /\
  wsManager (fst (messageHandler n msg w)) =
    Some (set_messageHandlers (ClientMessage :: before ++ after) m).
Proof.
  intros Hm Hh Hb Ha Hp Hid Hmeth.
  assert (Hnotin : ~ In (SubscribeReply n) before).
  { intros Hi. rewrite Forall_forall in Hb. specialize (Hb _ Hi). cbn in Hb.
    rewrite Hp, Hid in Hb. discriminate. }
  destruct (messageHandler_hit n msg w Hm Hp Hid) as (Hm' & f & Hp').
  rewrite Hh in Hm'. cbn [remove_first handler_eqb] in Hm'.
  rewrite (@remove_first_app _ before after Hnotin) in Hm'.
  split; [|exact Hm'].
  unfold emit_message. rewrite Hm, Hh.
  cbn [List.length forEach_message]. rewrite Hm, Hh. cbn [nth_error].
  rewrite (handleWebSocketMessage_other msg w Hmeth).
  rewrite length_app. cbn [List.length].
  (* the listeners before the one addressed *)
  rewrite (@forEach_skip msg (List.length before) (S (List.length after)) 1 w [] m Hm).
  2:{ intros k' h Hr Hk. rewrite Hh in Hk. destruct k' as [|k']; [lia|]. cbn in Hk.
      rewrite nth_error_app1 in Hk by lia.
      rewrite Forall_forall in Hb. apply Hb. eapply nth_error_In. exact Hk. }
  2:{ intros k' Hr. rewrite Hh. destruct k' as [|k']; [lia|]. cbn.
      rewrite nth_error_app1 by lia. apply nth_error_Some. lia. }
  (* the listener addressed *)
  cbn [forEach_message]. rewrite Hm, Hh.
  replace (1 + List.length before)%nat with (S (List.length before)) by lia.
  cbn [nth_error]. rewrite nth_error_middle.
  destruct (messageHandler n msg w) as [w' l]. cbn [fst snd app] in *.
  (* the listeners after it *)
  rewrite (@forEach_misses msg (List.length after) (S (S (List.length before))) w' l _ Hm');
    [reflexivity|].
  intros k' h Hle Hk. cbn [messageHandlers set_messageHandlers] in Hk.
  destruct k' as [|k']; [lia|]. cbn in Hk.
  rewrite nth_error_app2 in Hk by lia.
  rewrite Hp'. apply (@misses_update msg _ n p f h Hp Hid).
  rewrite Forall_forall in Ha. apply Ha. eapply nth_error_In. exact Hk.
Qed.

(** X5.  A reply is matched to its request by id.  With any number of
    [subscribe] calls awaiting their replies, a reply without error whose
    id is the id of one of the requests settles that call and no other:
    its handle is stored with the server id of the reply, its caller gets
    the handle, its listener is removed, and the listeners and closures of
    the other calls stay as they are.  So replies may arrive in any
    order. *)
Theorem reply_settles_its_own_request (mint : nat -> string) (i : nat) (msg : Message)
    (w : World) (s : Socket) (m : WebSocketManager) (before after : list Handler)
    (n : nat) (p : Pending) (c : nat) :
  nth_error (sockets w) i = Some s -> is_open (readyState s) = true ->
  wsManager w = Some m ->
  messageHandlers m = ClientMessage :: before ++ SubscribeReply n :: after ->
  Forall (misses msg (pendings w)) before ->
  Forall (misses msg (pendings w)) after ->
  nth_error (pendings w) n = Some p ->
  pending_settled p = false ->
  call_cont (pending_call p) = ToCaller c ->
  m_id msg = JNum (payload_id p) ->
  truthy (m_error msg) = false ->
  strict_eq (m_method msg) (JStr "eth_subscription") = false ->
  let w' := step mint (SocketMessage i msg) w in
  subscriptions w' =
    SubMap.set (subscriptionId p)
      {| sub_id := m_result msg;
         sub_eventType := call_eventType (pending_call p);
         sub_params := call_params (pending_call p);
         sub_callback := NoopCallback |} (subscriptions w) /\
  outcomes w' = outcomes w ++ [(c, Returned (JStr (subscriptionId p)))] /\
  wsManager w' = Some (set_messageHandlers (ClientMessage :: before ++ after) m) /\
  (forall c', c' <> n -> nth_error (pendings w') c' = nth_error (pendings w) c') /\
  requestId w' = requestId w /\ sent w' = sent w /\ delivered w' = delivered w.
Proof.
  intros Hs Ho Hm Hh Hb Ha Hp Hps Hc Hid Herr Hmeth w'. subst w'.
  assert (Hid' : strict_eq (m_id msg) (JNum (payload_id p)) = true).
  { rewrite Hid. cbn. apply Z.eqb_refl. }
  cbn [step]. unfold on_message. rewrite Hs, Ho.
  destruct (@emit_message_reply mint msg w m before after n p Hm Hh Hb Ha Hp Hid' Hmeth)
    as [-> Hm'].
  revert Hm'. unfold messageHandler. rewrite Hp, Hid', Herr. cbv zeta.
  unfold settle_once. rewrite Hps. cbn [fst snd fold_left wake settle_subscribe].
  rewrite Hc. cbn [outcome_of]. intros Hm'.
  repeat split; try exact Hm'; try reflexivity.
  - unfold on_manager. cbn. rewrite Hm. reflexivity.
  - unfold on_manager. cbn. rewrite Hm. reflexivity.
  - intros c' Hne. unfold on_manager. cbn. rewrite Hm. cbn.
    rewrite !nth_error_update_other by exact Hne. reflexivity.
  - unfold on_manager. cbn. rewrite Hm. reflexivity.
  - unfold on_manager. cbn. rewrite Hm. reflexivity.
  - unfold on_manager. cbn. rewrite Hm. reflexivity.
Qed.

Lemma reply_settles_its_own_request_witness :
  exists p,
    nth_error (pendings Scenario.two_pending) 2 = Some p /\
    let w' := step Sample.mint (SocketMessage 0 (Sample.reply 3 "0xc")) Scenario.two_pending in
    subscriptions w' =
      SubMap.set (subscriptionId p)
        {| sub_id := m_result (Sample.reply 3 "0xc");
           sub_eventType := call_eventType (pending_call p);
           sub_params := call_params (pending_call p);
           sub_callback := NoopCallback |} (subscriptions Scenario.two_pending) /\
    outcomes w' = outcomes Scenario.two_pending
                    ++ [(2%nat, Returned (JStr (subscriptionId p)))] /\
    option_map messageHandlers (wsManager w') = Some [ClientMessage; SubscribeReply 1].
Proof.
  eexists. split; [reflexivity|].
  destruct (@reply_settles_its_own_request Sample.mint 0 (Sample.reply 3 "0xc")
              Scenario.two_pending _ _ [SubscribeReply 1] [] 2 _ 2
              eq_refl eq_refl eq_refl eq_refl
              (Forall_cons (SubscribeReply 1) (eq_refl : misses (Sample.reply 3 "0xc")
                              (pendings Scenario.two_pending) (SubscribeReply 1))
                           (Forall_nil _))
              (Forall_nil _) eq_refl eq_refl eq_refl eq_refl eq_refl eq_refl)
    as (H1 & H2 & H3 & _).
  cbv zeta. split; [exact H1|]. split; [exact H2|]. rewrite H3. reflexivity.
Defined.

(* ------------------------------------------------------------------ *)
(** ** Notifications                                                    *)
(* ------------------------------------------------------------------ *)

Lemma misses_without_id (msg : Message) (ps : list Pending) (h : Handler) :
  m_id msg = JUndefined -> h <> ClientMessage -> misses msg ps h.
Proof.
  intros Hid Hh. destruct h as [|c]; [congruence|]. cbn.
  destruct (nth_error ps c); [|exact I]. rewrite Hid. reflexivity.
Qed.

(** A message without an id is seen by the client's listener only. *)
Lemma emit_message_notification (mint : nat -> string) (msg : Message) (w w' : World)
    (m : WebSocketManager) (rest : list Handler) :
  wsManager w = Some m ->
  messageHandlers m = ClientMessage :: rest ->
  ~ In ClientMessage rest ->
  m_id msg = JUndefined ->
  handleWebSocketMessage msg w = Some w' ->
  emit_message mint msg w = w'.
Proof.
  intros Hm Hh Hno Hid He. unfold emit_message. rewrite Hm, Hh.
  cbn [List.length forEach_message]. rewrite Hm, Hh. cbn [nth_error]. rewrite He.
  destruct (@handleWebSocketMessage_frame msg w w' He) as (_ & Hm' & Hp' & _).
  rewrite (@forEach_misses msg (List.length rest) 1 w' [] m); [reflexivity | congruence |].
  intros k' h Hle Hk. rewrite Hp'. apply misses_without_id; [exact Hid|].
  rewrite Hh in Hk. destruct k' as [|k']; [lia|]. cbn in Hk.
  intros ->. apply Hno. eapply nth_error_In. exact Hk.
Qed.

Lemma find_subscription_set (sid : string) (h : string) (s s' : Subscription)
    (m : SubMap.t) :
  SubMap.get h m = Some s ->
  only_entry_of sid h m ->
  sub_id s' = JStr sid ->
  find_subscription (JStr sid) (SubMap.set h s' m) = Some s'.
Proof.
  intros Hg Hu Hs'. induction m as [|[k0 s0] m IH]; [discriminate|].
  cbn in Hg |- *. destruct (String.eqb_spec k0 h) as [->|Hne].
  - cbn. rewrite Hs'. cbn. rewrite String.eqb_refl. reflexivity.
  - cbn. destruct (strict_eq (sub_id s0) (JStr sid)) eqn:E.
    + exfalso. apply Hne. apply (Hu k0 s0); [left; reflexivity|].
      destruct (sub_id s0); cbn in E; try discriminate.
      apply String.eqb_eq in E. congruence.
    + apply IH; [exact Hg|]. intros h' s1 Hin. apply Hu. right. exact Hin.
Qed.

Lemma find_subscription_delete (sid : string) (h : string) (m : SubMap.t) :
  only_entry_of sid h m ->
  find_subscription (JStr sid) (SubMap.delete h m) = None.
Proof.
  intros Hu. induction m as [|[k0 s0] m IH]; [reflexivity|].
  assert (Hu' : only_entry_of sid h m) by (intros h' s1 Hin; apply Hu; right; exact Hin).
  cbn. destruct (String.eqb_spec k0 h) as [->|Hne]; [exact (IH Hu')|].
  cbn. destruct (strict_eq (sub_id s0) (JStr sid)) eqn:E; [|exact (IH Hu')].
  exfalso. apply Hne. apply (Hu k0 s0); [left; reflexivity|].
  destruct (sub_id s0); cbn in E; try discriminate.
  apply String.eqb_eq in E. congruence.
Qed.

(** X6.  Delivery to the callback set by the caller.  On a client whose
    own message listener is registered, as it is from construction until
    [disconnect()] removes it for good, and in front of the reply
    listeners of [subscribe] calls: when the handle [h] names the only
    subscription with the server id [sid], a notification for [sid]
    without an id that arrives on an open socket after
    [setSubscriptionCallback(h, k)] calls [k], once, with the [result]
    member of the notification; requests that await their reply do not
    see it. *)
Theorem notification_reaches_callback (mint : nat -> string) (w : World)
    (m : WebSocketManager) (rest : list Handler) (i k : nat) (sk : Socket)
    (h sid : string) (s : Subscription) (msg : Message) :
  nth_error (sockets w) i = Some sk -> is_open (readyState sk) = true ->
  wsManager w = Some m ->
  messageHandlers m = ClientMessage :: rest -> ~ In ClientMessage rest ->
  SubMap.get h (subscriptions w) = Some s ->
  sub_id s = JStr sid ->
  only_entry_of sid h (subscriptions w) ->
  m_method msg = JStr "eth_subscription" ->
  m_id msg = JUndefined ->
  nullish (m_params msg) = false ->
  field "subscription" (m_params msg) = JStr sid ->
  let w' := run mint [SetSubscriptionCallback h k; SocketMessage i msg] w in
  delivered w' = delivered w ++ [(UserCallback k, field "result" (m_params msg))] /\
  subscriptions w' = SubMap.set h (with_callback (UserCallback k) s) (subscriptions w) /\
  pendings w' = pendings w /\ outcomes w' = outcomes w /\ sent w' = sent w.
Proof.
  intros Hs Ho Hm Hh Hno Hg Hsid Hu Hmeth Hid Hnull Hsub w'. subst w'.
  cbn [run fold_left step]. unfold setSubscriptionCallback. rewrite Hg.
  unfold on_message. cbn [sockets set_subscriptions]. rewrite Hs, Ho.
  erewrite emit_message_notification; try eassumption.
  2:{ unfold handleWebSocketMessage. rewrite Hmeth. cbn [strict_eq].
      rewrite String.eqb_refl, Hnull, Hsub. cbn [subscriptions set_subscriptions].
      rewrite (@find_subscription_set sid h s (with_callback (UserCallback k) s)
                 (subscriptions w) Hg Hu Hsid).
      reflexivity. }
  cbn. auto.
Qed.

Lemma only_entry_subscribed : only_entry_of "0xa" "sub_0" (subscriptions Sample.subscribed).
Proof.
  intros h' s' [H | []] _. inversion H. reflexivity.
Defined.

Lemma notification_reaches_callback_witness :
  let msg := Sample.notification "0xa" (JNum 12) in
  let w' := run Sample.mint [SetSubscriptionCallback "sub_0" 9; SocketMessage 0 msg]
              Sample.subscribed in
  delivered w' = delivered Sample.subscribed
                   ++ [(UserCallback 9, field "result" (m_params msg))] /\
  (exists s, SubMap.get "sub_0" (subscriptions Sample.subscribed) = Some s /\
     subscriptions w' =
       SubMap.set "sub_0" (with_callback (UserCallback 9) s)
         (subscriptions Sample.subscribed)) /\
  pendings w' = pendings Sample.subscribed /\ outcomes w' = outcomes Sample.subscribed /\
  sent w' = sent Sample.subscribed.
Proof.
  intros msg w'.
  destruct (@notification_reaches_callback Sample.mint Sample.subscribed _ [] 0 9 _
              "sub_0" "0xa" _ msg
              eq_refl eq_refl eq_refl eq_refl (fun H : In ClientMessage [] => H)
              eq_refl eq_refl only_entry_subscribed eq_refl eq_refl eq_refl eq_refl)
    as (H1 & H2 & H3 & H4 & H5).
  split; [exact H1|]. split; [|auto].
  eexists. split; [reflexivity | exact H2].
Defined.

(** X7.  After [unsubscribe] the client is deaf to the subscription.  When
    no handle other than [h] names a subscription with the server id [sid]
    and the socket is open, [unsubscribe(h)] sends the request and resolves to
    [true], and a notification for [sid] that still arrives afterwards is
    dropped: no callback is called. *)
Theorem unsubscribe_stops_delivery (mint : nat -> string) (w : World)
    (m : WebSocketManager) (rest : list Handler) (i c : nat)
    (h sid : string) (s : Subscription) (msg : Message) :
  open_socket w = Some i ->
  wsManager w = Some m ->
  messageHandlers m = ClientMessage :: rest -> ~ In ClientMessage rest ->
  SubMap.get h (subscriptions w) = Some s ->
  only_entry_of sid h (subscriptions w) ->
  m_method msg = JStr "eth_subscription" ->
  m_id msg = JUndefined ->
  nullish (m_params msg) = false ->
  field "subscription" (m_params msg) = JStr sid ->
  let w' := run mint [Unsubscribe c h; SocketMessage i msg] w in
  delivered w' = delivered w /\
  subscriptions w' = SubMap.delete h (subscriptions w) /\
  outcomes w' = outcomes w ++ [(c, Returned (JBool true))] /\
  sent w' = sent w ++ [(i, {| p_id := requestId w; p_method := "eth_unsubscribe";
                              p_params := [sub_id s] |})].
Proof.
  intros Ho Hm Hh Hno Hg Hu Hmeth Hid Hnull Hsub w'. subst w'.
  cbn [run fold_left step]. unfold unsubscribe. rewrite Hg, Hm.
  assert (Ho1 : open_socket (next_requestId w) = Some i) by exact Ho.
  rewrite (@send_open _ (next_requestId w) i Ho1).
  unfold on_message.
  cbn [sockets set_subscriptions log_sent next_requestId log_outcome].
  assert (Hsock : exists sk, nth_error (sockets w) i = Some sk /\ is_open (readyState sk) = true).
  { unfold open_socket in Ho. rewrite Hm in Ho. destruct (connection m) as [i0|]; [|discriminate].
    destruct (nth_error (sockets w) i0) as [sk|] eqn:E; [|discriminate].
    destruct (is_open (readyState sk)) eqn:E2; [|discriminate].
    inversion Ho; subst. eauto. }
  destruct Hsock as (sk & Hs & Hopen). rewrite Hs, Hopen.
  erewrite emit_message_notification with (m := m) (rest := rest); try eassumption;
    try reflexivity.
  2:{ unfold handleWebSocketMessage. rewrite Hmeth. cbn [strict_eq].
      rewrite String.eqb_refl, Hnull, Hsub.
      cbn [subscriptions set_subscriptions log_sent next_requestId log_outcome].
      rewrite (@find_subscription_delete sid h (subscriptions w) Hu). reflexivity. }
  cbn. auto.
Qed.

Lemma unsubscribe_stops_delivery_witness :
  let msg := Sample.notification "0xa" (JNum 12) in
  let w' := run Sample.mint [Unsubscribe 4 "sub_0"; SocketMessage 0 msg] Sample.subscribed in
  delivered w' = delivered Sample.subscribed /\
  subscriptions w' = SubMap.delete "sub_0" (subscriptions Sample.subscribed) /\
  outcomes w' = outcomes Sample.subscribed ++ [(4%nat, Returned (JBool true))] /\
  exists s, SubMap.get "sub_0" (subscriptions Sample.subscribed) = Some s /\
    sent w' = sent Sample.subscribed
                ++ [(0%nat, {| p_id := requestId Sample.subscribed;
                               p_method := "eth_unsubscribe";
                               p_params := [sub_id s] |})].
Proof.
  intros msg w'.
  destruct (@unsubscribe_stops_delivery Sample.mint Sample.subscribed _ [] 0 4
              "sub_0" "0xa" _ msg
              eq_refl eq_refl eq_refl (fun H : In ClientMessage [] => H)
              eq_refl only_entry_subscribed eq_refl eq_refl eq_refl eq_refl)
    as (H1 & H2 & H3 & H4).
  split; [exact H1|]. split; [exact H2|]. split; [exact H3|].
  eexists. split; [reflexivity | exact H4].
Defined.

(* ------------------------------------------------------------------ *)
(** ** Resubscription, entry after entry                                 *)
(* ------------------------------------------------------------------ *)

Lemma idle_open_socket (i : nat) (w : World) : idle_open i w -> open_socket w = Some i.
Proof.
  intros (m & s & Hm & _ & Hc & Hs & Ho). unfold open_socket. rewrite Hm, Hc, Hs, Ho.
  reflexivity.
Qed.

(** A [subscribe] call on an idle open socket with room in the table: the
    request goes out at once and the call waits for its reply. *)
Lemma subscribe_idle (mint : nat -> string) (i : nat) (w : World) (call : SubscribeCall)
    (m : WebSocketManager) :
  idle_open i w ->
  wsManager w = Some m ->
  SubMap.size (subscriptions w) < maxSubscriptions (config w) ->
  subscribe mint call w =
    (log_sent (i, subscribe_payload (with_default_params call) w)
      (set_wsManager
         (Some (set_messageHandlers
                  (messageHandlers m ++ [SubscribeReply (List.length (pendings w))]) m))
         (set_pendings
            (pendings w ++ [new_pending (requestId w) (mint (minted w))
                              (with_default_params call)])
            (next_requestId (next_minted w)))), None).
Proof.
  intros Hidle Hm Hlt. pose proof (idle_open_socket Hidle) as Ho.
  unfold subscribe, subscribe_start. cbv zeta. rewrite Hm.
  destruct (Z.geb_spec (SubMap.size (subscriptions w)) (maxSubscriptions (config w)));
    [lia|].
  rewrite (@connect_open (FromSubscribe (with_default_params call)) w i Ho).
  rewrite (@subscribe_send_open mint (with_default_params call) w m i Hm Ho).
  reflexivity.
Qed.

(** A [subscribe] call on an idle open socket and the reply to its
    request: the entry is stored and whoever awaits the call goes on. *)
Lemma subscribe_then_reply (mint : nat -> string) (i : nat) (w : World)
    (call : SubscribeCall) (msg : Message) :
  idle_open i w ->
  SubMap.size (subscriptions w) < maxSubscriptions (config w) ->
  m_id msg = JNum (requestId w) ->
  truthy (m_error msg) = false ->
  strict_eq (m_method msg) (JStr "eth_subscription") = false ->
  exists w1,
    subscribe mint call w = (fst (subscribe mint call w), None) /\
    step mint (SocketMessage i msg) (fst (subscribe mint call w)) =
      settle_subscribe mint (call_cont call) (Ok (mint (minted w))) w1 /\
    idle_open i w1 /\
    subscriptions w1 =
      SubMap.set (mint (minted w))
        {| sub_id := m_result msg; sub_eventType := call_eventType call;
           sub_params := default_params (call_params call);
           sub_callback := NoopCallback |}
        (subscriptions w) /\
    requestId w1 = requestId w + 1 /\ minted w1 = S (minted w) /\
    sent w1 = sent w ++ [(i, subscribe_payload (with_default_params call) w)] /\
    config w1 = config w /\ delivered w1 = delivered w /\ outcomes w1 = outcomes w.
Proof.
  intros Hidle Hlt Hid Herr Hmeth.
  pose proof Hidle as (m & s & Hm & Hh & Hc & Hs & Hopen).
  rewrite (@subscribe_idle mint i w call m Hidle Hm Hlt). cbn [fst]. rewrite Hh. cbn [app step]. unfold on_message.
  cbn [sockets log_sent set_wsManager set_pendings next_requestId next_minted].
  rewrite Hs, Hopen. unfold emit_message.
  cbn [wsManager log_sent set_wsManager messageHandlers set_messageHandlers List.length
       forEach_message nth_error].
  rewrite handleWebSocketMessage_other by exact Hmeth.
  cbn [wsManager log_sent set_wsManager messageHandlers set_messageHandlers nth_error].
  unfold messageHandler.
  cbn [pendings log_sent set_wsManager set_pendings]. rewrite nth_error_snoc.
  cbn [payload_id new_pending]. rewrite Hid. cbn [strict_eq]. rewrite Z.eqb_refl.
  cbv zeta. rewrite Herr. unfold settle_once, on_manager, on_pending.
  cbn [pending_settled new_pending wsManager set_pendings set_wsManager log_sent
       set_subscriptions messageHandlers set_messageHandlers remove_first handler_eqb
       app fold_left wake fst snd pending_call subscriptionId].
  rewrite Nat.eqb_refl.
  eexists. split; [reflexivity|]. split; [reflexivity|].
  split.
  { exists (set_messageHandlers [ClientMessage] m), s. cbn. auto. }
  cbn. auto 10.
Qed.

Lemma set_fresh (k : string) (v : Subscription) (m : SubMap.t) :
  SubMap.get k m = None -> SubMap.set k v m = m ++ [(k, v)].
Proof.
  induction m as [|[k0 v0] m IH]; cbn; [reflexivity|].
  destruct (k0 =? k)%string; [discriminate|]. intros H. rewrite (IH H). reflexivity.
Qed.

Lemma get_app_fresh (k k0 : string) (v : Subscription) (m : SubMap.t) :
  SubMap.get k m = None -> k0 <> k -> SubMap.get k (m ++ [(k0, v)]) = None.
Proof.
  intros Hg Hne. induction m as [|[k1 v1] m IH]; cbn in *.
  - destruct (String.eqb_spec k0 k); [contradiction | reflexivity].
  - destruct (k1 =? k)%string; [discriminate | auto].
Qed.

(** The loop of [resubscribeAll], entry after entry, each reply arriving
    before the next request goes out. *)
Lemma resubscribe_loop_replay (mint : nat -> string) (i : nat) (entries : SubMap.t) :
  forall (results : list json) (w : World),
    List.length results = List.length entries ->
    idle_open i w ->
    SubMap.size (subscriptions w) + Z.of_nat (List.length entries)
      <= maxSubscriptions (config w) ->
    (forall k, (k < List.length entries)%nat ->
               SubMap.get (mint (minted w + k)%nat) (subscriptions w) = None) ->
    NoDup (map mint (seq (minted w) (List.length entries))) ->
    let w' := run mint (map (SocketMessage i) (replies_from (requestId w) results))
                (resubscribe_loop mint entries w) in
    subscriptions w' = subscriptions w ++ replayed mint (minted w) entries results /\
    sent w' = sent w ++ replay_frames i (requestId w) entries /\
    delivered w' = delivered w /\ outcomes w' = outcomes w /\ idle_open i w'.
Proof.
  induction entries as [|[h0 s0] entries IH]; intros results w Hlen Hidle Hsize Hfresh Hnd.
  - destruct results; [|discriminate]. cbn. rewrite !app_nil_r. auto.
  - destruct results as [|r results]; [discriminate|].
    cbn [resubscribe_loop replies_from map run fold_left].
    set (call := {| call_eventType := sub_eventType s0; call_params := sub_params s0;
                    call_cont := ToResubscribe entries |}).
    set (msg := {| m_id := JNum (requestId w); m_error := JUndefined; m_result := r;
                   m_method := JUndefined; m_params := JUndefined |}).
    assert (Hlt : SubMap.size (subscriptions w) < maxSubscriptions (config w)).
    { cbn [List.length] in Hsize. lia. }
    destruct (@subscribe_then_reply mint i w call msg Hidle Hlt eq_refl eq_refl eq_refl)
      as (w1 & Hsub & Hstep & Hidle1 & Hs1 & Hr1 & Hmi1 & Hsent1 & Hc1 & Hd1 & Ho1).
    rewrite Hsub. rewrite Hstep. cbn [call call_cont settle_subscribe].
    assert (Hset : subscriptions w1 =
                   subscriptions w ++ [(mint (minted w),
                     {| sub_id := r; sub_eventType := sub_eventType s0;
                        sub_params := default_params (sub_params s0);
                        sub_callback := NoopCallback |})]).
    { rewrite Hs1. apply set_fresh.
      specialize (Hfresh 0%nat). rewrite Nat.add_0_r in Hfresh. apply Hfresh. cbn. lia. }
    cbn [List.length seq map] in Hnd. inversion Hnd as [|x l Hnotin Hnd']; subst.
    specialize (IH results w1).
    rewrite Hr1, Hmi1 in IH. fold (run mint) in IH.
    destruct IH as (IHs & IHsent & IHd & IHo & IHi).
    + cbn [List.length] in Hlen. lia.
    + exact Hidle1.
    + rewrite Hset, Hc1. unfold SubMap.size in *. rewrite length_app.
      cbn [List.length] in *. lia.
    + intros k Hk. rewrite Hset. apply get_app_fresh.
      * replace (S (minted w) + k)%nat with (minted w + S k)%nat by lia.
        apply Hfresh. cbn [List.length]. lia.
      * intros E. apply Hnotin. rewrite E. apply in_map, in_seq. lia.
    + exact Hnd'.
    + unfold run in *. rewrite IHs, IHsent, IHd, IHo, Hset, Hsent1, Hd1, Ho1.
      cbn [replayed replay_frames]. rewrite <- !app_assoc. cbn [app].
      repeat split; auto.
Qed.

(** X8.  Resubscription after a reconnect.  On an open socket with the
    client's message listener the only one registered and a table that
    holds no more entries than the maximum in force, [resubscribeAll]
    empties the table and issues
    the subscriptions again one at a time, in the order of the table:
    when it returns, only the request for the first entry is out; and
    once the replies to all requests are in, one after the other, the
    table has one entry for each old entry, in the same order, under a
    new handle (the handles made up being different from one another),
    with the server id of its reply, the old event type and parameters
    ([{}] for parameters that were [undefined]), and the empty callback,
    and the requests sent have consecutive ids.  No caller is told and no
    callback is called. *)
Theorem resubscribeAll_replays_in_order (mint : nat -> string) (i : nat) (w : World)
    (results : list json) :
  idle_open i w ->
  List.length results = List.length (subscriptions w) ->
  SubMap.size (subscriptions w) <= maxSubscriptions (config w) ->
  NoDup (map mint (seq (minted w) (List.length (subscriptions w)))) ->
  let w0 := resubscribeAll mint w in
  let w' := run mint (map (SocketMessage i) (replies_from (requestId w) results)) w0 in
  (subscriptions w0 = [] /\
   sent w0 = sent w ++ firstn 1 (replay_frames i (requestId w) (subscriptions w))) /\
  subscriptions w' = replayed mint (minted w) (subscriptions w) results /\
  sent w' = sent w ++ replay_frames i (requestId w) (subscriptions w) /\
  delivered w' = delivered w /\ outcomes w' = outcomes w.
Proof.
  intros Hidle Hlen Hsize Hnd w0 w'. subst w0 w'. unfold resubscribeAll. cbv zeta.
  assert (Hidle0 : idle_open i (set_subscriptions [] w)).
  { destruct Hidle as (m & s & H). exists m, s. exact H. }
  split.
  - destruct (subscriptions w) as [|[h0 s0] entries] eqn:E.
    + cbn. rewrite app_nil_r. auto.
    + cbn [resubscribe_loop].
      destruct Hidle0 as (m & s & Hm & Hrest).
      rewrite (@subscribe_idle mint i (set_subscriptions [] w) _ m
                 (ex_intro _ m (ex_intro _ s (conj Hm Hrest))) Hm).
      * cbn. auto.
      * cbn [subscriptions set_subscriptions config]. unfold SubMap.size in *.
        cbn [List.length] in *. lia.
  - destruct (@resubscribe_loop_replay mint i (subscriptions w) results
                (set_subscriptions [] w) Hlen Hidle0)
      as (H1 & H2 & H3 & H4 & _).
    + cbn [subscriptions set_subscriptions config]. unfold SubMap.size in *. cbn. lia.
    + intros k Hk. reflexivity.
    + exact Hnd.
    + cbn [subscriptions set_subscriptions requestId minted sent delivered outcomes app]
        in H1, H2, H3, H4.
      auto.
Qed.

Lemma resubscribeAll_replays_in_order_witness :
  let w0 := resubscribeAll Sample.mint Sample.subscribed in
  let w' := run Sample.mint
              (map (SocketMessage 0) (replies_from (requestId Sample.subscribed) [JStr "0xb"]))
              w0 in
  (subscriptions w0 = [] /\
   sent w0 = sent Sample.subscribed
               ++ firstn 1 (replay_frames 0 (requestId Sample.subscribed)
                              (subscriptions Sample.subscribed))) /\
  subscriptions w' =
    replayed Sample.mint (minted Sample.subscribed) (subscriptions Sample.subscribed)
      [JStr "0xb"] /\
  sent w' = sent Sample.subscribed
              ++ replay_frames 0 (requestId Sample.subscribed)
                   (subscriptions Sample.subscribed) /\
  delivered w' = delivered Sample.subscribed /\ outcomes w' = outcomes Sample.subscribed.
Proof.
  refine (@resubscribeAll_replays_in_order Sample.mint 0 Sample.subscribed [JStr "0xb"]
            _ eq_refl _ _).
  - eexists. eexists. repeat split; reflexivity.
  - vm_compute. discriminate.
  - constructor; [intros [] | constructor].
Defined.

(* ------------------------------------------------------------------ *)
(** ** Disconnect and the close of its socket                           *)
(* ------------------------------------------------------------------ *)

Lemma nth_error_update_same (A : Type) (f : A -> A) (l : list A) (n : nat) (x : A) :
  nth_error l n = Some x -> nth_error (update_nth n f l) n = Some (f x).
Proof.
  revert n. induction l as [|y l IH]; intros [|n] H; cbn in *; try discriminate.
  - inversion H. reflexivity.
  - apply IH. exact H.
Qed.

Lemma length_update_nth (A : Type) (f : A -> A) (l : list A) (n : nat) :
  List.length (update_nth n f l) = List.length l.
Proof.
  revert n. induction l as [|y l IH]; intros [|n]; cbn; auto.
Qed.

Lemma disconnect_connected (w : World) (m : WebSocketManager) (i : nat) :
  wsManager w = Some m ->
  connection m = Some i ->
  disconnect w =
    set_subscriptions []
      (set_wsManager
         (Some (set_reconnectedHandler false
                  (set_messageHandlers [] (set_connection None
                                             (set_heartbeatInterval false m)))))
         (set_sockets (update_nth i close_socket (sockets w)) w)).
Proof.
  intros Hm Hc. unfold disconnect, manager_disconnect. cbv zeta.
  assert (H1 : on_manager (set_heartbeatInterval false) w
               = set_wsManager (Some (set_heartbeatInterval false m)) w).
  { unfold on_manager. rewrite Hm. reflexivity. }
  rewrite H1. cbn [wsManager set_wsManager connection set_heartbeatInterval]. rewrite Hc.
  unfold on_manager, on_socket. cbn. reflexivity.
Qed.

Lemma update_close_closed (l : list Socket) (i : nat) :
  update_nth i (set_readyState CLOSED) (update_nth i close_socket l)
  = update_nth i (set_readyState CLOSED) l.
Proof.
  rewrite update_nth_twice. revert i.
  induction l as [|x l IH]; intros [|i]; cbn; try reflexivity.
  - unfold close_socket. destruct (readyState x); reflexivity.
  - rewrite IH. reflexivity.
Qed.

(** X9.  The manager reconnects after [disconnect()].  [disconnect] closes the
    socket and forgets it, but the close handler of that socket still runs
    [handleReconnection]: when the "close" event arrives a timer is set,
    and when it fires the manager opens a new socket, although the client
    was disconnected on purpose. *)
Theorem reconnect_after_disconnect (mint : nat -> string) (w : World)
    (m : WebSocketManager) (i : nat) (s : Socket) :
  wsManager w = Some m ->
  connection m = Some i ->
  nth_error (sockets w) i = Some s ->
  readyState s = OPEN ->
  reconnectAttempts m < maxReconnectAttempts m ->
  let w' := run mint [Disconnect; SocketClose i;
                      ReconnectTimer (List.length (reconnectTimers w))] w in
  sockets w' = update_nth i (set_readyState CLOSED) (sockets w)
                 ++ [new_socket FromReconnectTimer] /\
  reconnectTimers w' =
    reconnectTimers w
      ++ [(reconnectDelay m * 2 ^ (reconnectAttempts m + 1 - 1), false)] /\
  subscriptions w' = [] /\
  exists m',
    wsManager w' = Some m' /\ connection m' = Some (List.length (sockets w)) /\
    isConnecting m' = true /\ reconnectAttempts m' = reconnectAttempts m + 1 /\
    messageHandlers m' = [] /\ reconnectedHandler m' = false.
Proof.
  intros Hm Hc Hs Hopen Hlt w'. subst w'.
  cbn [run fold_left step]. rewrite (@disconnect_connected w m i Hm Hc).
  set (m1 := set_reconnectedHandler false
               (set_messageHandlers [] (set_connection None
                                          (set_heartbeatInterval false m)))).
  set (w1 := set_subscriptions []
               (set_wsManager (Some m1)
                  (set_sockets (update_nth i close_socket (sockets w)) w))).
  assert (Hs1 : nth_error (sockets w1) i = Some (close_socket s)).
  { apply (@nth_error_update_same _ close_socket (sockets w) i s Hs). }
  assert (Hr1 : readyState (close_socket s) <> CLOSED).
  { unfold close_socket. rewrite Hopen. discriminate. }
  rewrite (@on_close_unfold i w1 (close_socket s) Hs1 Hr1).
  set (w2 := on_manager (set_isConnecting false) (on_socket i (set_readyState CLOSED) w1)).
  assert (Hm2 : wsManager w2 = Some (set_isConnecting false m1)) by reflexivity.
  rewrite (@handleReconnection_below w2 (set_isConnecting false m1) Hm2 Hlt).
  unfold on_reconnect_timer, schedule_reconnect.
  cbn [reconnectTimers set_reconnectTimers set_wsManager].
  change (reconnectTimers w2) with (reconnectTimers w).
  rewrite nth_error_snoc. cbv zeta.
  unfold connect, open_socket.
  cbn [wsManager set_reconnectTimers set_wsManager connection set_reconnectAttempts
       set_isConnecting m1 set_reconnectedHandler set_messageHandlers set_connection
       isConnecting].
  unfold on_manager.
  cbn [wsManager set_reconnectTimers set_wsManager sockets set_sockets fst snd
       reconnectTimers subscriptions].
  change (sockets w2) with (update_nth i (set_readyState CLOSED)
                              (update_nth i close_socket (sockets w))).
  change (subscriptions w2) with (@nil (string * Subscription)).
  rewrite update_close_closed, length_update_nth.
  rewrite (@update_nth_app _ _ (reconnectTimers w) _ []). cbn [fst app].
  split; [reflexivity|]. split; [reflexivity|]. split; [reflexivity|].
  eexists. split; [reflexivity|]. cbn. auto.
Qed.

Lemma reconnect_after_disconnect_witness :
  exists m,
    wsManager Sample.subscribed = Some m /\
    let w' := run Sample.mint
                [Disconnect; SocketClose 0;
                 ReconnectTimer (List.length (reconnectTimers Sample.subscribed))]
                Sample.subscribed in
    sockets w' = update_nth 0 (set_readyState CLOSED) (sockets Sample.subscribed)
                   ++ [new_socket FromReconnectTimer] /\
    reconnectTimers w' =
      reconnectTimers Sample.subscribed
        ++ [(reconnectDelay m * 2 ^ (reconnectAttempts m + 1 - 1), false)] /\
    subscriptions w' = [] /\
    exists m',
      wsManager w' = Some m' /\ connection m' = Some (List.length (sockets Sample.subscribed)) /\
      isConnecting m' = true /\ reconnectAttempts m' = reconnectAttempts m + 1 /\
      messageHandlers m' = [] /\ reconnectedHandler m' = false.
Proof.
  eexists. split; [reflexivity|].
  refine (@reconnect_after_disconnect Sample.mint Sample.subscribed _ 0 _
            eq_refl eq_refl eq_refl eq_refl eq_refl).
Defined.

(* ------------------------------------------------------------------ *)
(** ** Properties kept by every step, the manager considered            *)
(* ------------------------------------------------------------------ *)

Create HintDb inv.

(** A property of worlds kept by the updates that the code makes, which
    may depend on the manager object, is kept by every operation of the
    client and the manager, hence by every run. *)
Section Invariant.

Variable mint : nat -> string.
Variable Inv : World -> Prop.

Hypothesis I_subscriptions : forall x w, Inv w -> Inv (set_subscriptions x w).
Hypothesis I_sockets : forall x w, Inv w -> Inv (set_sockets x w).
Hypothesis I_pendings : forall x w, Inv w -> Inv (set_pendings x w).
Hypothesis I_waiters : forall x w, Inv w -> Inv (set_waiters x w).
Hypothesis I_emitted : forall x w, Inv w -> Inv (log_emitted x w).
Hypothesis I_outcome : forall c o w, Inv w -> Inv (log_outcome c o w).
Hypothesis I_manager : forall f w, manager_update f -> Inv w -> Inv (on_manager f w).
Hypothesis I_handleReconnection : forall w, Inv w -> Inv (handleReconnection w).
Hypothesis I_timer_fired : forall n w,
  Inv w ->
  Inv (set_reconnectTimers (update_nth n (fun t => (fst t, false)) (reconnectTimers w)) w).
Hypothesis I_delivered : forall x w m,
  wsManager w = Some m -> In ClientMessage (messageHandlers m) ->
  Inv w -> Inv (log_delivered x w).
Hypothesis I_callRPC : forall method params http w,
  Inv w -> Inv (fst (callRPC method params http w)).
Hypothesis I_subscribe_send : forall call w,
  Inv w -> Inv (fst (subscribe_send mint call w)).
Hypothesis I_unsubscribe : forall h w, Inv w -> Inv (fst (unsubscribe h w)).

#[local] Hint Constructors manager_update : inv.
#[local] Hint Resolve I_subscriptions I_sockets I_pendings I_waiters
  I_emitted I_outcome I_manager I_handleReconnection I_timer_fired : inv.

Lemma I_on_socket i f w : Inv w -> Inv (on_socket i f w).
Proof. unfold on_socket. auto with inv. Qed.

Lemma I_on_pending i f w : Inv w -> Inv (on_pending i f w).
Proof. unfold on_pending. auto with inv. Qed.

#[local] Hint Resolve I_on_socket I_on_pending : inv.

Lemma I_connect caller w : Inv w -> Inv (fst (connect caller w)).
Proof.
  intros H. unfold connect. destruct (open_socket w); [exact H|].
  destruct (wsManager w) as [m|]; [|exact H].
  destruct (isConnecting m); cbn [fst]; auto with inv.
Qed.

Lemma I_subscribe_start call w : Inv w -> Inv (fst (subscribe_start call w)).
Proof.
  intros H. unfold subscribe_start. cbv zeta. destruct (wsManager w); [|exact H].
  destruct (SubMap.size (subscriptions w) >=? maxSubscriptions (config w)); [exact H|].
  match goal with
  | |- context [connect ?c w] =>
      pose proof (I_connect c H) as Hc; destruct (connect c w) as [w1 ready]
  end.
  exact Hc.
Qed.

Lemma I_subscribe call w : Inv w -> Inv (fst (subscribe mint call w)).
Proof.
  intros H. unfold subscribe.
  pose proof (I_subscribe_start call H) as Hs.
  destruct (subscribe_start call w) as [w1 [t|call'|]]; cbn [fst] in Hs; try exact Hs.
  apply I_subscribe_send; exact Hs.
Qed.

Lemma I_resubscribe_loop rest : forall w, Inv w -> Inv (resubscribe_loop mint rest w).
Proof.
  induction rest as [|[k s] rest IH]; intros w H; cbn [resubscribe_loop]; [exact H|].
  match goal with
  | |- context [subscribe mint ?c w] =>
      pose proof (I_subscribe c H) as Hs; destruct (subscribe mint c w) as [w1 r]
  end.
  cbn [fst] in Hs. destruct r; auto.
Qed.

Lemma I_resubscribeAll w : Inv w -> Inv (resubscribeAll mint w).
Proof. intros H. unfold resubscribeAll. apply I_resubscribe_loop. auto with inv. Qed.

Lemma I_settle_subscribe k r w : Inv w -> Inv (settle_subscribe mint k r w).
Proof.
  intros H. destruct k; cbn [settle_subscribe];
    [auto with inv | apply I_resubscribe_loop; exact H].
Qed.

Lemma I_emit_reconnected w : Inv w -> Inv (emit_reconnected mint w).
Proof.
  intros H. unfold emit_reconnected. cbv zeta.
  destruct (wsManager (log_emitted "reconnected" w)) as [m|]; [|auto with inv].
  destruct (reconnectedHandler m); [apply I_resubscribeAll|]; auto with inv.
Qed.

Lemma I_resume_connect caller r w : Inv w -> Inv (resume_connect mint caller r w).
Proof.
  intros H. destruct caller as [c|call|]; cbn [resume_connect].
  - auto with inv.
  - destruct r as [e|]; [apply I_settle_subscribe; exact H|].
    pose proof (I_subscribe_send call H) as Hs.
    destruct (subscribe_send mint call w) as [w1 r1]. cbn [fst] in Hs.
    destruct r1; [apply I_settle_subscribe|]; exact Hs.
  - destruct r; [auto with inv | apply I_emit_reconnected; exact H].
Qed.

Lemma I_setSubscriptionCallback h cb w : Inv w -> Inv (setSubscriptionCallback h cb w).
Proof.
  intros H. unfold setSubscriptionCallback.
  destruct (SubMap.get h (subscriptions w)); auto with inv.
Qed.

Lemma I_handleWebSocketMessage msg w w' m :
  wsManager w = Some m -> In ClientMessage (messageHandlers m) ->
  handleWebSocketMessage msg w = Some w' -> Inv w -> Inv w'.
Proof.
  unfold handleWebSocketMessage. intros Hm Hin E H.
  destruct (strict_eq (m_method msg) (JStr "eth_subscription")).
  - destruct (nullish (m_params msg)); [discriminate|].
    destruct (find_subscription _ _); inversion E; subst; eauto using I_delivered.
  - inversion E. subst. exact H.
Qed.

Lemma I_settle_once closure p r w : Inv w -> Inv (fst (settle_once closure p r w)).
Proof.
  intros H. unfold settle_once. destruct (pending_settled p); cbn [fst]; auto with inv.
Qed.

Lemma I_messageHandler closure msg w : Inv w -> Inv (fst (messageHandler closure msg w)).
Proof.
  intros H. unfold messageHandler.
  destruct (nth_error (pendings w) closure) as [p|]; [|exact H].
  destruct (strict_eq (m_id msg) (JNum (payload_id p))); [|exact H]. cbv zeta.
  destruct (truthy (m_error msg)); apply I_settle_once; auto 10 with inv.
Qed.

Lemma I_forEach_message fuel : forall k msg w woken,
  Inv w -> Inv (fst (forEach_message fuel k msg w woken)).
Proof.
  induction fuel as [|fuel IH]; intros k msg w woken H; cbn [forEach_message]; [exact H|].
  destruct (wsManager w) as [m|] eqn:Hm; [|exact H].
  destruct (nth_error (messageHandlers m) k) as [[|closure]|] eqn:Hk; [| |exact H].
  - destruct (handleWebSocketMessage msg w) as [w'|] eqn:E; [|exact H].
    apply IH. eapply I_handleWebSocketMessage; eauto using nth_error_In.
  - pose proof (I_messageHandler closure msg H) as Hh.
    destruct (messageHandler closure msg w) as [w' l]. cbn [fst] in Hh.
    apply IH. exact Hh.
Qed.

Lemma I_wake_all woken : forall w, Inv w -> Inv (fold_left (wake mint) woken w).
Proof.
  induction woken as [|kr woken IH]; intros w H; cbn [fold_left]; [exact H|].
  apply IH. unfold wake. apply I_settle_subscribe. exact H.
Qed.

Lemma I_emit_message msg w : Inv w -> Inv (emit_message mint msg w).
Proof.
  intros H. unfold emit_message. destruct (wsManager w) as [m|]; [|exact H].
  pose proof (I_forEach_message (List.length (messageHandlers m)) 0 msg [] H) as Hf.
  destruct (forEach_message _ 0 msg w []) as [w' woken]. cbn [fst] in Hf.
  apply I_wake_all. exact Hf.
Qed.

Lemma I_connect_failed i s e w : Inv w -> Inv (connect_failed mint i s e w).
Proof.
  intros H. unfold connect_failed. destruct (settled s); [exact H|].
  apply I_resume_connect. auto with inv.
Qed.

Lemma I_on_open i w : Inv w -> Inv (on_open mint i w).
Proof.
  intros H. unfold on_open. destruct (nth_error (sockets w) i) as [s|]; [|exact H].
  destruct (readyState s); try exact H. cbv zeta.
  destruct (settled s); [|apply I_resume_connect]; auto with inv.
Qed.

Lemma I_on_error i w : Inv w -> Inv (on_error mint i w).
Proof.
  intros H. unfold on_error. destruct (nth_error (sockets w) i) as [s|]; [|exact H].
  destruct (readyState s); try exact H; cbv zeta; apply I_connect_failed; auto with inv.
Qed.

Lemma I_on_close i w : Inv w -> Inv (on_close i w).
Proof.
  intros H. unfold on_close. destruct (nth_error (sockets w) i) as [s|]; [|exact H].
  destruct (readyState s); try exact H; apply I_handleReconnection; auto with inv.
Qed.

Lemma I_on_fail i w : Inv w -> Inv (on_fail mint i w).
Proof.
  intros H. unfold on_fail. destruct (nth_error (sockets w) i) as [s|]; [|exact H].
  destruct (readyState s); try exact H; cbv zeta;
    apply I_connect_failed, I_on_close; auto with inv.
Qed.

Lemma I_on_message i msg w : Inv w -> Inv (on_message mint i msg w).
Proof.
  intros H. unfold on_message. destruct (nth_error (sockets w) i) as [s|]; [|exact H].
  destruct (is_open (readyState s)); [apply I_emit_message|]; exact H.
Qed.

Lemma I_on_connect_timeout i w : Inv w -> Inv (on_connect_timeout mint i w).
Proof.
  intros H. unfold on_connect_timeout.
  destruct (nth_error (sockets w) i) as [s|]; [|exact H].
  destruct (connectTimer s); [apply I_connect_failed|]; auto with inv.
Qed.

Lemma I_checkConnection n w : Inv w -> Inv (checkConnection mint n w).
Proof.
  intros H. unfold checkConnection.
  destruct (nth_error (waiters w) n) as [[caller|]|]; try exact H. cbv zeta.
  destruct (open_socket w); [apply I_resume_connect; auto with inv|].
  destruct (wsManager w) as [m|]; [|exact H].
  destruct (isConnecting m); [exact H|]. apply I_resume_connect. auto with inv.
Qed.

Lemma I_on_reconnect_timer n w : Inv w -> Inv (on_reconnect_timer mint n w).
Proof.
  intros H. unfold on_reconnect_timer.
  destruct (nth_error (reconnectTimers w) n) as [[delay [|]]|]; try exact H. cbv zeta.
  match goal with
  | |- context [connect FromReconnectTimer ?w1] =>
      assert (H1 : Inv w1) by auto with inv;
      pose proof (I_connect FromReconnectTimer H1) as Hc;
      destruct (connect FromReconnectTimer w1) as [w2 ready]
  end.
  cbn [fst] in Hc. destruct ready; [apply I_emit_reconnected|]; exact Hc.
Qed.

Lemma I_on_subscribe_timeout closure w : Inv w -> Inv (on_subscribe_timeout mint closure w).
Proof.
  intros H. unfold on_subscribe_timeout.
  destruct (nth_error (pendings w) closure) as [p|]; [|exact H].
  destruct (pending_timer p); [|exact H]. cbv zeta.
  match goal with
  | |- context [settle_once closure p ?r ?w1] =>
      assert (H1 : Inv w1) by auto with inv;
      pose proof (I_settle_once closure p r H1) as Hs;
      destruct (settle_once closure p r w1) as [w2 woken]
  end.
  cbn [fst] in Hs. apply I_wake_all. exact Hs.
Qed.

Lemma I_manager_disconnect w : Inv w -> Inv (manager_disconnect w).
Proof.
  intros H. unfold manager_disconnect. cbv zeta.
  apply I_manager; [constructor|].
  destruct (wsManager (on_manager (set_heartbeatInterval false) w)) as [m|];
    [|auto with inv].
  destruct (connection m); auto 6 with inv.
Qed.

Lemma I_disconnect w : Inv w -> Inv (disconnect w).
Proof. intros H. apply I_subscriptions, I_manager_disconnect, H. Qed.

Lemma I_connectWebSocket c w : Inv w -> Inv (connectWebSocket c w).
Proof.
  intros H. unfold connectWebSocket. destruct (wsManager w); [|auto with inv].
  pose proof (I_connect (FromConnectWebSocket c) H) as Hc.
  destruct (connect (FromConnectWebSocket c) w) as [w1 ready]. cbn [fst] in Hc.
  destruct ready; auto with inv.
Qed.

Lemma I_call_now a w : Inv w -> Inv (fst (fst (call_now a w))).
Proof.
  intros H. destruct a as [c method params http | c et ps | c h | h k | c | ];
    cbn [call_now].
  - pose proof (I_callRPC method params http H) as Hc.
    destruct (callRPC method params http w) as [w1 r]. cbn [fst] in *. auto with inv.
  - match goal with
    | |- context [subscribe_start ?c w] =>
        pose proof (I_subscribe_start c H) as Hs;
          destruct (subscribe_start c w) as [w1 [t|call|]]
    end; cbn [fst] in *; auto with inv.
  - pose proof (I_unsubscribe h H) as Hu.
    destruct (unsubscribe h w) as [w1 b]. cbn [fst] in *. auto with inv.
  - cbn [fst]. apply I_setSubscriptionCallback; exact H.
  - cbn [fst]. apply I_connectWebSocket; exact H.
  - destruct (wsManager w); cbn [fst];
      [apply I_manager_disconnect | apply I_subscriptions]; exact H.
Qed.

Lemma I_calls_now calls : forall w, Inv w -> Inv (fst (fst (calls_now calls w))).
Proof.
  induction calls as [|a calls IH]; intros w H; cbn [calls_now fst]; [exact H|].
  pose proof (I_call_now a H) as Ha.
  destruct (call_now a w) as [[w1 sends] clear]. cbn [fst] in Ha.
  pose proof (IH w1 Ha) as Hb.
  destruct (calls_now calls w1) as [[w2 sends'] clear']. exact Hb.
Qed.

Lemma I_resume_all sends : forall w,
  Inv w ->
  Inv (fold_left (fun w call => resume_connect mint (FromSubscribe call) None w) sends w).
Proof.
  induction sends as [|call sends IH]; intros w H; cbn [fold_left]; [exact H|].
  apply IH, I_resume_connect, H.
Qed.

Lemma I_block calls w : Inv w -> Inv (block mint calls w).
Proof.
  intros H. unfold block.
  pose proof (I_calls_now calls H) as Hc.
  destruct (calls_now calls w) as [[w1 sends] clear]. cbn [fst] in Hc.
  apply I_resume_all. destruct clear; auto with inv.
Qed.

Lemma I_step e w : Inv w -> Inv (step mint e w).
Proof.
  intros H.
  destruct e as [c method params http | c et ps | c h | h k | c | | i | i | i
                | i msg | i | n | n | closure | i | calls]; cbn [step].
  - pose proof (I_callRPC method params http H) as Hc.
    destruct (callRPC method params http w) as [w1 r]. auto with inv.
  - match goal with
    | |- context [subscribe mint ?c w] =>
        pose proof (I_subscribe c H) as Hs; destruct (subscribe mint c w) as [w1 r]
    end.
    cbn [fst] in Hs. destruct r; auto with inv.
  - pose proof (I_unsubscribe h H) as Hu.
    destruct (unsubscribe h w) as [w1 b]. auto with inv.
  - apply I_setSubscriptionCallback; exact H.
  - apply I_connectWebSocket; exact H.
  - apply I_disconnect; exact H.
  - apply I_on_open; exact H.
  - apply I_on_error; exact H.
  - apply I_on_close; exact H.
  - apply I_on_message; exact H.
  - apply I_on_connect_timeout; exact H.
  - apply I_checkConnection; exact H.
  - apply I_on_reconnect_timer; exact H.
  - apply I_on_subscribe_timeout; exact H.
  - apply I_on_fail; exact H.
  - apply I_block; exact H.
Qed.

Lemma I_run es : forall w, Inv w -> Inv (run mint es w).
Proof.
  unfold run. induction es as [|e es IH]; intros w H; cbn [fold_left]; [exact H|].
  apply IH, I_step, H.
Qed.

End Invariant.

(** The same for a property that the updates of the single fields keep,
    the counter, the handles and the log of frames included. *)
Section Setters.

Variable mint : nat -> string.
Variable Inv : World -> Prop.

Hypothesis S_subscriptions : forall x w, Inv w -> Inv (set_subscriptions x w).
Hypothesis S_requestId : forall w, Inv w -> Inv (next_requestId w).
Hypothesis S_sockets : forall x w, Inv w -> Inv (set_sockets x w).
Hypothesis S_pendings : forall x w, Inv w -> Inv (set_pendings x w).
Hypothesis S_waiters : forall x w, Inv w -> Inv (set_waiters x w).
Hypothesis S_minted : forall w, Inv w -> Inv (next_minted w).
Hypothesis S_sent : forall x w, Inv w -> Inv (log_sent x w).
Hypothesis S_emitted : forall x w, Inv w -> Inv (log_emitted x w).
Hypothesis S_outcome : forall c o w, Inv w -> Inv (log_outcome c o w).
Hypothesis S_manager : forall f w, manager_update f -> Inv w -> Inv (on_manager f w).
Hypothesis S_handleReconnection : forall w, Inv w -> Inv (handleReconnection w).
Hypothesis S_timer_fired : forall n w,
  Inv w ->
  Inv (set_reconnectTimers (update_nth n (fun t => (fst t, false)) (reconnectTimers w)) w).
Hypothesis S_delivered : forall x w m,
  wsManager w = Some m -> In ClientMessage (messageHandlers m) ->
  Inv w -> Inv (log_delivered x w).

#[local] Hint Constructors manager_update : inv.
#[local] Hint Resolve S_subscriptions S_requestId S_pendings S_minted S_sent S_manager : inv.

Lemma S_send p w w' : send p w = Some w' -> Inv w -> Inv w'.
Proof.
  unfold send. destruct (open_socket w); [|discriminate].
  intros E H. inversion E. auto with inv.
Qed.

Lemma S_subscribe_send call w : Inv w -> Inv (fst (subscribe_send mint call w)).
Proof.
  intros H. unfold subscribe_send. cbv zeta.
  match goal with
  | |- context [send ?p ?w3] => destruct (send p w3) as [w4|] eqn:E
  end; cbn [fst].
  - eapply S_send; [exact E|]. auto 10 with inv.
  - unfold on_pending. auto 10 with inv.
Qed.

Lemma S_callRPC method params http w : Inv w -> Inv (fst (callRPC method params http w)).
Proof.
  intros H. unfold callRPC. destruct (method =? "")%string; cbn [fst]; auto with inv.
Qed.

Lemma S_unsubscribe h w : Inv w -> Inv (fst (unsubscribe h w)).
Proof.
  intros H. unfold unsubscribe.
  destruct (SubMap.get h (subscriptions w)); [|exact H].
  destruct (wsManager w); [|exact H]. cbv zeta.
  match goal with
  | |- context [send ?p ?w1] => destruct (send p w1) as [w2|] eqn:E
  end; cbn [fst]; [|auto with inv].
  apply S_subscriptions. eapply S_send; [exact E|]. auto with inv.
Qed.

Lemma I_run_setters es w : Inv w -> Inv (run mint es w).
Proof.
  apply I_run; auto using S_callRPC, S_subscribe_send, S_unsubscribe.
Qed.

End Setters.

(* ------------------------------------------------------------------ *)
(** ** Request ids and the frames that carry them                       *)
(* ------------------------------------------------------------------ *)

Lemma accounted_same (w w' : World) :
  issued w' = issued w -> requestId w' = requestId w -> sent w' = sent w ->
  ids_accounted w -> ids_accounted w'.
Proof.
  unfold ids_accounted, ids_fresh, frame_ids. intros -> -> ->. auto.
Qed.

Lemma accounted_taken (w w' : World) :
  issued w' = issued w ++ [requestId w] -> requestId w' = requestId w + 1 ->
  sent w' = sent w ->
  ids_accounted w -> ids_accounted w'.
Proof.
  unfold ids_accounted, frame_ids. intros Hi Hr Hs (Hf & Hsorted & Hincl).
  rewrite Hs. split; [|split].
  - destruct (ids_fresh_next Hf) as [H1 H2]. cbn in H1, H2.
    unfold ids_fresh. rewrite Hi, Hr. split; assumption.
  - exact Hsorted.
  - rewrite Hi. apply incl_appl. exact Hincl.
Qed.

Lemma accounted_frame (w w' : World) (i : nat) (p : Payload) :
  issued w' = issued w ++ [requestId w] -> requestId w' = requestId w + 1 ->
  sent w' = sent w ++ [(i, p)] -> p_id p = requestId w ->
  ids_accounted w -> ids_accounted w'.
Proof.
  unfold ids_accounted, frame_ids. intros Hi Hr Hs Hp (Hf & Hsorted & Hincl).
  rewrite Hs, map_app. cbn [map snd]. rewrite Hp. split; [|split].
  - destruct (ids_fresh_next Hf) as [H1 H2]. cbn in H1, H2.
    unfold ids_fresh. rewrite Hi, Hr. split; assumption.
  - apply sorted_snoc; [exact Hsorted|].
    destruct Hf as [_ Hb]. rewrite Forall_forall in *. intros x Hx.
    apply Hb, Hincl, Hx.
  - rewrite Hi. apply incl_app; [apply incl_appl; exact Hincl|].
    intros x [<- | []]. apply in_or_app. right. left. reflexivity.
Qed.

Lemma accounted_callRPC (method : string) (params : list json) (http : HttpOutcome)
    (w : World) :
  ids_accounted w -> ids_accounted (fst (callRPC method params http w)).
Proof.
  intros H. unfold callRPC. destruct (method =? "")%string; cbn [fst]; [exact H|].
  apply (@accounted_taken w); auto.
Qed.

(** What [subscribe_send] does to the counter and to the log of frames. *)
Lemma subscribe_send_request (mint : nat -> string) (call : SubscribeCall) (w : World) :
  let w' := fst (subscribe_send mint call w) in
  issued w' = issued w ++ [requestId w] /\ requestId w' = requestId w + 1 /\
  match open_socket w with
  | Some i => sent w' = sent w ++ [(i, subscribe_payload call w)]
  | None => sent w' = sent w
  end.
Proof.
  cbv zeta. destruct (open_socket w) as [i|] eqn:Ho.
  - destruct (open_socket_manager w Ho) as (m & Hm).
    rewrite (@subscribe_send_open mint call w m i Hm Ho). cbn. auto.
  - unfold subscribe_send, send. cbv zeta.
    match goal with
    | |- context [open_socket ?w3] => assert (Ho3 : open_socket w3 = None)
    end.
    { rewrite <- Ho. unfold on_manager.
      apply open_socket_eq; cbn; destruct (wsManager w) eqn:Hm; cbn; rewrite ?Hm;
        reflexivity. }
    rewrite Ho3. unfold on_manager, on_pending. cbn.
    destruct (wsManager w); cbn; auto.
Qed.

Lemma accounted_subscribe_send (mint : nat -> string) (call : SubscribeCall) (w : World) :
  ids_accounted w -> ids_accounted (fst (subscribe_send mint call w)).
Proof.
  intros H. destruct (subscribe_send_request mint call w) as (Hi & Hr & Hs).
  destruct (open_socket w) as [i|].
  - exact (@accounted_frame w _ i _ Hi Hr Hs eq_refl H).
  - exact (@accounted_taken w _ Hi Hr Hs H).
Qed.

(** [unsubscribe], case by case. *)
Lemma unsubscribe_request (h : string) (w : World) :
  match SubMap.get h (subscriptions w), wsManager w with
  | Some subscription, Some _ =>
      match open_socket w with
      | Some i =>
          unsubscribe h w =
            (set_subscriptions (SubMap.delete h (subscriptions w))
               (log_sent (i, unsubscribe_payload subscription w) (next_requestId w)),
             true)
      | None => unsubscribe h w = (next_requestId w, false)
      end
  | _, _ => unsubscribe h w = (w, false)
  end.
Proof.
  unfold unsubscribe.
  destruct (SubMap.get h (subscriptions w)) as [subscription|]; [|reflexivity].
  destruct (wsManager w) as [m|] eqn:Hm; [|reflexivity]. cbv zeta. unfold send.
  assert (Ho : open_socket (next_requestId w) = open_socket w)
    by (apply open_socket_eq; reflexivity).
  rewrite Ho. destruct (open_socket w); reflexivity.
Qed.

Lemma accounted_unsubscribe (h : string) (w : World) :
  ids_accounted w -> ids_accounted (fst (unsubscribe h w)).
Proof.
  intros H. pose proof (unsubscribe_request h w) as Hu.
  destruct (SubMap.get h (subscriptions w)) as [subscription|];
    [|rewrite Hu; exact H].
  destruct (wsManager w); [|rewrite Hu; exact H].
  destruct (open_socket w) as [i|]; rewrite Hu; cbn [fst].
  - apply (@accounted_frame w _ i (unsubscribe_payload subscription w)); auto.
  - apply (@accounted_taken w); auto.
Qed.

Lemma accounted_handleReconnection (w : World) :
  ids_accounted w -> ids_accounted (handleReconnection w).
Proof.
  apply accounted_same; unfold handleReconnection, schedule_reconnect, on_manager;
    destruct (wsManager w) as [m|]; try reflexivity;
    destruct (reconnectAttempts m >=? maxReconnectAttempts m); reflexivity.
Qed.

Lemma accounted_run (mint : nat -> string) (es : list Event) (w : World) :
  ids_accounted w -> ids_accounted (run mint es w).
Proof.
  apply I_run.
  - intros x v. apply accounted_same; reflexivity.
  - intros x v. apply accounted_same; reflexivity.
  - intros x v. apply accounted_same; reflexivity.
  - intros x v. apply accounted_same; reflexivity.
  - intros x v. apply accounted_same; reflexivity.
  - intros c o v. apply accounted_same; reflexivity.
  - intros f v _. apply accounted_same; unfold on_manager; destruct (wsManager v);
      reflexivity.
  - exact accounted_handleReconnection.
  - intros n v. apply accounted_same; reflexivity.
  - intros x v m _ _. apply accounted_same; reflexivity.
  - intros method params http v. apply accounted_callRPC.
  - intros call v. apply accounted_subscribe_send.
  - intros h v. apply accounted_unsubscribe.
Qed.

Lemma subscribe_start_request (call : SubscribeCall) (w : World) :
  let w' := fst (subscribe_start call w) in
  requestId w' = requestId w /\ issued w' = issued w /\ sent w' = sent w /\
  subscriptions w' = subscriptions w /\ config w' = config w.
Proof.
  unfold subscribe_start, connect, on_manager. cbv zeta.
  destruct (wsManager w) as [m|] eqn:Hm; [|cbn; auto].
  destruct (SubMap.size (subscriptions w) >=? maxSubscriptions (config w)); [cbn; auto|].
  destruct (open_socket w); [cbn; auto|].
  destruct (isConnecting m); cbn; auto.
Qed.

(** C8 (as amended).  Along every sequence of operations and events on one
    client, each operation that sends a request takes the id of its frame
    from the counter and increments the counter: [callRPC] with a method
    does exactly that and nothing else; [unsubscribe] of a known handle
    does it whether or not its frame can be sent, and besides sends the
    frame and deletes the entry; the part of [subscribe] that sends does
    it too, while the part before takes no id.  Hence the ids taken are
    strictly increasing and below the counter, and the frames sent carry
    ids that were taken, each frame a greater id than the frames before
    it.  [subscribe] changes the connection manager as well (see the
    counterexample), never the configuration. *)
Theorem request_ids_increase (mint : nat -> string) (cfg : Config) (es : list Event) :
  let w := run mint es (new_client cfg) in
  (StronglySorted Z.lt (issued w) /\ Forall (fun x => x < requestId w) (issued w))
  /\ (StronglySorted Z.lt (frame_ids w) /\ incl (frame_ids w) (issued w))
  /\ config w = cfg
  /\ (forall method params http,
        method <> "" ->
        fst (callRPC method params http w) = next_requestId w)
  /\ (forall h subscription m,
        SubMap.get h (subscriptions w) = Some subscription ->
        wsManager w = Some m ->
        match open_socket w with
        | Some i =>
            unsubscribe h w =
              (set_subscriptions (SubMap.delete h (subscriptions w))
                 (log_sent (i, {| p_id := requestId w; p_method := "eth_unsubscribe";
                                  p_params := [sub_id subscription] |})
                    (next_requestId w)),
               true)
        | None => unsubscribe h w = (next_requestId w, false)
        end)
  /\ (forall call,
        let w' := fst (subscribe_send mint call w) in
        issued w' = issued w ++ [requestId w]
        /\ requestId w' = requestId w + 1
        /\ match open_socket w with
           | Some i =>
               sent w' = sent w ++ [(i, {| p_id := requestId w; p_method := "eth_subscribe";
                                           p_params := [JStr (call_eventType call);
                                                        call_params call] |})]
           | None => sent w' = sent w
           end
        /\ subscriptions w' = subscriptions w /\ config w' = config w)
  /\ (forall call,
        let w' := fst (subscribe_start call w) in
        requestId w' = requestId w /\ issued w' = issued w /\ sent w' = sent w
        /\ subscriptions w' = subscriptions w /\ config w' = config w)
  /\ (forall e, config (step mint e w) = config w).
Proof.
  intros w.
  assert (Hnew : ids_accounted (new_client cfg)).
  { split; [apply ids_fresh_new_client|]. unfold frame_ids. cbn.
    split; [constructor | intros x []]. }
  destruct (@accounted_run mint es (new_client cfg) Hnew) as ((Hs & Hb) & Hf & Hincl).
  split; [split; assumption|]. split; [split; assumption|].
  split; [apply (config_run mint es (new_client cfg))|].
  split; [|split; [|split; [|split]]].
  - intros method params http Hne. unfold callRPC.
    destruct (String.eqb_spec method ""); [contradiction | reflexivity].
  - intros h subscription m Hg Hm. pose proof (unsubscribe_request h w) as Hu.
    rewrite Hg, Hm in Hu. exact Hu.
  - intros call w'. subst w'.
    destruct (subscribe_send_request mint call w) as (Hi & Hr & Hsent).
    split; [exact Hi|]. split; [exact Hr|]. split; [exact Hsent|].
    unfold subscribe_send, send, on_manager, on_pending. cbv zeta.
    cbn [wsManager set_pendings next_requestId next_minted].
    destruct (wsManager w) as [m|];
      match goal with
      | |- context [open_socket ?w3] => destruct (open_socket w3)
      end; cbn; auto.
  - intros call. apply subscribe_start_request.
  - intros e. apply (config_run mint [e] w).
Qed.

(* ------------------------------------------------------------------ *)
(** ** After disconnect                                                 *)
(* ------------------------------------------------------------------ *)

Lemma In_remove_first (h x : Handler) (l : list Handler) :
  In x (remove_first h l) -> In x l.
Proof.
  induction l as [|y l IH]; cbn; [auto|].
  destruct (handler_eqb y h); cbn; intuition.
Qed.

Lemma quiet_manager_update (f : WebSocketManager -> WebSocketManager) (w : World) :
  manager_update f -> quiet w -> quiet (on_manager f w).
Proof.
  intros Hf. unfold quiet, on_manager.
  destruct (wsManager w) as [m|] eqn:Hm; [|rewrite Hm; auto].
  cbn [wsManager set_wsManager]. intros [Hno Hr].
  destruct Hf; cbn [messageHandlers reconnectedHandler set_connection set_isConnecting
                      set_heartbeatInterval set_reconnectAttempts set_messageHandlers
                      set_reconnectedHandler]; (split; [|auto]); auto.
  - rewrite in_app_iff. intros [Hi | [Hi | []]]; [auto | discriminate].
  - intros Hi. apply Hno. eapply In_remove_first. exact Hi.
Qed.

Lemma delivered_on_manager (f : WebSocketManager -> WebSocketManager) (w : World) :
  delivered (on_manager f w) = delivered w.
Proof. unfold on_manager. destruct (wsManager w); reflexivity. Qed.

Lemma quiet_handleReconnection (w : World) :
  (quiet w -> quiet (handleReconnection w)) /\
  delivered (handleReconnection w) = delivered w.
Proof.
  unfold handleReconnection, quiet. destruct (wsManager w) as [m|] eqn:Hm.
  - destruct (reconnectAttempts m >=? maxReconnectAttempts m).
    + cbn. rewrite Hm. auto.
    + unfold schedule_reconnect, on_manager. rewrite Hm. cbn. auto.
  - rewrite Hm. auto.
Qed.

Lemma quiet_disconnect (w : World) : quiet (disconnect w).
Proof.
  unfold disconnect, manager_disconnect, quiet. cbv zeta. cbn [wsManager set_subscriptions].
  match goal with
  | |- context [on_manager ?f ?w2] => generalize w2
  end.
  intros w2. unfold on_manager. destruct (wsManager w2) as [m|] eqn:Hm; cbn.
  - auto.
  - rewrite Hm. exact I.
Qed.

(** X10.  After [disconnect()] no notification is delivered again.  The call
    removes the client's listeners from the manager and nothing registers
    them anew, so whatever happens later, new subscriptions and
    reconnections included, no callback is called and no resubscription is
    started by a "reconnected" event. *)
Theorem nothing_delivered_after_disconnect (mint : nat -> string) (es : list Event)
    (w : World) :
  let w' := run mint es (step mint Disconnect w) in
  delivered w' = delivered w /\ quiet w'.
Proof.
  cbv zeta.
  assert (H : (fun x => quiet x /\ delivered x = delivered w)
                (run mint es (step mint Disconnect w))).
  { apply I_run_setters.
    - intros x v [Hq Hd]. split; assumption.
    - intros v [Hq Hd]. split; assumption.
    - intros x v [Hq Hd]. split; assumption.
    - intros x v [Hq Hd]. split; assumption.
    - intros x v [Hq Hd]. split; assumption.
    - intros v [Hq Hd]. split; assumption.
    - intros x v [Hq Hd]. split; assumption.
    - intros x v [Hq Hd]. split; assumption.
    - intros c o v [Hq Hd]. split; assumption.
    - intros f v Hf [Hq Hd]. split; [apply quiet_manager_update; assumption|].
      rewrite delivered_on_manager. exact Hd.
    - intros v [Hq Hd]. destruct (quiet_handleReconnection v) as [H1 H2].
      split; [auto | congruence].
    - intros n v [Hq Hd]. split; assumption.
    - intros x v m Hm Hin [Hq Hd]. unfold quiet in Hq. rewrite Hm in Hq.
      destruct Hq as [Hno _]. contradiction.
    - cbn [step]. split; [apply quiet_disconnect|].
      unfold disconnect, manager_disconnect. cbv zeta. cbn [delivered set_subscriptions].
      rewrite delivered_on_manager.
      destruct (wsManager (on_manager (set_heartbeatInterval false) w)) as [m|] eqn:Hm.
      + destruct (connection m); rewrite ?delivered_on_manager; unfold on_socket;
          cbn [delivered set_sockets]; rewrite ?delivered_on_manager; reflexivity.
      + apply delivered_on_manager. }
  destruct H as [Hq Hd]. split; assumption.
Qed.

(* ------------------------------------------------------------------ *)
(** ** The backoff over whole runs                                      *)
(* ------------------------------------------------------------------ *)

Lemma Forall_update_nth (A : Type) (Q : A -> Prop) (f : A -> A) (l : list A) :
  (forall x, Q x -> Q (f x)) -> forall n, Forall Q l -> Forall Q (update_nth n f l).
Proof.
  intros Hf. induction l as [|x l IH]; intros n H; destruct n; cbn; auto;
    inversion H; subst; constructor; auto.
Qed.

Lemma backoff_manager_update (f : WebSocketManager -> WebSocketManager) (w : World) :
  manager_update f -> backoff_bounded w -> backoff_bounded (on_manager f w).
Proof.
  intros Hf. unfold backoff_bounded, on_manager. destruct (wsManager w) as [m|] eqn:Hm.
  - cbn [wsManager set_wsManager reconnectTimers]. intros [Hb Ht]. split; [|exact Ht].
    destruct Hf; cbn; try exact Hb. lia.
  - rewrite Hm. auto.
Qed.

Lemma backoff_handleReconnection (w : World) :
  backoff_bounded w -> backoff_bounded (handleReconnection w).
Proof.
  unfold handleReconnection, backoff_bounded. destruct (wsManager w) as [m|] eqn:Hm.
  - intros [(Ha & Hmax & Hdelay) Ht].
    destruct (reconnectAttempts m >=? maxReconnectAttempts m) eqn:E.
    + cbn. rewrite Hm. auto.
    + rewrite Z.geb_leb in E. apply Z.leb_gt in E.
      unfold schedule_reconnect, on_manager. rewrite Hm. cbn. split; [lia|].
      apply Forall_app. split; [exact Ht|]. constructor; [|constructor]. cbn [fst].
      rewrite Hdelay.
      assert (Hc : reconnectAttempts m = 0 \/ reconnectAttempts m = 1 \/
                   reconnectAttempts m = 2 \/ reconnectAttempts m = 3 \/
                   reconnectAttempts m = 4) by lia.
      destruct Hc as [-> | [-> | [-> | [-> | ->]]]]; cbn; auto 6.
  - rewrite Hm. auto.
Qed.

(** X11.  Over every run of a client the reconnection counter stays between 0
    and 5, and every reconnection timer that is set has a delay of 1, 2,
    4, 8 or 16 seconds. *)
Theorem backoff_delays_bounded (mint : nat -> string) (cfg : Config) (es : list Event) :
  let w := run mint es (new_client cfg) in
  (forall m, wsManager w = Some m -> 0 <= reconnectAttempts m <= 5) /\
  (forall delay armed, In (delay, armed) (reconnectTimers w) ->
     In delay [1000; 2000; 4000; 8000; 16000]).
Proof.
  cbv zeta.
  assert (H : backoff_bounded (run mint es (new_client cfg))).
  { apply I_run_setters; try (intros; assumption).
    - intros f v Hf Hv. apply backoff_manager_update; assumption.
    - apply backoff_handleReconnection.
    - intros n v [Hb Ht]. split; [exact Hb|]. cbn [reconnectTimers set_reconnectTimers].
      apply Forall_update_nth; [|exact Ht]. intros [d b] Hd. exact Hd.
    - unfold backoff_bounded, new_client. cbn. split; [|constructor].
      destruct (megaethWsUrl cfg) as [url|]; [|exact I].
      destruct (url =? "")%string; [exact I|]. cbn. lia. }
  destruct H as [Hb Ht]. split.
  - intros m Hm. rewrite Hm in Hb. lia.
  - intros delay armed Hin. rewrite Forall_forall in Ht. exact (Ht _ Hin).
Qed.

(* ------------------------------------------------------------------ *)
(** ** Hexadecimal strings                                              *)
(* ------------------------------------------------------------------ *)

Lemma digit_value_hex_digit (d : Z) : 0 <= d < 16 -> digit_value (hex_digit d) = Some d.
Proof.
  intros H.
  assert (Hd : d = 0 \/ d = 1 \/ d = 2 \/ d = 3 \/ d = 4 \/ d = 5 \/ d = 6 \/ d = 7 \/
               d = 8 \/ d = 9 \/ d = 10 \/ d = 11 \/ d = 12 \/ d = 13 \/ d = 14 \/ d = 15)
    by lia.
  repeat (destruct Hd as [-> | Hd]; [reflexivity|]). subst. reflexivity.
Qed.

(** Reading back the digits written by [hex_of] in front of [acc]. *)
Lemma parse_digits_hex_of (fuel : nat) :
  forall (n : Z) (acc : string),
    0 <= n < 16 ^ Z.of_nat (S fuel) ->
    parse_digits (hex_of (S fuel) n acc) None = parse_digits acc (Some n).
Proof.
  induction fuel as [|fuel IH]; intros n acc Hn.
  - change (16 ^ Z.of_nat 1) with 16 in Hn.
    cbn [hex_of]. rewrite Z.mod_small by lia.
    assert (E : (if n <? 16 then String (hex_digit n) acc else String (hex_digit n) acc)
                = String (hex_digit n) acc) by (destruct (n <? 16); reflexivity).
    rewrite E. cbn [parse_digits]. rewrite digit_value_hex_digit by lia.
    apply f_equal. apply f_equal. lia.
  - change (hex_of (S (S fuel)) n acc)
      with (if n <? 16 then String (hex_digit (n mod 16)) acc
            else hex_of (S fuel) (n / 16) (String (hex_digit (n mod 16)) acc)).
    destruct (n <? 16) eqn:E.
    + apply Z.ltb_lt in E. rewrite Z.mod_small by lia.
      cbn [parse_digits]. rewrite digit_value_hex_digit by lia. apply f_equal. apply f_equal. lia.
    + apply Z.ltb_ge in E.
      assert (Hq : 0 <= n / 16 < 16 ^ Z.of_nat (S fuel)).
      { split; [apply Z.div_pos; lia|].
        apply Z.div_lt_upper_bound; [lia|].
        replace (Z.of_nat (S (S fuel))) with (1 + Z.of_nat (S fuel)) in Hn by lia.
        rewrite Z.pow_add_r in Hn by lia. lia. }
      rewrite (IH (n / 16) _ Hq). cbn [parse_digits].
      rewrite digit_value_hex_digit by (apply Z.mod_pos_bound; lia).
      apply f_equal. apply f_equal. pose proof (Z.div_mod n 16). lia.
Qed.

Lemma hex_fuel (n : Z) : 0 <= n -> n < 16 ^ Z.of_nat (S (Z.to_nat (Z.log2 n))).
Proof.
  intros Hn. rewrite Nat2Z.inj_succ, Z2Nat.id by apply Z.log2_nonneg.
  destruct (Z.eq_dec n 0) as [->|Hz]; [reflexivity|].
  pose proof (Z.log2_spec n ltac:(lia)) as [_ Hlt].
  eapply Z.lt_le_trans; [exact Hlt|].
  pose proof (Z.log2_nonneg n).
  change 16 with (2 ^ 4). rewrite <- Z.pow_mul_r by lia.
  apply Z.pow_le_mono_r; lia.
Qed.

Lemma is_digit_hex_digit (d : Z) : is_digit (hex_digit (d mod 16)).
Proof.
  unfold is_digit. rewrite digit_value_hex_digit by (apply Z.mod_pos_bound; lia).
  discriminate.
Qed.

(** A character that is a digit is no white space, no sign and no [x]. *)
Lemma digit_plain (c : ascii) :
  is_digit c ->
  is_space c = false /\ c <> "-"%char /\ c <> "+"%char /\ c <> "x"%char /\ c <> "X"%char.
Proof.
  intros H. repeat split; try (intros ->; apply H; reflexivity).
  destruct c as [[] [] [] [] [] [] [] []]; try reflexivity; exfalso; apply H; reflexivity.
Qed.

Lemma hex_of_digits_first (fuel : nat) :
  forall (n : Z) (acc : string),
    match acc with String c _ => is_digit c | EmptyString => True end ->
    digits_first (hex_of (S fuel) n acc).
Proof.
  induction fuel as [|fuel IH]; intros n acc Hacc.
  - cbn [hex_of]. destruct (n <? 16); split; auto using is_digit_hex_digit.
  - change (hex_of (S (S fuel)) n acc)
      with (if n <? 16 then String (hex_digit (n mod 16)) acc
            else hex_of (S fuel) (n / 16) (String (hex_digit (n mod 16)) acc)).
    destruct (n <? 16).
    + split; auto using is_digit_hex_digit.
    + apply IH. apply is_digit_hex_digit.
Qed.

Lemma parseInt16_digits (s : string) :
  digits_first s ->
  parseInt16 s = parse_digits s None /\
  parseInt16 ("0x" ++ s) = parse_digits s None /\
  parseInt16 ("-" ++ s) = option_map Z.opp (parse_digits s None) /\
  parseInt16 ("0x-" ++ s) = None.
Proof.
  destruct s as [|c rest]; [intros []|]. intros [Hc Hrest].
  destruct (@digit_plain c Hc) as (Hsp & Hm & Hp & Hcx & HcX).
  apply Ascii.eqb_neq in Hm, Hp. rewrite Ascii.eqb_sym in Hm, Hp.
  assert (Hstrip : starts_with "0x" (String c rest) || starts_with "0X" (String c rest)
                   = false).
  { destruct rest as [|c2 rest'].
    - cbn [starts_with]. rewrite !andb_false_r. reflexivity.
    - destruct (@digit_plain c2 Hrest) as (_ & _ & _ & Hx & HX).
      apply Ascii.eqb_neq in Hx, HX. rewrite Ascii.eqb_sym in Hx, HX.
      cbn [starts_with]. rewrite Hx, HX, !andb_false_l, !andb_false_r. reflexivity. }
  assert (Hd : exists d, digit_value c = Some d).
  { destruct (digit_value c) as [d|] eqn:E; [eauto | destruct (Hc E)]. }
  destruct Hd as [d Hd].
  assert (Hsome : exists v, parse_digits (String c rest) None = Some v).
  { cbn [parse_digits]. rewrite Hd.
    generalize (16 * 0 + d). clear. induction rest as [|c2 rest IH]; intros a; cbn.
    - eauto.
    - destruct (digit_value c2); eauto. }
  destruct Hsome as [v Hv].
  split; [|split; [|split]].
  - assert (Hs1 : starts_with "-" (String c rest) = false)
      by (cbn [starts_with]; rewrite Hm; reflexivity).
    assert (Hs2 : starts_with "+" (String c rest) = false)
      by (cbn [starts_with]; rewrite Hp; reflexivity).
    unfold parseInt16. cbn [trim_start]. rewrite Hsp, Hs1, Hs2. cbn [orb].
    rewrite Hstrip, Hv. reflexivity.
  - unfold parseInt16. cbv zeta.
    change ("0x" ++ String c rest)%string with (String "0" (String "x" (String c rest))).
    change (trim_start (String "0" (String "x" (String c rest))))
      with (String "0" (String "x" (String c rest))).
    change (starts_with "-" (String "0" (String "x" (String c rest)))) with false.
    change (starts_with "+" (String "0" (String "x" (String c rest)))) with false.
    cbn [orb].
    change (starts_with "0x" (String "0" (String "x" (String c rest)))) with true.
    cbn [orb skip]. rewrite Hv. reflexivity.
  - unfold parseInt16. cbv zeta.
    change ("-" ++ String c rest)%string with (String "-" (String c rest)).
    change (trim_start (String "-" (String c rest))) with (String "-" (String c rest)).
    change (starts_with "-" (String "-" (String c rest))) with true.
    cbn [orb skip]. rewrite Hstrip, Hv. reflexivity.
  - unfold parseInt16. cbv zeta.
    change ("0x-" ++ String c rest)%string
      with (String "0" (String "x" (String "-" (String c rest)))).
    change (trim_start (String "0" (String "x" (String "-" (String c rest)))))
      with (String "0" (String "x" (String "-" (String c rest)))).
    change (starts_with "-" (String "0" (String "x" (String "-" (String c rest))))) with false.
    change (starts_with "+" (String "0" (String "x" (String "-" (String c rest))))) with false.
    cbn [orb].
    change (starts_with "0x" (String "0" (String "x" (String "-" (String c rest))))) with true.
    cbn [orb skip]. reflexivity.
Qed.

(** [toString16] and [parseInt16] are inverse to each other; behind [0x]
    only for a number that is not negative. *)
Lemma parseInt16_toString16 (n : Z) :
  parseInt16 (toString16 n) = Some n /\
  (0 <= n -> parseInt16 ("0x" ++ toString16 n) = Some n) /\
  (n < 0 -> parseInt16 ("0x" ++ toString16 n) = None).
Proof.
  unfold toString16. destruct (n <? 0) eqn:E.
  - apply Z.ltb_lt in E.
    pose proof (@hex_of_digits_first (Z.to_nat (Z.log2 (- n))) (- n) "" I) as Hd.
    destruct (@parseInt16_digits _ Hd) as (_ & _ & Hneg & Hx).
    assert (Hpos : 0 <= - n) by lia.
    pose proof (@parse_digits_hex_of (Z.to_nat (Z.log2 (- n))) (- n) ""
                  (conj Hpos (@hex_fuel (- n) Hpos))) as Hp.
    cbn [parse_digits] in Hp.
    split; [|split].
    + rewrite Hneg, Hp. cbn. f_equal. lia.
    + lia.
    + intros _. exact Hx.
  - apply Z.ltb_ge in E.
    pose proof (@hex_of_digits_first (Z.to_nat (Z.log2 n)) n "" I) as Hd.
    destruct (@parseInt16_digits _ Hd) as (Hplain & Hx & _).
    pose proof (@parse_digits_hex_of (Z.to_nat (Z.log2 n)) n ""
                  (conj E (@hex_fuel n E))) as Hp.
    cbn [parse_digits] in Hp.
    split; [|split].
    + rewrite Hplain. exact Hp.
    + intros _. rewrite Hx. exact Hp.
    + lia.
Qed.

(* ------------------------------------------------------------------ *)
(** ** The calls over HTTP                                              *)
(* ------------------------------------------------------------------ *)

(** An answer with a [result] member and no [error] member. *)
Lemma callRPC_result (method : string) (params : list json) (v : json) (w : World) :
  method <> "" ->
  callRPC method params (HttpData (JObj [("result", v)])) w = (next_requestId w, Ok v).
Proof.
  intros H. unfold callRPC. destruct (String.eqb_spec method ""); [congruence|]. reflexivity.
Qed.

Lemma callRPC_step (method : string) (params : list json) (http : HttpOutcome) (w : World) :
  method <> "" ->
  callRPC method params http w =
    (next_requestId w, rpc_catch method params (rpc_try params http)).
Proof.
  intros H. unfold callRPC. destruct (String.eqb_spec method ""); [congruence|]. reflexivity.
Qed.

(** Numbers below 2^53 are the integers themselves and are written with
    all their digits. *)
Lemma to_number_small (z : Z) : Z.abs z < 2 ^ 53 -> to_number z = Finite z.
Proof.
  intros H. unfold to_number. cbv zeta.
  destruct (Z.ltb_spec (Z.abs z) (2 ^ 53)); [reflexivity | lia].
Qed.

Lemma number_string_small (z : Z) :
  Z.abs z < 2 ^ 53 -> number_string (to_number z) = decimal z.
Proof.
  intros H. rewrite (to_number_small z H). unfold number_string. cbv zeta.
  destruct (Z.ltb_spec (Z.abs z) (2 ^ 53)); [reflexivity | lia].
Qed.

Lemma to_number_cases (z : Z) :
  (exists v, to_number z = Finite v) \/ (exists s, to_number z = Infinity s).
Proof.
  unfold to_number. cbv zeta.
  destruct (Z.abs z <? 2 ^ 53); [left; eexists; reflexivity|].
  match goal with |- context [2 ^ 1024 <=? ?v] => destruct (2 ^ 1024 <=? v) end;
    [right | left]; eexists; reflexivity.
Qed.

(** On the numbers of integers [===] is equality. *)
Lemma number_eqb_to_number (a b : Z) :
  number_eqb (to_number a) (to_number b) = true <-> to_number a = to_number b.
Proof.
  destruct (to_number_cases a) as [[x ->] | [x ->]],
           (to_number_cases b) as [[y ->] | [y ->]]; cbn [number_eqb].
  - rewrite Z.eqb_eq. split; [intros ->; reflexivity | intros H; inversion H; reflexivity].
  - split; discriminate.
  - split; discriminate.
  - rewrite Bool.eqb_true_iff.
    split; [intros ->; reflexivity | intros H; inversion H; reflexivity].
Qed.

Lemma parseInt_toString16 (n : Z) :
  0 <= n -> parseInt ("0x" ++ toString16 n) = to_number n.
Proof.
  intros Hn. unfold parseInt.
  destruct (parseInt16_toString16 n) as (_ & Hx & _). rewrite (Hx Hn). reflexivity.
Qed.

(** What [validateConnection] makes of the hexadecimal string of [n]. *)
Lemma validateConnection_hex (megaethChainId : option Z) (n : Z) (w : World) :
  0 <= n ->
  validateConnection megaethChainId
    (HttpData (JObj [("result", JStr ("0x" ++ toString16 n))])) w =
  (next_requestId w,
   match megaethChainId with
   | None => Ok JUndefined
   | Some expected =>
       if (expected =? 0) || number_eqb (to_number n) (to_number expected)
       then Ok JUndefined
       else Err (Plain ("Failed to validate MegaETH connection: Chain ID mismatch: expected "
                        ++ number_string (to_number expected) ++ ", got "
                        ++ number_string (to_number n)) None)
   end).
Proof.
  intros Hn. unfold validateConnection.
  rewrite callRPC_result by discriminate.
  destruct megaethChainId as [expected|]; [|reflexivity].
  cbn [to_string]. rewrite (parseInt_toString16 Hn).
  destruct (expected =? 0); [reflexivity|]. cbn [negb andb orb].
  destruct (number_eqb (to_number n) (to_number expected)); reflexivity.
Qed.

(** X12.  validateConnection, the chain id check.  When the node answers
    [eth_chainId] with the hexadecimal string of [n], the call resolves if
    no chain id is configured, if the configured id is 0, or if the
    configured id and [n] are the same number: the same integer when both
    are below 2^53, the same after rounding to 53 significant bits
    otherwise, so that the answer 2^53 + 1 passes for the id 2^53.
    Otherwise it is rejected with a plain error that names both numbers as
    [String] writes them: with all their decimal digits below 2^53, with
    the shortest digits that read back above (1152921504606847000 for
    2^60) and in exponent form from 10^21 on (1e+21).  The error carries
    neither [rpcMethod] nor [rpcParams].  One request id is used. *)
Theorem validateConnection_hex_answer (megaethChainId : option Z) (n : Z) (w : World) :
  0 <= n ->
  let answer := validateConnection megaethChainId
                  (HttpData (JObj [("result", JStr ("0x" ++ toString16 n))])) w in
  fst answer = next_requestId w /\
  (megaethChainId = None \/ megaethChainId = Some 0 -> snd answer = Ok JUndefined) /\
  (forall expected,
     megaethChainId = Some expected -> to_number n = to_number expected ->
     snd answer = Ok JUndefined) /\
  (forall expected,
     megaethChainId = Some expected -> expected <> 0 ->
     to_number n <> to_number expected ->
     snd answer =
       Err (Plain ("Failed to validate MegaETH connection: Chain ID mismatch: expected "
                   ++ number_string (to_number expected) ++ ", got "
                   ++ number_string (to_number n)) None)) /\
  (forall expected,
     megaethChainId = Some expected -> expected <> 0 -> expected <> n ->
     Z.abs expected < 2 ^ 53 -> n < 2 ^ 53 ->
     snd answer =
       Err (Plain ("Failed to validate MegaETH connection: Chain ID mismatch: expected "
                   ++ decimal expected ++ ", got " ++ decimal n) None)) /\
  snd (validateConnection (Some 1)
         (HttpData (JObj [("result", JStr ("0x" ++ toString16 (10 ^ 21)))])) w) =
    Err (Plain "Failed to validate MegaETH connection: Chain ID mismatch: expected 1, got 1e+21"
           None) /\
  snd (validateConnection (Some (2 ^ 60))
         (HttpData (JObj [("result", JStr ("0x" ++ toString16 5))])) w) =
    Err (Plain ("Failed to validate MegaETH connection: Chain ID mismatch: "
                ++ "expected 1152921504606847000, got 5") None).
Proof.
  intros Hn answer. subst answer. rewrite (@validateConnection_hex megaethChainId n w Hn).
  cbn [fst snd]. split; [reflexivity|].
  assert (Hreject : forall expected, expected <> 0 ->
            to_number n <> to_number expected ->
            (expected =? 0) || number_eqb (to_number n) (to_number expected) = false).
  { intros expected H0 Hne. destruct (Z.eqb_spec expected 0); [contradiction|].
    cbn [orb]. destruct (number_eqb (to_number n) (to_number expected)) eqn:E;
      [|reflexivity].
    apply number_eqb_to_number in E. contradiction. }
  split; [|split; [|split; [|split; [|split]]]].
  - intros [-> | ->]; reflexivity.
  - intros expected -> Heq.
    apply number_eqb_to_number in Heq. rewrite Heq, orb_true_r. reflexivity.
  - intros expected -> H0 Hne. rewrite (Hreject expected H0 Hne). reflexivity.
  - intros expected -> H0 Hne He Hn53.
    assert (Hn' : Z.abs n < 2 ^ 53) by lia.
    rewrite Hreject; [|exact H0|].
    + rewrite (number_string_small expected He), (number_string_small n Hn').
      reflexivity.
    + rewrite (to_number_small expected He), (to_number_small n Hn').
      intros E. inversion E. congruence.
  - assert (Hbig : 0 <= 10 ^ 21) by (vm_compute; discriminate).
    rewrite (@validateConnection_hex (Some 1) (10 ^ 21) w Hbig). cbn [snd].
    vm_compute. reflexivity.
  - assert (Hfive : 0 <= 5) by lia.
    rewrite (@validateConnection_hex (Some (2 ^ 60)) 5 w Hfive). cbn [snd].
    vm_compute. reflexivity.
Qed.

Lemma validateConnection_hex_answer_witness :
  snd (validateConnection (Some 1337)
         (HttpData (JObj [("result", JStr ("0x" ++ toString16 1337))]))
         (new_client Sample.http_only)) = Ok JUndefined /\
  snd (validateConnection (Some 1337)
         (HttpData (JObj [("result", JStr ("0x" ++ toString16 1))]))
         (new_client Sample.http_only)) =
    Err (Plain ("Failed to validate MegaETH connection: Chain ID mismatch: expected "
                ++ decimal 1337 ++ ", got " ++ decimal 1) None) /\
  snd (validateConnection (Some (2 ^ 53))
         (HttpData (JObj [("result", JStr ("0x" ++ toString16 (2 ^ 53 + 1)))]))
         (new_client Sample.http_only)) = Ok JUndefined.
Proof.
  assert (H1337 : 0 <= 1337) by lia.
  assert (H1 : 0 <= 1) by lia.
  assert (Hbig : 0 <= 2 ^ 53 + 1) by lia.
  split; [|split].
  - destruct (@validateConnection_hex_answer (Some 1337) 1337
                (new_client Sample.http_only) H1337) as (_ & _ & H & _).
    apply (H 1337); reflexivity.
  - destruct (@validateConnection_hex_answer (Some 1337) 1
                (new_client Sample.http_only) H1) as (_ & _ & _ & _ & H & _).
    apply (H 1337); [reflexivity | discriminate | discriminate | reflexivity | reflexivity].
  - destruct (@validateConnection_hex_answer (Some (2 ^ 53)) (2 ^ 53 + 1)
                (new_client Sample.http_only) Hbig) as (_ & _ & H & _).
    apply (H (2 ^ 53)); [reflexivity | vm_compute; reflexivity].
Defined.

(** X13.  validateConnection, its failures.  Whatever goes wrong, a
    classified RPC error included, the caller gets a plain error whose
    message is "Failed to validate MegaETH connection: " followed by the
    message of what went wrong, and which carries neither [rpcMethod] nor
    [rpcParams]; without a configured chain id, or with the id 0, every
    answer that has a result is accepted, whatever the result is. *)
Theorem validateConnection_failures (megaethChainId : option Z) (http : HttpOutcome)
    (w : World) :
  (forall e, snd (validateConnection megaethChainId http w) = Err e ->
     (exists text, e = Plain ("Failed to validate MegaETH connection: " ++ text) None) /\
     rpcMethod e = None /\ rpcParams e = None) /\
  (forall t, snd (callRPC "eth_chainId" [] http w) = Err t ->
     snd (validateConnection megaethChainId http w) =
       Err (Plain ("Failed to validate MegaETH connection: " ++ thrown_message t) None)) /\
  (forall v, megaethChainId = None \/ megaethChainId = Some 0 ->
     snd (validateConnection megaethChainId (HttpData (JObj [("result", v)])) w)
       = Ok JUndefined).
Proof.
  split; [|split].
  - intros e. unfold validateConnection.
    destruct (callRPC "eth_chainId" [] http w) as [w1 [v|t]]; cbn [snd].
    + destruct megaethChainId as [expected|]; [|discriminate].
      destruct (negb (expected =? 0) && _); [|discriminate].
      intros H. inversion H. split; [eexists; reflexivity | split; reflexivity].
    + intros H. inversion H. split; [eexists; reflexivity | split; reflexivity].
  - intros t. unfold validateConnection.
    destruct (callRPC "eth_chainId" [] http w) as [w1 r]. cbn [snd]. intros ->. reflexivity.
  - intros v H. unfold validateConnection. rewrite callRPC_result by discriminate.
    destruct H as [-> | ->]; reflexivity.
Qed.

(** X14.  isMegaETHChain.  The call never fails and uses one request id.
    On an error answer of the node with message text [m] it resolves to
    [true] when [m] is empty, when [m] is one of the two classified texts,
    or when [m] does not contain "method not found", and to [false]
    otherwise; on an answer with a result it resolves to [false]; on a
    transport failure with message [s] it resolves to the empty string
    itself when [s] is empty and otherwise to whether [s] does not contain
    "method not found". *)
Theorem isMegaETHChain_verdict (w : World) :
  (forall data error m,
     nullish data = false -> field "error" data = error -> truthy error = true ->
     field "message" error = JStr m ->
     isMegaETHChain (HttpData data) w =
       (next_requestId w,
        JBool ((m =? "")%string
               || includes m "realtime transaction expired"
               || includes m "mini block not found"
               || negb (includes m "method not found")))) /\
  (forall v, isMegaETHChain (HttpData (JObj [("result", v)])) w
             = (next_requestId w, JBool false)) /\
  (forall s, isMegaETHChain (HttpRejected s) w =
             (next_requestId w,
              if (s =? "")%string then JStr ""
              else JBool (negb (includes s "method not found")))).
Proof.
  split; [|split].
  - intros data error m Hn He Ht Hm. unfold isMegaETHChain.
    rewrite callRPC_step by discriminate.
    rewrite (@rpc_try_error_text [] data error m Hn He Ht Hm).
    destruct m as [|a m']; [reflexivity|].
    change ((String a m' =? "")%string) with false. cbn [orb].
    destruct (includes (String a m') "realtime transaction expired"); [reflexivity|].
    destruct (includes (String a m') "mini block not found"); [reflexivity|].
    reflexivity.
  - intros v. unfold isMegaETHChain. rewrite callRPC_result by discriminate. reflexivity.
  - intros s. unfold isMegaETHChain. rewrite callRPC_step by discriminate.
    cbn [rpc_try rpc_catch snd thrown_message].
    destruct (String.eqb_spec s ""); [subst|]; reflexivity.
Qed.

Lemma isMegaETHChain_verdict_witness :
  isMegaETHChain
    (HttpData (JObj [("error", JObj [("message", JStr "method not found")])]))
    (new_client Sample.http_only) =
  (next_requestId (new_client Sample.http_only),
   JBool (("method not found" =? "")%string
          || includes "method not found" "realtime transaction expired"
          || includes "method not found" "mini block not found"
          || negb (includes "method not found" "method not found"))).
Proof.
  destruct (isMegaETHChain_verdict (new_client Sample.http_only)) as (H & _ & _).
  apply (H (JObj [("error", JObj [("message", JStr "method not found")])])
           (JObj [("message", JStr "method not found")]) "method not found");
    reflexivity.
Defined.

(** X15.  sendRawTransaction.  A timeout that is absent or 0 is left out
    of the parameters.  When the node answers "realtime transaction
    expired" the caller gets the TransactionExpired error made from the
    signed transaction passed in, from "unknown" when that is empty; a
    transport failure carries the method name and the parameters sent; an
    answer with a result gives the result.  One request id is used. *)
Theorem sendRawTransaction_errors (signedTx timeout : json) (w : World) :
  let params := if truthy timeout then [signedTx; timeout] else [signedTx] in
  (forall data error m,
     nullish data = false -> field "error" data = error -> truthy error = true ->
     field "message" error = JStr m ->
     includes m "realtime transaction expired" = true ->
     sendRawTransaction signedTx timeout (HttpData data) w =
       (next_requestId w,
        Err (Mega (RealtimeTransactionExpiredError
                     (if truthy signedTx then signedTx else JStr "unknown"))))) /\
  (forall s,
     sendRawTransaction signedTx timeout (HttpRejected s) w =
       (next_requestId w, Err (Plain s (Some ("realtime_sendRawTransaction", params))))) /\
  (forall v,
     sendRawTransaction signedTx timeout (HttpData (JObj [("result", v)])) w =
       (next_requestId w, Ok v)).
Proof.
  intros params. split; [|split].
  - intros data error m Hn He Ht Hm Hinc. unfold sendRawTransaction.
    rewrite callRPC_step by discriminate.
    rewrite (@rpc_try_error_text _ data error m Hn He Ht Hm), Hinc.
    destruct (truthy timeout); reflexivity.
  - intros s. unfold sendRawTransaction. rewrite callRPC_step by discriminate. reflexivity.
  - intros v. unfold sendRawTransaction. rewrite callRPC_result by discriminate. reflexivity.
Qed.

Lemma assoc_assign_same (k : string) (v : json) (l : list (string * json)) :
  assoc k (assign k v l) = v.
Proof.
  induction l as [|[k' v'] l IH]; cbn.
  - rewrite String.eqb_refl. reflexivity.
  - destruct (k' =? k)%string eqn:E; cbn; [rewrite String.eqb_refl | rewrite E]; auto.
Qed.

Lemma assoc_assign_other (k k0 : string) (v : json) (l : list (string * json)) :
  k <> k0 -> assoc k0 (assign k v l) = assoc k0 l.
Proof.
  intros Hne. induction l as [|[k' v'] l IH]; cbn.
  - destruct (String.eqb_spec k k0); [contradiction | reflexivity].
  - destruct (String.eqb_spec k' k) as [->|Hk]; cbn.
    + destruct (String.eqb_spec k k0); [contradiction | reflexivity].
    + destruct (k' =? k0)%string; auto.
Qed.

(** X16.  getLogsWithCursor, the request.  The object sent has the cursor
    and the limit passed in when they are truthy, in place of members of
    the filter with these names; a cursor or limit that is absent, empty
    or 0 leaves the filter's own member; every other member of the filter
    is sent as it is.  The object is the one parameter of the request. *)
Theorem logs_params_merge (fields : list (string * json)) (cursor limit : json)
    (s : string) (w : World) :
  let sent := JObj (logs_params (JObj fields) cursor limit) in
  getLogsWithCursor (JObj fields) cursor limit (HttpRejected s) w =
    (next_requestId w, Err (Plain s (Some ("eth_getLogsWithCursor", [sent])))) /\
  field "cursor" sent = (if truthy cursor then cursor else assoc "cursor" fields) /\
  field "limit" sent = (if truthy limit then limit else assoc "limit" fields) /\
  (forall k, k <> "cursor" -> k <> "limit" -> field k sent = assoc k fields).
Proof.
  cbv zeta. split.
  { unfold getLogsWithCursor. rewrite callRPC_step by discriminate. reflexivity. }
  cbn [field]. unfold logs_params. cbn [spread].
  split; [|split].
  - destruct (truthy limit), (truthy cursor);
      rewrite ?assoc_assign_other by discriminate; rewrite ?assoc_assign_same; reflexivity.
  - destruct (truthy limit), (truthy cursor);
      rewrite ?assoc_assign_same; rewrite ?assoc_assign_other by discriminate; reflexivity.
  - intros k Hc Hl.
    destruct (truthy limit), (truthy cursor);
      rewrite ?assoc_assign_other by congruence; reflexivity.
Qed.

(** X17.  getLogsWithCursor, the page.  For an answer whose result is
    neither null nor absent, the page has the logs of the result, or the
    empty array when it has none, the cursor of the result, and [hasMore]
    true exactly when that cursor is truthy; passing the cursor of a page
    with [hasMore] on to the next call sends it.  A null or absent result
    is a TypeError without [rpcMethod]. *)
Theorem getLogsWithCursor_page (filter cursor limit result : json) (w : World) :
  let answer := getLogsWithCursor filter cursor limit (HttpData (JObj [("result", result)])) w in
  fst answer = next_requestId w /\
  (nullish result = true -> snd answer = Err (Plain "TypeError" None)) /\
  (nullish result = false ->
     exists page,
       snd answer = Ok page /\
       field "logs" page = (if truthy (field "logs" result) then field "logs" result
                            else JArr []) /\
       truthy (field "logs" page) = true /\
       field "cursor" page = field "cursor" result /\
       field "hasMore" page = JBool (truthy (field "cursor" result)) /\
       (field "hasMore" page = JBool true ->
          forall filter' limit',
            field "cursor" (JObj (logs_params filter' (field "cursor" page) limit'))
              = field "cursor" result)).
Proof.
  intros answer. subst answer. unfold getLogsWithCursor.
  rewrite callRPC_result by discriminate. cbn [fst snd].
  split; [reflexivity|]. split.
  - intros ->. reflexivity.
  - intros ->. eexists. split; [reflexivity|].
    cbn [field assoc String.eqb Ascii.eqb Bool.eqb].
    split; [reflexivity|]. split.
    { unfold or_else. destruct (truthy (field "logs" result)) eqn:E; [exact E | reflexivity]. }
    split; [reflexivity|]. split; [reflexivity|].
    intros H filter' limit'. injection H as H.
    unfold logs_params. rewrite H.
    destruct (truthy limit');
      rewrite ?assoc_assign_other by discriminate; rewrite assoc_assign_same; reflexivity.
Qed.

Lemma getLogsWithCursor_page_witness :
  exists page,
    snd (getLogsWithCursor (JObj [("fromBlock", JNum 1)]) JUndefined JUndefined
           (HttpData (JObj [("result", JObj [("logs", JArr [JNum 7]); ("cursor", JStr "c1")])]))
           (new_client Sample.http_only)) = Ok page /\
    field "hasMore" page = JBool true /\
    field "cursor" (JObj (logs_params (JObj [("fromBlock", JNum 1)]) (field "cursor" page)
                            JUndefined)) = JStr "c1".
Proof.
  destruct (@getLogsWithCursor_page (JObj [("fromBlock", JNum 1)]) JUndefined JUndefined
              (JObj [("logs", JArr [JNum 7]); ("cursor", JStr "c1")])
              (new_client Sample.http_only)) as (_ & _ & H).
  destruct (H eq_refl) as (page & Hp & _ & _ & _ & Hmore & Hnext).
  exists page. split; [exact Hp|]. split; [exact Hmore|].
  exact (Hnext Hmore (JObj [("fromBlock", JNum 1)]) JUndefined).
Defined.

(** X18.  getChainInfo.  The two requests take two consecutive ids
    whatever the answers are; when the node answers with the hexadecimal
    strings of [c] and [b], the record has as chain id and latest block
    the numbers nearest to [c] and [b], which are [c] and [b] themselves
    below 2^53 (the answer 0x20000000000001 gives 9007199254740992), and
    the constants of the source; a result that is no hexadecimal number,
    [null] for instance, does not make the call fail but gives NaN. *)
Theorem getChainInfo_hex_answers (c b : Z) (http1 http2 : HttpOutcome) (second_first : bool)
    (w : World) :
  0 <= c -> 0 <= b ->
  fst (getChainInfo http1 http2 second_first w) = next_requestId (next_requestId w) /\
  issued (fst (getChainInfo http1 http2 second_first w))
    = issued w ++ [requestId w; requestId w + 1] /\
  snd (getChainInfo (HttpData (JObj [("result", JStr ("0x" ++ toString16 c))]))
                    (HttpData (JObj [("result", JStr ("0x" ++ toString16 b))]))
                    second_first w)
    = Ok {| chainId := to_number c; networkName := "MegaETH"; isRealtimeEnabled := true;
            latestBlock := to_number b; miniBlockInterval := 100 |} /\
  snd (getChainInfo (HttpData (JObj [("result", JStr ("0x" ++ toString16 c))]))
                    (HttpData (JObj [("result", JNull)]))
                    second_first w)
    = Ok {| chainId := to_number c; networkName := "MegaETH"; isRealtimeEnabled := true;
            latestBlock := NaN; miniBlockInterval := 100 |} /\
  (c < 2 ^ 53 -> to_number c = Finite c) /\
  (b < 2 ^ 53 -> to_number b = Finite b) /\
  to_number 9007199254740993 = Finite 9007199254740992.
Proof.
  intros Hc Hb. unfold getChainInfo. rewrite !callRPC_step by discriminate.
  cbn [fst snd]. split; [reflexivity|]. split; [|split; [|split; [|split; [|split]]]].
  - cbn [issued next_requestId requestId]. rewrite <- app_assoc. reflexivity.
  - cbn [rpc_try nullish field assoc String.eqb Ascii.eqb Bool.eqb truthy rpc_catch to_string].
    rewrite (parseInt_toString16 Hc), (parseInt_toString16 Hb). reflexivity.
  - cbn [rpc_try nullish field assoc String.eqb Ascii.eqb Bool.eqb truthy rpc_catch to_string].
    rewrite (parseInt_toString16 Hc). reflexivity.
  - intros H. apply to_number_small. lia.
  - intros H. apply to_number_small. lia.
  - vm_compute. reflexivity.
Qed.

Lemma getChainInfo_hex_answers_witness :
  snd (getChainInfo (HttpData (JObj [("result", JStr ("0x" ++ toString16 1337))]))
                    (HttpData (JObj [("result", JStr ("0x" ++ toString16 20))]))
                    false (new_client Sample.http_only))
    = Ok {| chainId := to_number 1337; networkName := "MegaETH";
            isRealtimeEnabled := true;
            latestBlock := to_number 20; miniBlockInterval := 100 |} /\
  to_number 1337 = Finite 1337.
Proof.
  assert (Hc : 0 <= 1337) by lia.
  assert (Hb : 0 <= 20) by lia.
  destruct (@getChainInfo_hex_answers 1337 20 (HttpRejected "") (HttpRejected "") false
              (new_client Sample.http_only) Hc Hb) as (_ & _ & H & _ & Hsmall & _).
  split; [exact H | apply Hsmall; reflexivity].
Defined.

(** X19.  getBlockByNumber.  A block number [n] is sent as the string "0x"
    followed by [n] in hexadecimal, which reads back as [n] when [n] is
    not negative and as no number at all when it is; when the node answers
    "mini block not found", the error the caller gets holds that string,
    so its message reads "Mini block 0x... not found". *)
Theorem getBlockByNumber_not_found (n : Z) (includeTransactions data error : json)
    (m : string) (w : World) :
  nullish data = false -> field "error" data = error -> truthy error = true ->
  field "message" error = JStr m ->
  includes m "realtime transaction expired" = false ->
  includes m "mini block not found" = true ->
  exists t,
    getBlockByNumber (JNum n) includeTransactions (HttpData data) w
      = (next_requestId w, Err t) /\
    t = Mega (MiniBlockNotFoundError (JStr ("0x" ++ toString16 n))) /\
    thrown_message t = ("Mini block 0x" ++ toString16 n ++ " not found")%string /\
    parseInt16 ("0x" ++ toString16 n) = (if n <? 0 then None else Some n).
Proof.
  intros Hnl He Ht Hm H1 H2. eexists. split; [|split; [reflexivity|split]].
  - unfold getBlockByNumber. rewrite callRPC_step by discriminate.
    rewrite (@rpc_try_error_text _ data error m Hnl He Ht Hm), H1, H2. reflexivity.
  - reflexivity.
  - destruct (parseInt16_toString16 n) as (_ & Hx & Hneg).
    destruct (Z.ltb_spec n 0); auto.
Qed.

Lemma getBlockByNumber_not_found_witness :
  exists t,
    getBlockByNumber (JNum 123) JUndefined
      (HttpData (JObj [("error", JObj [("message", JStr "mini block not found")])]))
      (new_client Sample.http_only)
      = (next_requestId (new_client Sample.http_only), Err t) /\
    t = Mega (MiniBlockNotFoundError (JStr ("0x" ++ toString16 123))) /\
    thrown_message t = ("Mini block 0x" ++ toString16 123 ++ " not found")%string /\
    parseInt16 ("0x" ++ toString16 123) = (if 123 <? 0 then None else Some 123).
Proof.
  apply (@getBlockByNumber_not_found 123 JUndefined
           (JObj [("error", JObj [("message", JStr "mini block not found")])])
           (JObj [("message", JStr "mini block not found")]) "mini block not found"
           (new_client Sample.http_only)); reflexivity.
Defined.

(** X20.  Start-up.  With an RPC URL configured and the node answering
    [eth_chainId] with the hexadecimal string of [n], [initializeClients]
    keeps the MegaETH client exactly when no chain id is configured, the
    configured id is 0, or the configured id and [n] are the same number,
    which below 2^53 means that they are the same integer.  A client that
    is kept has used the request ids 1 and 2, in this order, has its
    counter at 3, and has opened no socket, whatever the second answer
    was; a client that is dropped leaves [isMegaETHChain] false. *)
Theorem initializeClients_startup (url : string) (cfg : Config) (megaethChainId : option Z)
    (n : Z) (http2 : HttpOutcome) :
  url <> "" -> 0 <= n ->
  let accepted := match megaethChainId with
                  | None => true
                  | Some expected =>
                      (expected =? 0) || number_eqb (to_number n) (to_number expected)
                  end in
  let started := initializeClients (Some url) cfg megaethChainId
                   (HttpData (JObj [("result", JStr ("0x" ++ toString16 n))])) http2 in
  (accepted = false -> started = (None, JBool false)) /\
  (accepted = true ->
     exists w, fst started = Some w /\
       snd started = snd (isMegaETHChain http2 (next_requestId (new_client cfg))) /\
       issued w = [1; 2] /\ requestId w = 3 /\ sockets w = [] /\ sent w = [] /\
       wsManager w = wsManager (new_client cfg)) /\
  (forall expected,
     megaethChainId = Some expected -> Z.abs expected < 2 ^ 53 -> n < 2 ^ 53 ->
     accepted = (expected =? 0) || (n =? expected)).
Proof.
  intros Hurl Hn accepted started. subst started. unfold initializeClients.
  destruct (String.eqb_spec url ""); [contradiction|]. cbv zeta.
  rewrite (@validateConnection_hex megaethChainId n (new_client cfg) Hn).
  assert (Hprobe : isMegaETHChain http2 (next_requestId (new_client cfg))
                   = (next_requestId (next_requestId (new_client cfg)),
                      snd (isMegaETHChain http2 (next_requestId (new_client cfg))))).
  { unfold isMegaETHChain. rewrite callRPC_step by discriminate. reflexivity. }
  assert (Hsmall : forall expected,
            megaethChainId = Some expected -> Z.abs expected < 2 ^ 53 -> n < 2 ^ 53 ->
            accepted = (expected =? 0) || (n =? expected)).
  { intros expected -> He Hn53. subst accepted.
    rewrite (to_number_small expected He), to_number_small by lia. reflexivity. }
  subst accepted. destruct megaethChainId as [expected|].
  - destruct ((expected =? 0) || number_eqb (to_number n) (to_number expected));
      (split; [|split; [|exact Hsmall]]); try discriminate.
    + intros _. rewrite Hprobe. eexists. split; [reflexivity|]. cbn. auto 10.
    + reflexivity.
  - split; [discriminate|]. split; [|exact Hsmall]. intros _. rewrite Hprobe. eexists.
    split; [reflexivity|]. cbn. auto 10.
Qed.

Lemma initializeClients_startup_witness :
  exists w,
    fst (initializeClients (Some "http://localhost:18545") Sample.http_only (Some 1337)
           (HttpData (JObj [("result", JStr ("0x" ++ toString16 1337))]))
           (HttpRejected "method not found")) = Some w /\
    issued w = [1; 2] /\ requestId w = 3 /\ sockets w = [].
Proof.
  assert (Hurl : "http://localhost:18545" <> "") by discriminate.
  assert (Hn : 0 <= 1337) by lia.
  destruct (@initializeClients_startup "http://localhost:18545" Sample.http_only
              (Some 1337) 1337 (HttpRejected "method not found") Hurl Hn) as (_ & H & _).
  destruct (H eq_refl) as (w & Hw & _ & Hi & Hr & Hs & _).
  exists w. auto.
Defined.

(* ------------------------------------------------------------------ *)
(** ** The first subscribe of a client                                  *)
(* ------------------------------------------------------------------ *)

(** X21.  Subscribe on a fresh client.  With a WebSocket URL configured
    and a maximum in force above 0, the first [subscribe] call opens a
    socket and waits: nothing is sent and no request id is taken before
    the socket is open.  When it opens, the [eth_subscribe] frame goes out
    with id 1, for the event type and the parameters of the call, [{}]
    standing for parameters left out or [undefined]; when the reply with
    id 1 arrives, the table has the one entry under the first handle,
    with the server id of the reply and the parameters that were sent,
    and the caller gets that handle. *)
Theorem subscribe_from_cold_start (mint : nat -> string) (cfg : Config) (url : string)
    (c : nat) (et : string) (ps result : json) :
  megaethWsUrl cfg = Some url -> url <> "" ->
  0 < maxSubscriptions cfg ->
  let reply := {| m_id := JNum 1; m_error := JUndefined; m_result := result;
                  m_method := JUndefined; m_params := JUndefined |} in
  let w1 := run mint [Subscribe c et ps] (new_client cfg) in
  let w2 := run mint [Subscribe c et ps; SocketOpen 0] (new_client cfg) in
  let w3 := run mint [Subscribe c et ps; SocketOpen 0; SocketMessage 0 reply]
              (new_client cfg) in
  let params := match ps with JUndefined => JObj [] | _ => ps end in
  (sockets w1 = [new_socket (FromSubscribe {| call_eventType := et;
                                              call_params := params;
                                              call_cont := ToCaller c |})] /\
   sent w1 = [] /\ issued w1 = [] /\ outcomes w1 = []) /\
  (sent w2 = [(0%nat, {| p_id := 1; p_method := "eth_subscribe";
                         p_params := [JStr et; params] |})] /\
   issued w2 = [1] /\ outcomes w2 = [] /\ subscriptions w2 = []) /\
  (subscriptions w3 = [(mint 0%nat, {| sub_id := result; sub_eventType := et;
                                       sub_params := params;
                                       sub_callback := NoopCallback |})] /\
   outcomes w3 = [(c, Returned (JStr (mint 0%nat)))] /\
   sent w3 = sent w2 /\
   option_map messageHandlers (wsManager w3) = Some [ClientMessage]).
Proof.
  intros Hurl Hne Hmax reply w1 w2 w3 params.
  change params with (default_params ps). clear params.
  assert (Hlim : (0 >=? maxSubscriptions cfg) = false).
  { rewrite Z.geb_leb. apply Z.leb_gt. exact Hmax. }
  assert (H0 : new_client cfg =
    {| config := cfg;
       wsManager := Some (set_reconnectedHandler true
                            (set_messageHandlers [ClientMessage]
                               (new_manager (connectionTimeout cfg))));
       subscriptions := []; requestId := 1;
       sockets := []; pendings := []; waiters := []; reconnectTimers := [];
       minted := 0; issued := []; sent := []; emitted := []; delivered := [];
       outcomes := [] |}).
  { unfold new_client. rewrite Hurl. destruct (String.eqb_spec url ""); [contradiction|].
    reflexivity. }
  subst w1 w2 w3. rewrite H0.
  cbn [run fold_left step]. unfold subscribe, subscribe_start. cbv zeta.
  cbn [wsManager subscriptions config SubMap.size List.length Z.of_nat]. rewrite !Hlim.
  cbn. rewrite ?Hlim. cbn. auto 20.
Qed.

Lemma subscribe_from_cold_start_witness :
  let reply := {| m_id := JNum 1; m_error := JUndefined; m_result := JStr "0xa";
                  m_method := JUndefined; m_params := JUndefined |} in
  let w3 := run Sample.mint
              [Subscribe 0 "newHeads" JUndefined; SocketOpen 0; SocketMessage 0 reply]
              (new_client (Sample.cfg 3)) in
  subscriptions w3 = [(Sample.mint 0%nat,
                       {| sub_id := JStr "0xa"; sub_eventType := "newHeads";
                          sub_params := JObj []; sub_callback := NoopCallback |})] /\
  outcomes w3 = [(0%nat, Returned (JStr (Sample.mint 0%nat)))].
Proof.
  assert (Hne : "ws://localhost:8546" <> "") by discriminate.
  destruct (@subscribe_from_cold_start Sample.mint (Sample.cfg 3) "ws://localhost:8546"
              0 "newHeads" JUndefined (JStr "0xa") eq_refl Hne eq_refl)
    as (_ & _ & H1 & H2 & _).
  split; [exact H1 | exact H2].
Defined.

(** X22.  Subscribe when the connection attempt times out.  The caller of
    the first [subscribe] is rejected with "WebSocket connection timeout";
    no request id is taken, nothing is sent, and the manager is no longer
    connecting.  The socket is not closed: when it opens after all, the
    manager takes it as its open connection, but the rejected call is not
    taken up again. *)
Theorem connect_timeout_rejects_subscribe (mint : nat -> string) (cfg : Config)
    (url : string) (c : nat) (et : string) (ps : json) :
  megaethWsUrl cfg = Some url -> url <> "" ->
  0 < maxSubscriptions cfg ->
  let w1 := run mint [Subscribe c et ps; ConnectTimeout 0] (new_client cfg) in
  let w2 := run mint [Subscribe c et ps; ConnectTimeout 0; SocketOpen 0] (new_client cfg) in
  (outcomes w1 = [(c, Threw (Plain "WebSocket connection timeout" None))] /\
   issued w1 = [] /\ sent w1 = [] /\ subscriptions w1 = [] /\
   option_map isConnecting (wsManager w1) = Some false /\
   option_map readyState (nth_error (sockets w1) 0) = Some CONNECTING) /\
  (outcomes w2 = outcomes w1 /\ issued w2 = [] /\ sent w2 = [] /\
   open_socket w2 = Some 0%nat).
Proof.
  intros Hurl Hne Hmax w1 w2.
  assert (Hlim : (0 >=? maxSubscriptions cfg) = false).
  { rewrite Z.geb_leb. apply Z.leb_gt. exact Hmax. }
  assert (H0 : new_client cfg =
    {| config := cfg;
       wsManager := Some (set_reconnectedHandler true
                            (set_messageHandlers [ClientMessage]
                               (new_manager (connectionTimeout cfg))));
       subscriptions := []; requestId := 1;
       sockets := []; pendings := []; waiters := []; reconnectTimers := [];
       minted := 0; issued := []; sent := []; emitted := []; delivered := [];
       outcomes := [] |}).
  { unfold new_client. rewrite Hurl. destruct (String.eqb_spec url ""); [contradiction|].
    reflexivity. }
  subst w1 w2. rewrite H0.
  cbn [run fold_left step]. unfold subscribe, subscribe_start. cbv zeta.
  cbn [wsManager subscriptions config SubMap.size List.length Z.of_nat]. rewrite !Hlim.
  cbn. auto 20.
Qed.

Lemma connect_timeout_rejects_subscribe_witness :
  let w1 := run Sample.mint [Subscribe 0 "newHeads" (JObj []); ConnectTimeout 0]
              (new_client (Sample.cfg 3)) in
  outcomes w1 = [(0%nat, Threw (Plain "WebSocket connection timeout" None))] /\
  issued w1 = [] /\ sent w1 = [].
Proof.
  assert (Hne : "ws://localhost:8546" <> "") by discriminate.
  destruct (@connect_timeout_rejects_subscribe Sample.mint (Sample.cfg 3)
              "ws://localhost:8546" 0 "newHeads" (JObj []) eq_refl Hne eq_refl)
    as ((H1 & H2 & H3 & _) & _).
  auto.
Defined.

(* ------------------------------------------------------------------ *)
(** ** Coalescing of connect calls: the attempt and its waiters         *)
(* ------------------------------------------------------------------ *)

(** [handleReconnection] touches the attempt counter, the timers and the
    log of events, nothing else. *)
Lemma handleReconnection_keeps (w : World) (m : WebSocketManager) :
  wsManager w = Some m ->
  sockets (handleReconnection w) = sockets w /\
  waiters (handleReconnection w) = waiters w /\
  outcomes (handleReconnection w) = outcomes w /\
  exists m', wsManager (handleReconnection w) = Some m' /\
             connection m' = connection m /\ isConnecting m' = isConnecting m.
Proof.
  intros Hm. unfold handleReconnection, schedule_reconnect, on_manager. rewrite Hm.
  destruct (reconnectAttempts m >=? maxReconnectAttempts m); cbn.
  - repeat split; auto. exists m. auto.
  - repeat split; auto. eexists. split; [reflexivity|]. cbn. auto.
Qed.

(** The attempt of caller [c] fails with an error, the close following
    in the same tick. *)
Lemma on_fail_rejects (mint : nat -> string) (i : nat) (w : World) (s : Socket)
    (m : WebSocketManager) (c : nat) :
  wsManager w = Some m -> connection m = Some i ->
  nth_error (sockets w) i = Some s ->
  readyState s = CONNECTING -> settled s = false -> owner s = FromConnectWebSocket c ->
  let W := on_fail mint i w in
  outcomes W = outcomes w ++ [(c, Threw (Plain "WebSocket error" None))] /\
  waiters W = waiters w /\
  List.length (sockets W) = List.length (sockets w) /\
  open_socket W = None /\
  exists m', wsManager W = Some m' /\ isConnecting m' = false.
Proof.
  intros Hm Hc Hs Hr Hset Hown W. subst W. unfold on_fail. rewrite Hs, Hr. cbv zeta.
  match goal with |- context [on_close i ?x] => remember x as wb eqn:Hwb end.
  assert (Hsb : nth_error (sockets wb) i =
                Some (clear_connectTimer (set_readyState CLOSING s))).
  { rewrite Hwb. unfold on_manager, on_socket. cbn [wsManager set_sockets]. rewrite Hm.
    cbn [sockets set_wsManager set_sockets].
    exact (@nth_error_update_same _
             (fun s0 => clear_connectTimer (set_readyState CLOSING s0)) _ _ _ Hs). }
  rewrite (@on_close_unfold i wb _ Hsb) by (cbn; discriminate).
  remember (on_manager (set_isConnecting false) (on_socket i (set_readyState CLOSED) wb))
    as wc eqn:Hwc0.
  assert (Hmc : wsManager wc = Some (set_isConnecting false (set_isConnecting false m))).
  { rewrite Hwc0, Hwb. unfold on_manager, on_socket. cbn [wsManager set_sockets].
    rewrite Hm. reflexivity. }
  assert (Hsc : nth_error (sockets wc) i =
                Some (set_readyState CLOSED (clear_connectTimer (set_readyState CLOSING s)))).
  { rewrite Hwc0. unfold on_manager, on_socket at 1. cbn [wsManager set_sockets].
    destruct (wsManager wb); cbn [sockets set_wsManager set_sockets];
      exact (@nth_error_update_same _ (set_readyState CLOSED) _ _ _ Hsb). }
  destruct (@handleReconnection_keeps wc _ Hmc) as (Hk1 & Hk2 & Hk3 & m' & Hm' & Hc' & Hi').
  unfold connect_failed. rewrite Hset, Hown. cbn [resume_connect].
  unfold on_manager, on_socket. cbn [wsManager set_sockets]. rewrite Hm'.
  cbn [outcomes waiters sockets log_outcome set_wsManager set_sockets].
  rewrite Hk1, Hk2, Hk3, length_update_nth.
  assert (Hwc : waiters wc = waiters w /\ outcomes wc = outcomes w /\
                List.length (sockets wc) = List.length (sockets w)).
  { rewrite Hwc0, Hwb. unfold on_manager, on_socket. cbn [wsManager set_sockets].
    rewrite Hm. cbn. rewrite !length_update_nth. auto. }
  destruct Hwc as (-> & -> & ->).
  split; [reflexivity|]. split; [reflexivity|]. split; [reflexivity|]. split.
  - unfold open_socket. cbn. cbn in Hc'. rewrite Hc', Hc.
    rewrite (@nth_error_update_same _ settle_socket _ _ _ Hsc). reflexivity.
  - eexists. split; [reflexivity|]. reflexivity.
Qed.

(** Calls of [connectWebSocket] made in one tick are the calls made one
    tick after the other: nothing of [connect] is left for a microtask
    when the socket is not open. *)
Lemma calls_now_connects (cs : list nat) : forall w,
  calls_now (map DoConnectWebSocket cs) w =
    (fold_left (fun w c => connectWebSocket c w) cs w, [], false).
Proof.
  induction cs as [|c cs IH]; intros w; cbn [map calls_now call_now fold_left].
  - reflexivity.
  - rewrite IH. reflexivity.
Qed.

Lemma block_connects (mint : nat -> string) (cs : list nat) (w : World) :
  step mint (Block (map DoConnectWebSocket cs)) w = run mint (map ConnectWebSocket cs) w.
Proof.
  cbn [step]. unfold block. rewrite calls_now_connects. cbn [fold_left].
  unfold run. revert w. induction cs as [|c cs IH]; intros w; cbn [map fold_left step].
  - reflexivity.
  - apply IH.
Qed.

(** Waiters that poll when the attempt has failed. *)
Lemma waiters_fail (mint : nat -> string) (cs : list nat) (W : World) :
  open_socket W = None ->
  (exists m', wsManager W = Some m' /\ isConnecting m' = false) ->
  forall pre, waiters W = pre ++ parked cs ->
  let W' := run mint (map PollTimer (seq (List.length pre) (List.length cs))) W in
  sockets W' = sockets W /\
  outcomes W' = outcomes W ++ map (fun c => (c, Threw (Plain "Connection failed" None))) cs.
Proof.
  intros Ho Hm pre Hw.
  apply (@polls_settle mint (Threw (Plain "Connection failed" None))
           (fun W => open_socket W = None
                     /\ exists m', wsManager W = Some m' /\ isConnecting m' = false)).
  - intros W0 x HQ. exact HQ.
  - intros W0 c0 o' HQ. exact HQ.
  - intros W0 n c0 (HQo & m' & HQm & HQc) Hn. unfold checkConnection.
    rewrite Hn, HQo, HQm, HQc. reflexivity.
  - split; assumption.
  - exact Hw.
Qed.

(** C9 (as amended).  From a manager that is neither open nor connecting,
    any number of [connect] calls made in a row, in one tick or in
    several, with no other event in between, start exactly one socket:
    the first caller owns the attempt, the later ones wait on it,
    polling.  When the socket then opens, the owner and, at its next
    poll, every waiter resolves.  When the attempt fails, by an error of
    the socket (with or without the close in the same tick) or by the
    connect timeout, the owner fails with that error and every waiter
    fails at its next poll with "Connection failed"; after the timeout
    the socket is still connecting.  No further socket is opened either
    way.  A [connect] call in the open state returns at once and opens
    nothing; a call made while [isConnecting] is set, whoever makes it,
    is parked and opens nothing. *)
Theorem connect_coalesces (mint : nat -> string) (w : World) (m : WebSocketManager)
    (c : nat) (cs : list nat) :
  wsManager w = Some m ->
  open_socket w = None ->
  isConnecting m = false ->
  let i := List.length (sockets w) in
  let polls := map PollTimer (seq (List.length (waiters w)) (List.length cs)) in
  let w1 := run mint (map ConnectWebSocket (c :: cs)) w in
  let opened := run mint (SocketOpen i :: polls) w1 in
  let failed := run mint (SocketFail i :: polls) w1 in
  let errored := run mint (SocketError i :: polls) w1 in
  let timed_out := run mint (ConnectTimeout i :: polls) w1 in
  let rejected (e : string) :=
    outcomes w ++ (c, Threw (Plain e None))
                  :: map (fun c' => (c', Threw (Plain "Connection failed" None))) cs in
  (sockets w1 = sockets w ++ [new_socket (FromConnectWebSocket c)]
   /\ waiters w1 = waiters w ++ parked cs
   /\ outcomes w1 = outcomes w
   /\ step mint (Block (map DoConnectWebSocket (c :: cs))) w = w1)
  /\ (List.length (sockets opened) = S i
      /\ outcomes opened = outcomes w ++ map (fun c' => (c', Returned JUndefined)) (c :: cs))
  /\ (List.length (sockets failed) = S i
      /\ outcomes failed = rejected "WebSocket error")
  /\ (List.length (sockets errored) = S i
      /\ outcomes errored = rejected "WebSocket error")
  /\ (List.length (sockets timed_out) = S i
      /\ outcomes timed_out = rejected "WebSocket connection timeout"
      /\ option_map readyState (nth_error (sockets timed_out) i) = Some CONNECTING)
  /\ (forall (caller : Caller) (w' : World) (j : nat),
        open_socket w' = Some j -> connect caller w' = (w', true))
  /\ (forall (caller : Caller) (w' : World) (m' : WebSocketManager),
        wsManager w' = Some m' -> open_socket w' = None -> isConnecting m' = true ->
        connect caller w' = (set_waiters (waiters w' ++ [Some caller]) w', false)).
Proof.
  intros Hm Ho Hc i polls w1 opened failed errored timed_out rejected.
  set (m1 := set_connection (Some i) (set_isConnecting true m)).
  set (w0 := set_sockets (sockets w ++ [new_socket (FromConnectWebSocket c)])
               (set_wsManager (Some m1) w)).
  assert (Ho0 : open_socket w0 = None).
  { unfold open_socket. cbn. subst i. rewrite nth_error_snoc. reflexivity. }
  assert (Hw1 : w1 = set_waiters (waiters w ++ parked cs) w0).
  { subst w1. cbn [map run fold_left step]. unfold connectWebSocket. rewrite Hm.
    rewrite (@connect_starts (FromConnectWebSocket c) w m Hm Ho Hc).
    fold m1. fold w0.
    exact (@calls_wait mint cs w0 m1 eq_refl Ho0 eq_refl). }
  assert (Hs1 : nth_error (sockets w1) i = Some (new_socket (FromConnectWebSocket c))).
  { rewrite Hw1. cbn. subst i. apply nth_error_snoc. }
  split.
  { split; [rewrite Hw1; reflexivity|]. split; [rewrite Hw1; reflexivity|].
    split; [rewrite Hw1; reflexivity|]. apply block_connects. }
  split; [|split; [|split; [|split; [|split]]]].
  - (* the attempt succeeds *)
    set (s2 := settle_socket (clear_connectTimer
                 (set_readyState OPEN (new_socket (FromConnectWebSocket c))))).
    set (m2 := set_heartbeatInterval true
                 (set_reconnectAttempts 0 (set_isConnecting false m1))).
    set (w2 := log_outcome c (Returned JUndefined)
                 (set_wsManager (Some m2) (set_sockets (sockets w ++ [s2]) w1))).
    assert (H2 : on_open mint i w1 = w2).
    { subst w2. rewrite Hw1. unfold on_open, w0.
      cbn [sockets set_waiters set_sockets set_wsManager].
      subst i. rewrite nth_error_snoc. cbn [readyState new_socket settled owner].
      unfold on_socket, on_manager.
      cbn [sockets set_waiters set_sockets set_wsManager wsManager].
      rewrite (@update_nth_app _ _ (sockets w) _ []). reflexivity. }
    assert (Hq : open_socket w2 <> None).
    { unfold open_socket. cbn. subst i. rewrite nth_error_snoc. discriminate. }
    destruct (@polls_settle mint (Returned JUndefined) (fun W => open_socket W <> None))
      with (cs := cs) (pre := waiters w) (W := w2) as (Hs & Hout).
    + intros W x HQ. exact HQ.
    + intros W c0 o' HQ. exact HQ.
    + intros W n c0 HQ Hn. unfold checkConnection. rewrite Hn.
      destruct (open_socket W); [reflexivity | congruence].
    + exact Hq.
    + subst w2. rewrite Hw1. reflexivity.
    + subst opened. cbn [run fold_left step]. rewrite H2.
      fold (run mint polls w2). subst polls. rewrite Hs, Hout.
      subst w2. cbn [sockets outcomes log_outcome set_wsManager set_sockets].
      rewrite Hw1. cbn [outcomes set_waiters w0 set_sockets set_wsManager].
      rewrite length_app, <- app_assoc. cbn [List.length map]. subst i.
      split; [lia | reflexivity].
  - (* error and close in one tick *)
    destruct (@on_fail_rejects mint i w1 (new_socket (FromConnectWebSocket c)) m1 c)
      as (Hout & Hwait & Hlen & Hopen & Hidle); try reflexivity.
    { rewrite Hw1. reflexivity. }
    { exact Hs1. }
    destruct (@waiters_fail mint cs (on_fail mint i w1) Hopen Hidle (waiters w))
      as (Hs & Hout').
    { rewrite Hwait, Hw1. reflexivity. }
    subst failed. cbn [run fold_left step].
    fold (run mint polls (on_fail mint i w1)). subst polls. rewrite Hs, Hout', Hlen, Hout.
    rewrite Hw1. cbn [sockets outcomes set_waiters w0 set_sockets set_wsManager].
    rewrite length_app, <- app_assoc. cbn [List.length]. subst i rejected.
    split; [lia | reflexivity].
  - (* error alone *)
    set (s3 := settle_socket (clear_connectTimer
                 (set_readyState CLOSING (new_socket (FromConnectWebSocket c))))).
    set (m3 := set_isConnecting false (set_isConnecting false m1)).
    set (w3 := log_outcome c (Threw (Plain "WebSocket error" None))
                 (set_wsManager (Some m3) (set_sockets (sockets w ++ [s3]) w1))).
    assert (H3 : on_error mint i w1 = w3).
    { subst w3. rewrite Hw1. unfold on_error, w0.
      cbn [sockets set_waiters set_sockets set_wsManager].
      subst i. rewrite nth_error_snoc. cbn [readyState new_socket settled owner].
      unfold connect_failed, on_socket, on_manager.
      cbn [sockets set_waiters set_sockets set_wsManager wsManager new_socket settled].
      rewrite (@update_nth_app _ _ (sockets w) _ []).
      rewrite (@update_nth_app _ _ (sockets w) _ []). reflexivity. }
    destruct (@waiters_fail mint cs w3) with (pre := waiters w) as (Hs & Hout).
    + unfold open_socket. cbn. subst i. rewrite nth_error_snoc. reflexivity.
    + exists m3. split; reflexivity.
    + subst w3. rewrite Hw1. reflexivity.
    + subst errored. cbn [run fold_left step]. rewrite H3.
      fold (run mint polls w3). subst polls. rewrite Hs, Hout.
      subst w3. cbn [sockets outcomes log_outcome set_wsManager set_sockets].
      rewrite Hw1. cbn [outcomes set_waiters w0 set_sockets set_wsManager].
      rewrite length_app, <- app_assoc. cbn [List.length]. subst i rejected.
      split; [lia | reflexivity].
  - (* the connect timeout *)
    set (s4 := settle_socket (clear_connectTimer (new_socket (FromConnectWebSocket c)))).
    set (m4 := set_isConnecting false m1).
    set (w4 := log_outcome c (Threw (Plain "WebSocket connection timeout" None))
                 (set_wsManager (Some m4) (set_sockets (sockets w ++ [s4]) w1))).
    assert (H4 : on_connect_timeout mint i w1 = w4).
    { subst w4. rewrite Hw1. unfold on_connect_timeout, w0.
      cbn [sockets set_waiters set_sockets set_wsManager].
      subst i. rewrite nth_error_snoc. cbn [connectTimer new_socket settled owner].
      unfold connect_failed, on_socket, on_manager.
      cbn [sockets set_waiters set_sockets set_wsManager wsManager new_socket settled].
      rewrite (@update_nth_app _ _ (sockets w) _ []).
      rewrite (@update_nth_app _ _ (sockets w) _ []). reflexivity. }
    destruct (@waiters_fail mint cs w4) with (pre := waiters w) as (Hs & Hout).
    + unfold open_socket. cbn. subst i. rewrite nth_error_snoc. reflexivity.
    + exists m4. split; reflexivity.
    + subst w4. rewrite Hw1. reflexivity.
    + subst timed_out. cbn [run fold_left step]. rewrite H4.
      fold (run mint polls w4). subst polls. rewrite Hs, Hout.
      subst w4. cbn [sockets outcomes log_outcome set_wsManager set_sockets].
      rewrite Hw1. cbn [outcomes set_waiters w0 set_sockets set_wsManager].
      rewrite length_app, <- app_assoc. cbn [List.length]. subst i rejected.
      split; [lia|]. split; [reflexivity|]. rewrite nth_error_snoc. reflexivity.
  - intros caller w' j Hj. unfold connect. rewrite Hj. reflexivity.
  - intros caller w' m' Hm' Ho' Hc'. exact (@connect_waits caller w' m' Hm' Ho' Hc').
Qed.

Lemma connect_coalesces_witness :
  let w1 := run Sample.mint (map ConnectWebSocket [0; 1; 2]%nat) (new_client (Sample.cfg 3)) in
  let opened := run Sample.mint [SocketOpen 0; PollTimer 0; PollTimer 1] w1 in
  let failed := run Sample.mint [SocketFail 0; PollTimer 0; PollTimer 1] w1 in
  let timed_out := run Sample.mint [ConnectTimeout 0; PollTimer 0; PollTimer 1] w1 in
  List.length (sockets w1) = 1%nat
  /\ List.length (sockets opened) = 1%nat
  /\ outcomes opened =
       [(0%nat, Returned JUndefined); (1%nat, Returned JUndefined);
        (2%nat, Returned JUndefined)]
  /\ outcomes failed =
       [(0%nat, Threw (Plain "WebSocket error" None));
        (1%nat, Threw (Plain "Connection failed" None));
        (2%nat, Threw (Plain "Connection failed" None))]
  /\ outcomes timed_out =
       [(0%nat, Threw (Plain "WebSocket connection timeout" None));
        (1%nat, Threw (Plain "Connection failed" None));
        (2%nat, Threw (Plain "Connection failed" None))].
Proof.
  intros w1 opened failed timed_out.
  destruct (@connect_coalesces Sample.mint (new_client (Sample.cfg 3)) _ 0%nat [1; 2]%nat
              eq_refl eq_refl eq_refl)
    as ((Hs & _) & (Hn & Ho) & (_ & Hf) & _ & (_ & Ht & _) & _).
  split; [|split; [|split; [|split]]].
  - subst w1. rewrite Hs. reflexivity.
  - exact Hn.
  - exact Ho.
  - exact Hf.
  - exact Ht.
Defined.

(* ------------------------------------------------------------------ *)
(** ** Reconnection, attempt after attempt                              *)
(* ------------------------------------------------------------------ *)

Lemma close_backs_off (mint : nat -> string) (i : nat) (w : World) (m : WebSocketManager)
    (s : Socket) :
  wsManager w = Some m -> connection m = Some i ->
  nth_error (sockets w) i = Some s -> readyState s <> CLOSED ->
  reconnectAttempts m = 0 -> 0 < maxReconnectAttempts m ->
  backing_off (maxReconnectAttempts m) (reconnectDelay m) (reconnectTimers w) 0
    (List.length (sockets w)) (emitted w) (step mint (SocketClose i) w).
Proof.
  intros Hm Hc Hs Hr Ha Hmax. cbn [step]. rewrite (@on_close_unfold i w s Hs Hr).
  match goal with |- backing_off _ _ _ _ _ _ (handleReconnection ?x) =>
    remember x as w0 eqn:Hw0 end.
  assert (Hm0 : wsManager w0 = Some (set_isConnecting false m)).
  { rewrite Hw0. unfold on_manager, on_socket. cbn. rewrite Hm. reflexivity. }
  rewrite (@handleReconnection_below w0 _ Hm0) by (cbn; lia).
  exists (set_reconnectAttempts (reconnectAttempts (set_isConnecting false m) + 1)
            (set_isConnecting false m)), i, (set_readyState CLOSED s).
  cbn. rewrite Ha. cbn.
  repeat split; auto.
  - rewrite Hw0. unfold on_manager, on_socket. cbn. rewrite Hm. cbn.
    exact (@nth_error_update_same _ (set_readyState CLOSED) _ _ _ Hs).
  - rewrite Hw0. unfold on_manager, on_socket. cbn. rewrite Hm. cbn.
    rewrite Z.mul_1_r. reflexivity.
  - rewrite Hw0. unfold on_manager, on_socket. cbn. rewrite Hm. cbn.
    apply length_update_nth.
  - rewrite Hw0. unfold on_manager, on_socket. cbn. rewrite Hm. reflexivity.
Qed.

Lemma nth_error_app_snoc (A : Type) (l l' : list A) (x : A) :
  nth_error (l ++ l' ++ [x]) (List.length l + List.length l') = Some x.
Proof.
  rewrite app_assoc, <- length_app. apply nth_error_snoc.
Qed.

Lemma update_nth_app_snoc (A : Type) (f : A -> A) (l l' : list A) (x : A) :
  update_nth (List.length l + List.length l') f (l ++ l' ++ [x]) = l ++ l' ++ [f x].
Proof.
  rewrite app_assoc, <- length_app, (@update_nth_app _ f (l ++ l') x []).
  rewrite <- app_assoc. reflexivity.
Qed.

(** One round of a reconnection that fails: what the timer callback and
    the failure of its socket leave. *)
Lemma failed_reconnect_round (mint : nat -> string) (M D : Z) (T : list (Z * bool))
    (k n : nat) (E : list string) (w : World) :
  backing_off M D T k n E w ->
  let w' := run mint [ReconnectTimer (List.length T + k); SocketFail n] w in
  (Z.of_nat (S k) < M ->
   backing_off M D T (S k) (S n) (E ++ ["reconnectFailed"]) w') /\
  (M <= Z.of_nat (S k) ->
   reconnectTimers w' = T ++ map (fun j => (D * 2 ^ Z.of_nat j, false)) (seq 0 (S k)) /\
   emitted w' = E ++ ["maxReconnectAttemptsReached"; "reconnectFailed"] /\
   List.length (sockets w') = S n /\
   option_map reconnectAttempts (wsManager w') = Some (Z.of_nat (S k))).
Proof.
  intros (m & i & s & Hm & Hc & Ha & HM & HD & Hi & Hs & Hr & Ht & Hn & He) w'.
  subst w' n. cbn [run fold_left step].
  assert (Hk : List.length (map (fun j => (D * 2 ^ Z.of_nat j, false)) (seq 0 k)) = k).
  { rewrite length_map, length_seq. reflexivity. }
  (* the timer callback *)
  assert (Hnth : nth_error (reconnectTimers w) (List.length T + k)
                 = Some (D * 2 ^ Z.of_nat k, true)).
  { rewrite Ht.
    pose proof (@nth_error_app_snoc _ T
                  (map (fun j => (D * 2 ^ Z.of_nat j, false)) (seq 0 k))
                  (D * 2 ^ Z.of_nat k, true)) as H.
    rewrite Hk in H. exact H. }
  assert (Hupd : update_nth (List.length T + k) (fun t => (fst t, false))
                   (reconnectTimers w)
                 = T ++ map (fun j => (D * 2 ^ Z.of_nat j, false)) (seq 0 (S k))).
  { rewrite Ht.
    pose proof (@update_nth_app_snoc _ (fun t : Z * bool => (fst t, false)) T
                  (map (fun j => (D * 2 ^ Z.of_nat j, false)) (seq 0 k))
                  (D * 2 ^ Z.of_nat k, true)) as H.
    rewrite Hk in H. rewrite H, seq_S, map_app. reflexivity. }
  unfold on_reconnect_timer. rewrite Hnth, Hupd.
  assert (Hopen : forall x, open_socket (set_reconnectTimers x w) = None).
  { intros x. unfold open_socket. cbn. rewrite Hm, Hi, Hs, Hr. reflexivity. }
  match goal with
  | |- context [connect FromReconnectTimer ?x] =>
      rewrite (@connect_starts FromReconnectTimer x m Hm (Hopen _) Hc)
  end.
  cbn [sockets set_reconnectTimers].
  (* its socket fails *)
  unfold on_fail. cbn [sockets set_sockets set_wsManager set_reconnectTimers].
  rewrite nth_error_snoc. cbn [readyState new_socket].
  unfold on_close, on_socket, on_manager.
  cbn [sockets set_sockets set_wsManager set_reconnectTimers wsManager].
  rewrite (@update_nth_app _ _ (sockets w) _ []).
  rewrite nth_error_snoc.
  cbn [readyState set_readyState clear_connectTimer new_socket].
  rewrite (@update_nth_app _ _ (sockets w) _ []).
  unfold handleReconnection, schedule_reconnect, on_manager.
  cbn [wsManager set_wsManager set_sockets reconnectAttempts maxReconnectAttempts
       set_isConnecting set_connection reconnectDelay].
  rewrite Ha, HM, HD.
  unfold connect_failed. cbn [settled new_socket owner resume_connect].
  split.
  - intros Hlt. destruct (Z.geb_spec (Z.of_nat (S k)) M) as [Hge|_]; [lia|].
    unfold on_manager, on_socket.
    cbn [wsManager set_wsManager set_sockets set_reconnectTimers sockets log_emitted].
    rewrite (@update_nth_app _ _ (sockets w) _ []).
    eexists. exists (List.length (sockets w)). eexists.
    cbn [wsManager log_emitted set_wsManager set_sockets set_reconnectTimers sockets
         reconnectTimers emitted isConnecting set_isConnecting reconnectAttempts
         set_reconnectAttempts maxReconnectAttempts reconnectDelay connection
         set_connection].
    split; [reflexivity|].
    cbn [isConnecting set_isConnecting reconnectAttempts set_reconnectAttempts
         maxReconnectAttempts reconnectDelay connection set_connection].
    split; [reflexivity|].
    split; [lia|]. split; [exact HM|]. split; [exact HD|]. split; [reflexivity|].
    split; [apply nth_error_snoc|].
    cbn [readyState settle_socket set_readyState clear_connectTimer].
    split; [reflexivity|].
    split; [|split; [rewrite length_app; cbn [List.length]; lia | rewrite He; reflexivity]].
    rewrite <- app_assoc.
    replace (Z.of_nat (S k) + 1 - 1) with (Z.of_nat (S k)) by lia. reflexivity.
  - intros Hge. destruct (Z.geb_spec (Z.of_nat (S k)) M) as [_|Hlt]; [|lia].
    unfold on_manager, on_socket.
    cbn [wsManager set_wsManager set_sockets set_reconnectTimers sockets log_emitted].
    rewrite (@update_nth_app _ _ (sockets w) _ []).
    cbn [wsManager log_emitted set_wsManager set_sockets set_reconnectTimers sockets
         reconnectTimers emitted isConnecting set_isConnecting reconnectAttempts
         set_reconnectAttempts maxReconnectAttempts reconnectDelay connection
         set_connection option_map].
    rewrite He, length_app, <- app_assoc, Ha. cbn [List.length app].
    repeat split; auto. lia.
Qed.

Lemma failed_reconnect_rounds (mint : nat -> string) (M D : Z) (T : list (Z * bool))
    (k : nat) :
  forall (k0 n : nat) (E : list string) (w : World),
    backing_off M D T k0 n E w ->
    Z.of_nat (k0 + k) < M ->
    backing_off M D T (k0 + k) (n + k) (E ++ repeat "reconnectFailed" k)
      (run mint (failed_reconnects k (List.length T + k0) n) w).
Proof.
  induction k as [|k IH]; intros k0 n E w Hb Hlt.
  - cbn. rewrite !Nat.add_0_r, app_nil_r. exact Hb.
  - cbn [failed_reconnects].
    change (run mint (ReconnectTimer (List.length T + k0) :: SocketFail n
                      :: failed_reconnects k (S (List.length T + k0)) (S n)) w)
      with (run mint (failed_reconnects k (S (List.length T + k0)) (S n))
              (run mint [ReconnectTimer (List.length T + k0); SocketFail n] w)).
    destruct (@failed_reconnect_round mint M D T k0 n E w Hb) as [Hround _].
    assert (Hlt0 : Z.of_nat (S k0) < M) by lia.
    specialize (IH (S k0) (S n) (E ++ ["reconnectFailed"]) _ (Hround Hlt0)).
    rewrite Nat.add_succ_r in IH.
    replace (k0 + S k)%nat with (S k0 + k)%nat by lia.
    replace (n + S k)%nat with (S n + k)%nat by lia.
    cbn [repeat].
    replace (E ++ "reconnectFailed" :: repeat "reconnectFailed" k)
      with ((E ++ ["reconnectFailed"]) ++ repeat "reconnectFailed" k)
      by (rewrite <- app_assoc; reflexivity).
    apply IH. lia.
Qed.

Lemma failed_reconnects_snoc (k : nat) : forall t s,
  failed_reconnects (S k) t s =
    failed_reconnects k t s ++ [ReconnectTimer (t + k); SocketFail (s + k)].
Proof.
  induction k as [|k IH]; intros t s.
  - cbn. rewrite !Nat.add_0_r. reflexivity.
  - change (failed_reconnects (S (S k)) t s)
      with (ReconnectTimer t :: SocketFail s :: failed_reconnects (S k) (S t) (S s)).
    rewrite IH. cbn [failed_reconnects app].
    rewrite !Nat.add_succ_r. reflexivity.
Qed.

Lemma run_app (mint : nat -> string) (es es' : list Event) (w : World) :
  run mint (es ++ es') w = run mint es' (run mint es w).
Proof. unfold run. apply fold_left_app. Qed.

(** The loop of [resubscribeAll] on an open socket leaves the attempt
    counter, the timers and the log of events alone. *)
Lemma resubscribe_loop_backoff (mint : nat -> string) (j : nat) (rest : SubMap.t) :
  forall w,
    open_socket w = Some j ->
    option_map reconnectAttempts (wsManager (resubscribe_loop mint rest w))
      = option_map reconnectAttempts (wsManager w) /\
    emitted (resubscribe_loop mint rest w) = emitted w /\
    reconnectTimers (resubscribe_loop mint rest w) = reconnectTimers w.
Proof.
  induction rest as [|[h s] rest IH]; intros w Ho; cbn [resubscribe_loop]; [auto|].
  destruct (open_socket_manager w Ho) as (m & Hm).
  unfold subscribe, subscribe_start. cbv zeta. rewrite Hm.
  destruct (SubMap.size (subscriptions w) >=? maxSubscriptions (config w)).
  - rewrite <- Hm. apply IH. exact Ho.
  - rewrite (@connect_open _ w j Ho).
    rewrite (@subscribe_send_open mint _ w m j Hm Ho). cbn. auto.
Qed.

(** C6.  Every close of a socket runs the reconnection logic.  Below the
    maximum attempt count it increments the attempt counter and schedules
    one reconnect after [reconnectDelay * 2^(attempt - 1)], [attempt]
    being the incremented counter; once the counter has reached the
    maximum, nothing is scheduled and the terminal event
    "maxReconnectAttemptsReached" is emitted.  When the timer fires (it
    fires once) its callback calls [connect()], which opens a new socket;
    if that socket opens, the counter goes back to 0 and "reconnected" is
    emitted; if it fails, its own close schedules the next attempt.  So
    when the connection is lost with a counter of zero and every attempt
    fails, the attempts follow one another after the delays
    [reconnectDelay], [2 * reconnectDelay], [4 * reconnectDelay], ...,
    each failure emitting "reconnectFailed", until the close of the
    attempt that brings the counter to the maximum schedules nothing and
    emits the terminal event. *)
Theorem close_schedules_backoff (mint : nat -> string) (i : nat) (w : World)
    (m : WebSocketManager) (s : Socket) :
  wsManager w = Some m ->
  nth_error (sockets w) i = Some s ->
  readyState s <> CLOSED ->
  let base := reconnectDelay m in
  let t := List.length (reconnectTimers w) in
  let n := List.length (sockets w) in
  let w' := step mint (SocketClose i) w in
  (reconnectAttempts m < maxReconnectAttempts m ->
     let attempt := reconnectAttempts m + 1 in
     option_map reconnectAttempts (wsManager w') = Some attempt
     /\ reconnectTimers w' = reconnectTimers w ++ [(base * 2 ^ (attempt - 1), true)]
     /\ emitted w' = emitted w)
  /\ (maxReconnectAttempts m <= reconnectAttempts m ->
      option_map reconnectAttempts (wsManager w') = Some (reconnectAttempts m)
      /\ reconnectTimers w' = reconnectTimers w
      /\ emitted w' = emitted w ++ ["maxReconnectAttemptsReached"])
  /\ (connection m = Some i ->
      reconnectAttempts m < maxReconnectAttempts m ->
      let w2 := step mint (ReconnectTimer t) w' in
      let w3 := step mint (SocketOpen n) w2 in
      (sockets w2 = sockets w' ++ [new_socket FromReconnectTimer]
       /\ option_map connection (wsManager w2) = Some (Some n)
       /\ option_map isConnecting (wsManager w2) = Some true
       /\ reconnectTimers w2 =
            reconnectTimers w ++ [(base * 2 ^ reconnectAttempts m, false)]
       /\ step mint (ReconnectTimer t) w2 = w2)
      /\ (option_map reconnectAttempts (wsManager w3) = Some 0
          /\ emitted w3 = emitted w ++ ["reconnected"]
          /\ reconnectTimers w3 = reconnectTimers w2))
  /\ (connection m = Some i ->
      reconnectAttempts m = 0 ->
      forall k : nat,
        Z.of_nat k < maxReconnectAttempts m ->
        let wk := run mint (SocketClose i :: failed_reconnects k t n) w in
        reconnectTimers wk =
          reconnectTimers w
            ++ map (fun j => (base * 2 ^ Z.of_nat j, false)) (seq 0 k)
            ++ [(base * 2 ^ Z.of_nat k, true)]
        /\ option_map reconnectAttempts (wsManager wk) = Some (Z.of_nat (S k))
        /\ List.length (sockets wk) = (n + k)%nat
        /\ emitted wk = emitted w ++ repeat "reconnectFailed" k)
  /\ (connection m = Some i ->
      reconnectAttempts m = 0 ->
      forall k : nat,
        Z.of_nat (S k) = maxReconnectAttempts m ->
        let wk := run mint (SocketClose i :: failed_reconnects (S k) t n) w in
        reconnectTimers wk =
          reconnectTimers w ++ map (fun j => (base * 2 ^ Z.of_nat j, false)) (seq 0 (S k))
        /\ List.length (sockets wk) = (n + S k)%nat
        /\ emitted wk =
             emitted w ++ repeat "reconnectFailed" k
               ++ ["maxReconnectAttemptsReached"; "reconnectFailed"]).
Proof.
  intros Hm Hs Hr base t n w'. subst w'. cbn [step].
  rewrite (@on_close_unfold i w s Hs Hr).
  remember (on_manager (set_isConnecting false) (on_socket i (set_readyState CLOSED) w))
    as w0 eqn:Hw0.
  assert (Hw0' : w0 = set_wsManager (Some (set_isConnecting false m))
                        (set_sockets (update_nth i (set_readyState CLOSED) (sockets w)) w)).
  { rewrite Hw0. unfold on_manager, on_socket. cbn. rewrite Hm. reflexivity. }
  assert (Hm0 : wsManager w0 = Some (set_isConnecting false m))
    by (rewrite Hw0'; reflexivity).
  assert (Hrounds : connection m = Some i -> reconnectAttempts m = 0 ->
            forall k : nat, Z.of_nat k < maxReconnectAttempts m ->
            backing_off (maxReconnectAttempts m) base (reconnectTimers w) k (n + k)
              (emitted w ++ repeat "reconnectFailed" k)
              (run mint (SocketClose i :: failed_reconnects k t n) w)).
  { intros Hc Ha k Hk.
    assert (Hpos : 0 < maxReconnectAttempts m) by lia.
    pose proof (@close_backs_off mint i w m s Hm Hc Hs Hr Ha Hpos) as Hb.
    pose proof (@failed_reconnect_rounds mint _ _ _ k 0%nat _ _ _ Hb) as Hk'.
    rewrite Nat.add_0_r in Hk'. cbn [Nat.add] in Hk'. apply Hk'. exact Hk. }
  split; [|split; [|split; [|split]]].
  - intros Hlt. cbv zeta.
    rewrite (@handleReconnection_below w0 (set_isConnecting false m) Hm0 Hlt).
    rewrite Hw0'. cbn. auto.
  - intros Hge.
    rewrite (@handleReconnection_exhausted w0 (set_isConnecting false m) Hm0 Hge).
    rewrite Hw0'. cbn. auto.
  - intros Hc Hlt. cbv zeta.
    rewrite (@handleReconnection_below w0 (set_isConnecting false m) Hm0 Hlt).
    rewrite Hw0'. cbn [step]. unfold on_reconnect_timer, schedule_reconnect.
    cbn [reconnectTimers set_reconnectTimers set_wsManager set_sockets
         reconnectAttempts reconnectDelay set_isConnecting].
    subst t. rewrite nth_error_snoc.
    rewrite (@update_nth_app _ _ (reconnectTimers w) _ []). cbn [fst].
    replace (reconnectAttempts m + 1 - 1) with (reconnectAttempts m) by lia.
    match goal with
    | |- context [connect FromReconnectTimer ?x] =>
        rewrite (@connect_starts FromReconnectTimer x
                   (set_reconnectAttempts (reconnectAttempts m + 1)
                      (set_isConnecting false m)) eq_refl)
    end.
    2: { unfold open_socket. cbn. rewrite Hc.
         rewrite (@nth_error_update_same _ (set_readyState CLOSED) _ _ _ Hs).
         reflexivity. }
    2: reflexivity.
    cbn [sockets set_sockets set_wsManager set_reconnectTimers].
    rewrite length_update_nth. fold n.
    split.
    + cbn. rewrite nth_error_snoc. auto 10.
    + unfold on_open. cbn [sockets set_sockets set_wsManager set_reconnectTimers].
      assert (Hnth : nth_error (update_nth i (set_readyState CLOSED) (sockets w)
                                  ++ [new_socket FromReconnectTimer]) n
                     = Some (new_socket FromReconnectTimer)).
      { replace n with (List.length (update_nth i (set_readyState CLOSED) (sockets w)))
          by apply length_update_nth.
        apply nth_error_snoc. }
      rewrite Hnth. cbn [readyState new_socket settled owner resume_connect].
      unfold on_manager, on_socket, emit_reconnected.
      cbn [wsManager sockets set_sockets set_wsManager set_reconnectTimers log_emitted].
      match goal with
      | |- context [if reconnectedHandler ?x then _ else _] =>
          destruct (reconnectedHandler x)
      end; [|cbn; auto].
      unfold resubscribeAll. cbv zeta.
      match goal with
      | |- context [resubscribe_loop mint ?rest ?x] =>
          remember rest as entries eqn:Hentries; remember x as wx eqn:Hwx
      end.
      destruct (@resubscribe_loop_backoff mint n entries wx) as (H1 & H2 & H3).
      { rewrite Hwx. unfold open_socket. cbn.
        replace n with (List.length (update_nth i (set_readyState CLOSED) (sockets w)))
          by apply length_update_nth.
        rewrite (@update_nth_app _ _ _ _ []), nth_error_snoc. reflexivity. }
      rewrite H1, H2, H3, Hwx. cbn. auto.
  - intros Hc Ha k Hk. cbv zeta.
    destruct (Hrounds Hc Ha k Hk)
      as (mk & ik & sk & Hmk & _ & Hak & _ & _ & _ & _ & _ & Htk & Hnk & Hek).
    rewrite Hmk. cbn [option_map]. rewrite Hak. auto.
  - intros Hc Ha k Hk. cbv zeta.
    rewrite failed_reconnects_snoc.
    change (SocketClose i :: failed_reconnects k t n
              ++ [ReconnectTimer (t + k); SocketFail (n + k)])
      with ((SocketClose i :: failed_reconnects k t n)
              ++ [ReconnectTimer (t + k); SocketFail (n + k)]).
    rewrite run_app.
    assert (Hk' : Z.of_nat k < maxReconnectAttempts m) by lia.
    destruct (@failed_reconnect_round mint _ _ _ _ _ _ _ (Hrounds Hc Ha k Hk'))
      as [_ Hlast].
    destruct Hlast as (H1 & H2 & H3 & _); [lia|].
    fold t in H1, H2, H3. rewrite H1, H2, H3, <- app_assoc. auto.
Qed.

Lemma close_schedules_backoff_witness :
  reconnectTimers (step Sample.mint (SocketClose 0) Sample.subscribed) = [(1000, true)]
  /\ reconnectTimers
       (run Sample.mint (SocketClose 0 :: failed_reconnects 3 0 1) Sample.subscribed)
     = [(1000, false); (2000, false); (4000, false); (8000, true)]
  /\ emitted
       (run Sample.mint (SocketClose 0 :: failed_reconnects 5 0 1) Sample.subscribed)
     = emitted Sample.subscribed
         ++ ["reconnectFailed"; "reconnectFailed"; "reconnectFailed"; "reconnectFailed";
             "maxReconnectAttemptsReached"; "reconnectFailed"].
Proof.
  assert (Hm : wsManager Sample.subscribed =
               Some {| connection := Some 0%nat; reconnectAttempts := 0;
                       maxReconnectAttempts := 5; reconnectDelay := 1000;
                       heartbeatInterval := true; messageHandlers := [ClientMessage];
                       reconnectedHandler := true; isConnecting := false;
                       timeout := 1000 |}) by reflexivity.
  assert (Hs : nth_error (sockets Sample.subscribed) 0 =
               Some {| readyState := OPEN; settled := true; connectTimer := false;
                       owner := FromSubscribe
                                  {| call_eventType := "newHeads"; call_params := JObj [];
                                     call_cont := ToCaller 0 |} |}) by reflexivity.
  assert (Hr : OPEN <> CLOSED) by discriminate.
  destruct (@close_schedules_backoff Sample.mint 0 Sample.subscribed _ _ Hm Hs Hr)
    as (H1 & _ & _ & H4 & H5).
  split; [|split].
  - destruct H1 as (_ & Ht & _); [reflexivity | exact Ht].
  - destruct (H4 eq_refl eq_refl 3%nat) as (Ht & _); [reflexivity | exact Ht].
  - destruct (H5 eq_refl eq_refl 4%nat) as (_ & _ & He); [reflexivity | exact He].
Defined.

(* ------------------------------------------------------------------ *)
(** ** The subscription limit along runs without overlapping calls     *)
(* ------------------------------------------------------------------ *)









(* ------------------------------------------------------------------ *)
(** ** Several calls in one tick                                        *)
(* ------------------------------------------------------------------ *)

(** A tick with one call in it is the event of that call. *)
Lemma block_one_call (mint : nat -> string) (w : World) :
  (forall c method params http,
     step mint (Block [DoCallRPC c method params http]) w
       = step mint (CallRPC c method params http) w) /\
  (forall c et ps,
     step mint (Block [DoSubscribe c et ps]) w = step mint (Subscribe c et ps) w) /\
  (forall c h, step mint (Block [DoUnsubscribe c h]) w = step mint (Unsubscribe c h) w) /\
  (forall h k,
     step mint (Block [DoSetSubscriptionCallback h k]) w
       = step mint (SetSubscriptionCallback h k) w) /\
  (forall c, step mint (Block [DoConnectWebSocket c]) w = step mint (ConnectWebSocket c) w) /\
  step mint (Block [DoDisconnect]) w = step mint Disconnect w.
Proof.
  split; [|split; [|split; [|split; [|split]]]]; intros; cbn [step]; unfold block;
    cbn [calls_now call_now].
  - destruct (callRPC method params http w). reflexivity.
  - unfold subscribe, subscribe_start. cbv zeta.
    destruct (wsManager w); [|reflexivity].
    destruct (SubMap.size (subscriptions w) >=? maxSubscriptions (config w));
      [reflexivity|].
    destruct (connect _ w) as [w1 [|]]; cbn [app orb fold_left]; [|reflexivity].
    cbn [resume_connect]. destruct (subscribe_send mint _ w1) as [w2 [e|]];
      reflexivity.
  - destruct (unsubscribe h w). reflexivity.
  - reflexivity.
  - reflexivity.
  - unfold disconnect. destruct (wsManager w) eqn:Hm; cbn [app orb fold_left];
      [reflexivity|].
    unfold manager_disconnect, on_manager. cbv zeta. rewrite Hm. cbn. rewrite !Hm.
    reflexivity.
Qed.

(** In one tick [disconnect()] clears the table only after the calls made
    after it have run their synchronous part: an [unsubscribe] of a known
    handle made right after [disconnect()] still finds its entry, takes an
    id, and fails to send. *)
Lemma unsubscribe_after_disconnect_in_one_tick :
  let w := step Sample.mint (Block [DoDisconnect; DoUnsubscribe 4 "sub_0"])
             Sample.subscribed in
  let w' := run Sample.mint [Disconnect; Unsubscribe 4 "sub_0"] Sample.subscribed in
  issued w = issued Sample.subscribed ++ [requestId Sample.subscribed]
  /\ issued w' = issued Sample.subscribed
  /\ subscriptions w = [] /\ subscriptions w' = []
  /\ outcomes w = outcomes w'.
Proof. vm_compute. repeat split; reflexivity. Qed.
